(** * fetch-forum-topic: a shallow embedding of the forum-topic mirroring tool

    The repository holds three generations of the same Go program:

    - [V1]: [fetch-forum-topic.go], which walks the parsed markup tree and
      fetches every requisite resource, with no cache;
    - [V2]: the first token-streaming generation, with a set of fetched
      resources and the [doesResourceHaveToBeFetched] host test;
    - [V3]: the second token-streaming generation, with a map from resource
      URI to content type, [fetchResourceFromLinkIfNecessary] and the CSS
      link rewriter [fetchLinkedResourcesInCSS].

    Functions that are textually identical in the three generations
    ([adjustResourceFilenameExtension], [getLocalResourceRelativeReference],
    [getFailedDownloads], the attribute scan and the navigational test) are
    embedded once. Strings are [string], byte slices are [list ascii], Go maps
    are [gmap], the network and the file system are explicit state. *)

From Stdlib Require Import Strings.String Strings.Ascii Numbers.DecimalString.
From stdpp Require Import base option list gmap strings.

Local Open Scope string_scope.
Local Open Scope list_scope.

(** ** Go's [strings] package *)

Module strings.

(** [strings.HasPrefix(s, prefix)] *)
Definition HasPrefix (s prefix : string) : bool := String.prefix prefix s.

(** [strings.Contains(s, substr)] *)
Fixpoint Contains (s substr : string) : bool :=
  String.prefix substr s ||
  match s with
  | EmptyString => false
  | String _ s' => Contains s' substr
  end.

(** [strings.ContainsRune(s, c)] for a one-byte rune. *)
Fixpoint ContainsByte (s : string) (c : ascii) : bool :=
  match s with
  | EmptyString => false
  | String d s' => Ascii.eqb d c || ContainsByte s' c
  end.

End strings.

(** ** Go's [fmt] package *)

Module fmt.

(** The verb [%d], and [fmt.Sprint], on a number that is not negative. *)
Definition decimal (z : Z) : string := NilEmpty.string_of_uint (N.to_uint (Z.to_N z)).

End fmt.

(** ** Go's [path/filepath] package (Unix: the separator is the slash) *)

Module filepath.

Definition Separator : ascii := "/"%char.

(** One item of a pattern chunk: a literal byte, [?], or a class [[...]]
    given by the bytes it lists. *)
Inductive Item : Type :=
| Lit (c : ascii)
| AnyOne
| Class (cs : list ascii).

(** A pattern after [scanChunk]: a sequence of chunks, each with the flag
    telling whether stars come before it. The patterns of this program are
    constants, so they are written in this form directly. *)
Definition Pattern : Type := list (bool * list Item).

Definition item_matches (it : Item) (c : ascii) : bool :=
  match it with
  | Lit d => Ascii.eqb c d
  | AnyOne => negb (Ascii.eqb c Separator)
  | Class cs => existsb (Ascii.eqb c) cs
  end.

(** [matchChunk(chunk, s)]: the chunk must match a prefix of [s]; the rest of
    [s] is returned. *)
Fixpoint matchChunk (chunk : list Item) (s : string) : option string :=
  match chunk with
  | [] => Some s
  | it :: chunk' =>
      match s with
      | EmptyString => None
      | String c s' => if item_matches it c then matchChunk chunk' s' else None
      end
  end.

Definition is_empty (s : string) : bool :=
  match s with EmptyString => true | _ => false end.

(** The inner loop of [Match] after a star:
    [for i := 0; i < len(name) && name[i] != Separator; i++], trying the chunk
    at [name[i+1:]]; when the chunk is the last one a match that leaves text
    over is skipped. *)
Fixpoint skipStar (chunk : list Item) (last : bool) (name : string) : option string :=
  match name with
  | EmptyString => None
  | String c name' =>
      if Ascii.eqb c Separator then None
      else match matchChunk chunk name' with
           | Some t =>
               if last && negb (is_empty t) then skipStar chunk last name'
               else Some t
           | None => skipStar chunk last name'
           end
  end.

(** [filepath.Match(pattern, name)]; the patterns used are well formed, so the
    error result is always nil and is left out. *)
Fixpoint Match (pattern : Pattern) (name : string) : bool :=
  match pattern with
  | [] => is_empty name
  | (star, chunk) :: rest =>
      let last := match rest with [] => true | _ => false end in
      let after_star :=
        if star then
          match skipStar chunk last name with
          | Some t => Match rest t
          | None => false
          end
        else false in
      match chunk with
      | [] => if star then negb (strings.ContainsByte name Separator)
              else Match rest name
      | _ =>
          match matchChunk chunk name with
          | Some t => if is_empty t || negb last then Match rest t else after_star
          | None => after_star
          end
      end
  end.

(** [filepath.FromSlash] and [filepath.ToSlash] are the identity when the
    separator is the slash. *)
Definition FromSlash (s : string) : string := s.
Definition ToSlash (s : string) : string := s.

End filepath.

(** ** The Extension Normalizer *)

Import filepath.

Definition both_cases (lower upper : string) : list Item :=
  (fix go (l u : string) : list Item :=
     match l, u with
     | String a l', String b u' => Class [b; a] :: go l' u'
     | _, _ => []
     end) lower upper.

(** ["*.[Hh][Tt][Mm][Ll]"] and its siblings. *)
Definition pattern_html : Pattern := [(true, Lit "." :: both_cases "html" "HTML")].
Definition pattern_htm : Pattern := [(true, Lit "." :: both_cases "htm" "HTM")].
Definition pattern_css : Pattern := [(true, Lit "." :: both_cases "css" "CSS")].
Definition pattern_atom : Pattern := [(true, Lit "." :: both_cases "atom" "ATOM")].
Definition pattern_rss : Pattern := [(true, Lit "." :: both_cases "rss" "RSS")].

Definition adjustResourceFilenameExtension (filename contentType : string) : string :=
  if strings.HasPrefix contentType "text/html"
     || strings.HasPrefix contentType "application/xhtml+xml" then
    let filenameEndsWithHTML := Match pattern_html filename in
    let filenameEndsWithHTM := Match pattern_htm filename in
    if negb filenameEndsWithHTML && negb filenameEndsWithHTM
    then filename +:+ ".html" else filename
  else if strings.HasPrefix contentType "text/css" then
    let filenameEndsWithCSS := Match pattern_css filename in
    if negb filenameEndsWithCSS then filename +:+ ".css" else filename
  else if strings.HasPrefix contentType "application/atom+xml" then
    let filenameEndsWithAtom := Match pattern_atom filename in
    if negb filenameEndsWithAtom then filename +:+ ".atom" else filename
  else if strings.HasPrefix contentType "application/rss+xml" then
    let filenameEndsWithRSS := Match pattern_rss filename in
    if negb filenameEndsWithRSS then filename +:+ ".rss" else filename
  else filename.

(** ** Go's [net/url] package, as far as the program reads it *)

Module url.

(** The fields of [url.URL] that the program reads or sets. [ForceQuery] is
    kept because [String] prints it. User information, [RawPath] and
    [RawFragment] are never touched by the program. *)
Record URL : Type := mkURL {
  Scheme : string;
  Opaque : string;
  Host : string;
  Path : string;
  ForceQuery : bool;
  RawQuery : string;
  Fragment : string
}.

Definition empty : URL := mkURL "" "" "" "" false "" "".

#[global] Instance URL_eq_dec : EqDecision URL.
Proof. solve_decision. Defined.

End url.

Export url(URL, mkURL, Scheme, Opaque, Host, Path, ForceQuery, RawQuery, Fragment).

(** The library functions the program calls on URLs and paths. The theorems
    about the rewriters hold for every implementation of this interface;
    [GoModel] below is an executable one used to run the program on concrete
    pages. *)
Class Library : Type := {
  url_Parse : string -> option URL;               (* [None]: the error result *)
  url_ResolveReference : URL -> URL -> URL;       (* [base.ResolveReference(ref)] *)
  url_String : URL -> string;
  url_Hostname : URL -> string;
  filepath_Join : list string -> string;
  filepath_Dir : string -> string;
  filepath_Rel : string -> string -> option string  (* [None]: the error result *)
}.

(** ** Atoms of [golang.org/x/net/html/atom] *)

Module atom.

(** The program compares atoms only with the ones named here, so every other
    entry of the atom table is identified with [Zero], the value of
    [atom.Lookup] on a string that is not in the table and the initial value
    of an [atom.Atom] variable. *)
Inductive Atom : Type :=
| Zero
| A | Action | Area | Cite | Code | Data | Embed | Formaction | Href | Icon
| Link | Manifest | Poster | Rel | Script | Src | Srcset | Style | Usemap.

#[global] Instance Atom_eq_dec : EqDecision Atom.
Proof. solve_decision. Defined.

Definition table : list (string * Atom) :=
  [("a", A); ("action", Action); ("area", Area); ("cite", Cite);
   ("code", Code); ("data", Data); ("embed", Embed);
   ("formaction", Formaction); ("href", Href); ("icon", Icon);
   ("link", Link); ("manifest", Manifest); ("poster", Poster); ("rel", Rel);
   ("script", Script); ("src", Src); ("srcset", Srcset); ("style", Style);
   ("usemap", Usemap)].

Fixpoint assoc (key : string) (l : list (string * Atom)) : Atom :=
  match l with
  | [] => Zero
  | (k, a) :: l' => if String.eqb key k then a else assoc key l'
  end.

Definition Lookup (key : string) : Atom := assoc key table.
#[global] Arguments Lookup : simpl never.

End atom.

Export atom(Atom).

(** ** Tokens and nodes of [golang.org/x/net/html] *)

Module html.

Record Attribute : Type := mkAttribute {
  Namespace : string;
  Key : string;
  Val : string
}.

Inductive TokenType : Type :=
| ErrorToken | TextToken | StartTagToken | EndTagToken
| SelfClosingTagToken | CommentToken | DoctypeToken.

Record Token : Type := mkToken {
  Type_ : TokenType;
  DataAtom : Atom;
  Data : string;
  Attr : list Attribute
}.

Inductive NodeType : Type :=
| ErrorNode | TextNode | DocumentNode | ElementNode | CommentNode | DoctypeNode.

(** A node with its children in document order ([FirstChild], then
    [NextSibling] repeatedly). *)
#[warnings="-register-all"]
Inductive Node : Type :=
| mkNode (type : NodeType) (dataAtom : Atom) (data : string)
         (attr : list Attribute) (children : list Node).

#[global] Instance Attribute_eq_dec : EqDecision Attribute.
Proof. solve_decision. Defined.
#[global] Instance TokenType_eq_dec : EqDecision TokenType.
Proof. solve_decision. Defined.
#[global] Instance NodeType_eq_dec : EqDecision NodeType.
Proof. solve_decision. Defined.

(** [attrs[index].Val = val]; the program only writes at an index the scan
    found, so the index is in range. *)
Definition setVal (index : nat) (val : string) (attrs : list Attribute) : list Attribute :=
  alter (fun a => mkAttribute (Namespace a) (Key a) val) index attrs.

Definition withAttr (t : Token) (attrs : list Attribute) : Token :=
  mkToken (Type_ t) (DataAtom t) (Data t) attrs.

Definition withData (t : Token) (data : string) : Token :=
  mkToken (Type_ t) (DataAtom t) data (Attr t).

End html.

Export html(Attribute, mkAttribute, Namespace, Key, Val, Token, mkToken,
            Type_, DataAtom, Data, Attr, Node, mkNode, setVal).

(** ** The attribute scan and the navigational test (all generations) *)

(** The local variables of the scan. The [style] variables exist in [V3]
    only. *)
Record Scan : Type := mkScan {
  linkURIAttrAtom : Atom;
  linkURIAttrIndex : nat;
  styleIndex : nat;
  linkURIStr : string;
  rel : string;
  style : string;
  hasLinkURIAttr : bool;
  hasRel : bool;
  hasStyle : bool
}.

Definition scan_init : Scan := mkScan atom.Zero 0 0 "" "" "" false false false.

(** The atoms of the first [case] of the [switch]. *)
Definition is_link_atom (a : Atom) : bool :=
  match a with
  | atom.Action | atom.Code | atom.Cite | atom.Data | atom.Formaction
  | atom.Href | atom.Icon | atom.Manifest | atom.Poster | atom.Src
  | atom.Srcset | atom.Usemap => true
  | _ => false
  end.

(** The keys of the inner [switch attr.Key]. *)
Definition is_link_key (k : string) : bool :=
  bool_decide (k ∈ ["archive"; "background"; "codebase"; "classid";
                    "lowsrc"; "longdesc"; "profile"]).

(** The body of the [switch] for one attribute. [withStyle] tells whether the
    [case atom.Style] is present ([V3]) or not ([V1], [V2]). *)
Definition scan_step (withStyle : bool) (index : nat) (attr : Attribute) (s : Scan) : Scan :=
  let attrKeyAtom := atom.Lookup (Key attr) in
  if is_link_atom attrKeyAtom then
    mkScan attrKeyAtom index (styleIndex s) (Val attr) (rel s) (style s)
           true (hasRel s) (hasStyle s)
  else if bool_decide (attrKeyAtom = atom.Rel) then
    mkScan (linkURIAttrAtom s) (linkURIAttrIndex s) (styleIndex s) (linkURIStr s)
           (Val attr) (style s) (hasLinkURIAttr s) true (hasStyle s)
  else if withStyle && bool_decide (attrKeyAtom = atom.Style) then
    mkScan (linkURIAttrAtom s) (linkURIAttrIndex s) index (linkURIStr s)
           (rel s) (Val attr) (hasLinkURIAttr s) (hasRel s) true
  else if is_link_key (Key attr) then
    mkScan (linkURIAttrAtom s) index (styleIndex s) (Val attr) (rel s) (style s)
           true (hasRel s) (hasStyle s)
  else s.

(** [for index, attr := range attrs { if hasLinkURIAttr && hasRel { break }; ... }] *)
Fixpoint scan_from (withStyle : bool) (index : nat) (attrs : list Attribute) (s : Scan) : Scan :=
  match attrs with
  | [] => s
  | attr :: rest =>
      if hasLinkURIAttr s && hasRel s then s
      else scan_from withStyle (S index) rest (scan_step withStyle index attr s)
  end.

Definition scanAttrs (withStyle : bool) (attrs : list Attribute) : Scan :=
  scan_from withStyle 0 attrs scan_init.

Definition isRelInline (rel : string) : bool :=
  strings.Contains rel "stylesheet" || strings.Contains rel "icon"
  || strings.Contains rel "shortcut".

Definition atom_neq (a b : Atom) : bool := negb (bool_decide (a = b)).

(** The condition of the [if] that selects the requisite branch, with Go's
    precedence ([&&] binds tighter than [||]). *)
Definition isRequisite (linkURIAttrAtom dataAtom : Atom) (hasRel : bool) (rel : string) : bool :=
  atom_neq linkURIAttrAtom atom.Action && atom_neq linkURIAttrAtom atom.Formaction
  && (atom_neq linkURIAttrAtom atom.Href
      || (atom_neq dataAtom atom.A && atom_neq dataAtom atom.Area
          && atom_neq dataAtom atom.Embed
          && (atom_neq dataAtom atom.Link || (hasRel && isRelInline rel)))).

(** [relativeReference] with the [%3F] suffix for a query. *)
Definition withQuery (reference rawQuery : string) : string :=
  if bool_decide (rawQuery = "") then reference else reference +:+ "%3F" +:+ rawQuery.

(** ** The network and the file system *)

(** What the program cannot control: the answer of the server to a GET
    request, which may depend on the requests made before, and whether a file
    can be created. [None] from [http_Get] is a transport error or a status
    other than 200; otherwise the content type and the body. *)
Record World : Type := {
  http_Get : list string -> string -> option (string * list ascii);
  can_create : string -> bool
}.

(** The observable effects: the GET requests issued, oldest first, and the
    files written. *)
Record Sys : Type := mkSys {
  requests : list string;
  files : gmap string (list ascii)
}.

Definition sys_init : Sys := mkSys [] ∅.

Section Program.

Context {lib : Library} (world : World).

(** [getResource]: [None] is the error result. *)
Definition getResource (urlStr : string) (sys : Sys) : option (string * list ascii) * Sys :=
  (http_Get world (requests sys) urlStr, mkSys (requests sys ++ [urlStr]) (files sys)).

Definition getLocalResourceRelativeReference (uri : URL) (contentType : string) : string :=
  let relativeURIReference :=
    mkURL "" (Opaque uri) "" (Path uri) false (RawQuery uri) "" in
  adjustResourceFilenameExtension (url_String relativeURIReference) contentType.

(** The name of the file in which a resource is stored. *)
Definition resourceFilename (resourceURL : URL) (contentType targetHostDir : string) : string :=
  filepath_Join [targetHostDir;
                 filepath.FromSlash (getLocalResourceRelativeReference resourceURL contentType)].

End Program.

(** ** First generation: the tree walk of [fetch-forum-topic.go] *)

Module V1.
Section V1.

Context {lib : Library} (world : World).

(** [writeResourceContentToFile]: [false] is the error result (the directory
    or the file could not be created). *)
Definition writeResourceContentToFile (content : list ascii) (contentType : string)
    (resourceURL : URL) (targetHostDir : string) (sys : Sys) : bool * Sys :=
  let filename := resourceFilename resourceURL contentType targetHostDir in
  if can_create world filename
  then (true, mkSys (requests sys) (<[filename := content]> (files sys)))
  else (false, sys).

(** [getAndWriteResourceToFile]: the content type, or [None] for an error. *)
Definition getAndWriteResourceToFile (resourceURL : URL) (targetHostDir : string)
    (sys : Sys) : option string * Sys :=
  match getResource world (url_String resourceURL) sys with
  | (None, sys1) => (None, sys1)
  | (Some (contentType, content), sys1) =>
      match writeResourceContentToFile content contentType resourceURL targetHostDir sys1 with
      | (true, sys2) => (Some contentType, sys2)
      | (false, sys2) => (None, sys2)
      end
  end.

Section Page.

Variables (pageURL : URL) (targetHostDir pageDirpath : string).

(** The body of [fetchRequisiteResourcesAndRewriteLinks] for an element node:
    the attributes after the rewrite. *)
Definition rewriteElement (dataAtom : Atom) (attrs : list Attribute) (sys : Sys)
    : list Attribute * Sys :=
  let s := scanAttrs false attrs in
  if negb (hasLinkURIAttr s) then (attrs, sys) else
  match url_Parse (linkURIStr s) with
  | None => (attrs, sys)
  | Some linkURI =>
      if isRequisite (linkURIAttrAtom s) dataAtom (hasRel s) (rel s) then
        if bool_decide (Opaque linkURI = "") then
          if bool_decide (Path linkURI ≠ "") then
            let linkURI := url_ResolveReference pageURL linkURI in
            match getAndWriteResourceToFile linkURI targetHostDir sys with
            | (None, sys1) => (attrs, sys1)
            | (Some contentType, sys1) =>
                match filepath_Rel pageDirpath (filepath.FromSlash (Path linkURI)) with
                | None => (attrs, sys1)
                | Some relativeLinkPath =>
                    let relativeReference :=
                      withQuery (filepath.ToSlash relativeLinkPath) (RawQuery linkURI) in
                    (setVal (linkURIAttrIndex s)
                            (adjustResourceFilenameExtension relativeReference contentType)
                            attrs, sys1)
                end
            end
          else (attrs, sys)
        else
          match getAndWriteResourceToFile linkURI targetHostDir sys with
          | (None, sys1) => (attrs, sys1)
          | (Some contentType, sys1) =>
              let relativeReference := withQuery (Opaque linkURI) (RawQuery linkURI) in
              (setVal (linkURIAttrIndex s)
                      (adjustResourceFilenameExtension relativeReference contentType)
                      attrs, sys1)
          end
      else
        let linkURI := url_ResolveReference pageURL linkURI in
        (setVal (linkURIAttrIndex s) (url_String linkURI) attrs, sys)
  end.

(** [fetchRequisiteResourcesAndRewriteLinks]: the node itself, then (the
    deferred call) its children from first to last. *)
Fixpoint fetchRequisiteResourcesAndRewriteLinks (node : Node) (sys : Sys) : Node * Sys :=
  match node with
  | mkNode type dataAtom data attrs children =>
      let '(attrs', sys1) :=
        if bool_decide (type = html.ElementNode)
        then rewriteElement dataAtom attrs sys else (attrs, sys) in
      let '(children', sys2) :=
        (fix recursively (l : list Node) (sys : Sys) : list Node * Sys :=
           match l with
           | [] => ([], sys)
           | child :: l' =>
               let '(child', sys') := fetchRequisiteResourcesAndRewriteLinks child sys in
               let '(l'', sys'') := recursively l' sys' in
               (child' :: l'', sys'')
           end) children sys1 in
      (mkNode type dataAtom data attrs' children', sys2)
  end.

End Page.

(** [postOffset := forumTopicPostStep * (pageNumber - 1)] and
    [pageURLStr := fmt.Sprintf("%s%d", forumTopicPageURLTemplate, postOffset)];
    [uint] is taken to be 64 bits wide. *)
Definition uint_wrap (z : Z) : Z := z mod 2 ^ 64.

Definition postOffset (forumTopicPostStep pageNumber : Z) : Z :=
  uint_wrap (forumTopicPostStep * uint_wrap (pageNumber - 1)).

Definition pageURLStr (forumTopicPageURLTemplate : string)
    (forumTopicPostStep pageNumber : Z) : string :=
  forumTopicPageURLTemplate +:+ fmt.decimal (postOffset forumTopicPostStep pageNumber).

(** [forumTopicPageTargetDir] of [main], the [targetDir] of
    [fetchForumTopicPage]. *)
Definition forumTopicPageTargetDir (targetDir : string) (pageNumber : Z) : string :=
  filepath_Join [targetDir; fmt.decimal pageNumber].

(** The file in which [fetchForumTopicPage] stores the rewritten page: the
    file name computed by [writeResourceContentToFile] for the page URL and
    the content type of the response. [None] when the page URL does not
    parse. *)
Definition pageFilename (forumTopicPageURLTemplate : string)
    (forumTopicPostStep pageNumber : Z) (targetDir contentType : string) : option string :=
  match url_Parse (pageURLStr forumTopicPageURLTemplate forumTopicPostStep pageNumber) with
  | None => None
  | Some pageURL =>
      let targetHostDir :=
        filepath_Join [forumTopicPageTargetDir targetDir pageNumber; url_Hostname pageURL] in
      Some (resourceFilename pageURL contentType targetHostDir)
  end.

(** The URL that [fetchForumTopicPage] requests: [pageURL.String()]. *)
Definition pageRequestURL (forumTopicPageURLTemplate : string)
    (forumTopicPostStep pageNumber : Z) : option string :=
  url_String <$> url_Parse (pageURLStr forumTopicPageURLTemplate forumTopicPostStep pageNumber).

End V1.
End V1.

(** ** Second generation: token stream, set of fetched resources *)

Module V2.
Section V2.

Context {lib : Library} (world : World).

(** The state of one page task: the effects and the local
    [fetchedResources] of type [map[string]struct{}]. *)
Record State : Type := mkState {
  sys : Sys;
  fetchedResources : gset string
}.

(** [openFileForResourceContent]: the file name when the file was created
    (and truncated), [None] for the error result. *)
Definition openFileForResourceContent (resourceURI : URL) (contentType targetHostDir : string)
    (s : Sys) : option string * Sys :=
  let filename := resourceFilename resourceURI contentType targetHostDir in
  if can_create world filename
  then (Some filename, mkSys (requests s) (<[filename := []]> (files s)))
  else (None, s).

(** [getAndWriteResourceToFile]: the error of [openFileForResourceContent]
    is not tested, but writing to the nil file fails then. *)
Definition getAndWriteResourceToFile (resourceURL : URL) (targetHostDir : string)
    (s : Sys) : option string * Sys :=
  match getResource world (url_String resourceURL) s with
  | (None, s1) => (None, s1)
  | (Some (contentType, content), s1) =>
      match openFileForResourceContent resourceURL contentType targetHostDir s1 with
      | (Some filename, s2) =>
          (Some contentType, mkSys (requests s2) (<[filename := content]> (files s2)))
      | (None, s2) => (None, s2)
      end
  end.

Section Page.

Variables (pageURL : URL) (targetHostDir pageDirpath : string).

Definition doesResourceHaveToBeFetched (fetched : gset string) (resourceURI : URL) : bool :=
  let wasResourceFetched := bool_decide (url_String resourceURI ∈ fetched) in
  negb wasResourceFetched && bool_decide (Host resourceURI = Host pageURL).

Definition markFetched (linkURI : URL) (st : State) (s : Sys) : State :=
  mkState s ({[url_String linkURI]} ∪ fetchedResources st).

(** The body of the loop of [fetchForumTopicPage] for one token: the token
    that is written to the page file, and the state. *)
Definition processToken (token : Token) (st : State) : Token * State :=
  if negb (bool_decide (Type_ token = html.SelfClosingTagToken))
     && negb (bool_decide (Type_ token = html.StartTagToken)) then (token, st) else
  let s := scanAttrs false (Attr token) in
  if negb (hasLinkURIAttr s) then (token, st) else
  match url_Parse (linkURIStr s) with
  | None => (token, st)
  | Some linkURI =>
      if isRequisite (linkURIAttrAtom s) (DataAtom token) (hasRel s) (rel s) then
        if bool_decide (Opaque linkURI = "") then
          if bool_decide (Path linkURI ≠ "") then
            let linkURI := url_ResolveReference pageURL linkURI in
            if negb (doesResourceHaveToBeFetched (fetchedResources st) linkURI)
            then (token, st) else
            match getAndWriteResourceToFile linkURI targetHostDir (sys st) with
            | (None, s1) => (token, mkState s1 (fetchedResources st))
            | (Some contentType, s1) =>
                match filepath_Rel pageDirpath (filepath.FromSlash (Path linkURI)) with
                | None => (token, mkState s1 (fetchedResources st))
                | Some relativeLinkPath =>
                    let relativeReference :=
                      withQuery (filepath.ToSlash relativeLinkPath) (RawQuery linkURI) in
                    (html.withAttr token
                       (setVal (linkURIAttrIndex s)
                          (adjustResourceFilenameExtension relativeReference contentType)
                          (Attr token)),
                     markFetched linkURI st s1)
                end
            end
          else (token, markFetched linkURI st (sys st))
        else
          if negb (doesResourceHaveToBeFetched (fetchedResources st) linkURI)
          then (token, st) else
          match getAndWriteResourceToFile linkURI targetHostDir (sys st) with
          | (None, s1) => (token, mkState s1 (fetchedResources st))
          | (Some contentType, s1) =>
              let relativeReference := withQuery (Opaque linkURI) (RawQuery linkURI) in
              (html.withAttr token
                 (setVal (linkURIAttrIndex s)
                    (adjustResourceFilenameExtension relativeReference contentType)
                    (Attr token)),
               markFetched linkURI st s1)
          end
      else
        let linkURI := url_ResolveReference pageURL linkURI in
        (html.withAttr token (setVal (linkURIAttrIndex s) (url_String linkURI) (Attr token)),
         st)
  end.

(** The loop over the tokens of the page. *)
Fixpoint processTokens (tokens : list Token) (st : State) : list Token * State :=
  match tokens with
  | [] => ([], st)
  | token :: rest =>
      let '(token', st1) := processToken token st in
      let '(rest', st2) := processTokens rest st1 in
      (token' :: rest', st2)
  end.

End Page.
End V2.
End V2.

(** ** The pattern [cssURLMatcher] of the third generation *)

(** The regular expression is [(url\s*\(["'])(.*?)(["']\))]: the text [url],
    spaces, an opening parenthesis and a quote; then, lazily, any bytes but a
    newline; then a quote and a closing parenthesis. [regexp] finds the
    leftmost match and, at that start, the shortest lazy group. The matcher
    works on bytes: the bytes that the pattern names are ASCII and do not
    occur inside a multi-byte rune. *)

Module cssURLMatcher.

(** The class [\s] of Go's [regexp]: tab, newline, form feed, return, space. *)
Definition is_space (c : ascii) : bool :=
  bool_decide (c ∈ ["009"; "010"; "012"; "013"; " "]%char).

(** The class of the two quote characters (codes 34 and 39). *)
Definition is_quote (c : ascii) : bool :=
  bool_decide (c ∈ ["034"; "039"]%char).

Definition newline : ascii := "010"%char.

(** [\s*] is greedy and what follows it is not a space, so it takes every
    space: the number of bytes taken and what is left. *)
Fixpoint skip_spaces (s : list ascii) : nat * list ascii :=
  match s with
  | c :: s' =>
      if is_space c then let '(k, r) := skip_spaces s' in (S k, r) else (0, s)
  | [] => (0, [])
  end.

Definition closes (s : list ascii) : bool :=
  match s with
  | q :: ")"%char :: _ => is_quote q
  | _ => false
  end.

(** The lazy group [(.*?)] followed by the closing group, a quote and a
    closing parenthesis: the lazy group stops at the first place where the
    closing group matches; the dot does not match a newline. The result is
    the length of the lazy group. *)
Fixpoint lazy_body (s : list ascii) : option nat :=
  if closes s then Some 0
  else match s with
       | c :: s' => if bool_decide (c = newline) then None else S <$> lazy_body s'
       | [] => None
       end.

(** A match that starts at the first byte of [s]: the lengths of the first
    and of the second group. *)
Definition match_here (s : list ascii) : option (nat * nat) :=
  match s with
  | "u"%char :: "r"%char :: "l"%char :: s1 =>
      let '(k, s2) := skip_spaces s1 in
      match s2 with
      | "("%char :: q :: s3 =>
          if is_quote q then (fun n => (3 + k + 2, n)) <$> lazy_body s3 else None
      | _ => None
      end
  | _ => None
  end.

(** The eight indices [urlMatch[0]] to [urlMatch[7]] of [FindSubmatchIndex]. *)
Record Submatch : Type := mkSubmatch {
  i0 : nat; i1 : nat; i2 : nat; i3 : nat; i4 : nat; i5 : nat; i6 : nat; i7 : nat
}.

Definition submatch_at (start g1 g2 : nat) : Submatch :=
  mkSubmatch start (start + g1 + g2 + 2) start (start + g1)
             (start + g1) (start + g1 + g2) (start + g1 + g2) (start + g1 + g2 + 2).

(** The leftmost match: the first start position at which a match exists. *)
Fixpoint find_from (start : nat) (s : list ascii) : option Submatch :=
  match match_here s with
  | Some (g1, g2) => Some (submatch_at start g1 g2)
  | None =>
      match s with
      | [] => None
      | _ :: s' => find_from (S start) s'
      end
  end.

Definition FindSubmatchIndex (css : list ascii) : option Submatch := find_from 0 css.

End cssURLMatcher.

Import cssURLMatcher(Submatch, i0, i1, i2, i3, i4, i5, i6, i7).

(** [b[lo:hi]] *)
Definition slice {T : Type} (lo hi : nat) (b : list T) : list T := take (hi - lo) (drop lo b).

(** ** Third generation: content-type cache and CSS link rewriter *)

Module V3.

(** The state of one page task: the effects and the map [fetchedResources]
    from the resource URI to the content type of the resource, which every
    [resourceFetcherContext] of the page shares. *)
Record State : Type := mkState {
  sys : Sys;
  fetchedResources : gmap string string
}.

Definition state_init : State := mkState sys_init ∅.

(** How a computation ends: with a result and a state, with a run-time panic,
    or not at all within the given depth of nested stylesheet fetches. *)
Inductive Outcome (T : Type) : Type :=
| Done (a : T) (st : State)
| Panic
| OutOfFuel.
Arguments Done {T} a st.
Arguments Panic {T}.
Arguments OutOfFuel {T}.

Definition M (T : Type) : Type := State -> Outcome T.

Definition ret {T : Type} (a : T) : M T := fun st => Done a st.

Definition bind {T U : Type} (c : M T) (k : T -> M U) : M U :=
  fun st =>
    match c st with
    | Done a st' => k a st'
    | Panic => Panic
    | OutOfFuel => OutOfFuel
    end.

Notation "'do' x <- c ; k" := (bind c (fun x => k))
  (at level 10, x name, c at level 100, k at level 200).

(** The fields of [resourceFetcherContext] other than the shared map and the
    callback [replaceResourceReference]; the callback is invoked at most once
    by [fetchResourceFromLinkIfNecessary], exactly when the result is [true],
    so the embedding returns its argument instead: [Some reference] stands for
    a call of the callback followed by [return true], [None] for
    [return false]. *)
Record resourceFetcherContext : Type := mkContext {
  baseURL : URL;
  targetHostDir : string;
  dirpath : string
}.

Section V3.

Context {lib : Library} (world : World).

Definition lookupFetched (key : string) : M (option string) :=
  fun st => Done (fetchedResources st !! key) st.

Definition storeFetched (key contentType : string) : M unit :=
  fun st => Done tt (mkState (sys st) (<[key := contentType]> (fetchedResources st))).

Definition getResourceM (urlStr : string) : M (option (string * list ascii)) :=
  fun st =>
    let '(r, s) := getResource world urlStr (sys st) in
    Done r (mkState s (fetchedResources st)).

(** [openFileForResourceContent]: the name of the created (and truncated)
    file, or [None] for the error result. *)
Definition openFileForResourceContent (resourceURI : URL) (contentType targetHostDir : string)
    : M (option string) :=
  fun st =>
    let filename := resourceFilename resourceURI contentType targetHostDir in
    if can_create world filename
    then Done (Some filename)
              (mkState (mkSys (requests (sys st)) (<[filename := []]> (files (sys st))))
                       (fetchedResources st))
    else Done None st.

Definition writeFile (filename : string) (content : list ascii) : M unit :=
  fun st =>
    Done tt (mkState (mkSys (requests (sys st)) (<[filename := content]> (files (sys st))))
                     (fetchedResources st)).

Section Rewriters.

(** The rewriters call [getAndWriteResourceToFile], which calls them back for
    a stylesheet; the knot is tied in [getAndWriteResourceToFile] below. *)
Variable getAndWrite : URL -> string -> M (option string).

Definition fetchResourceFromLinkIfNecessary_with (linkURI : URL)
    (context : resourceFetcherContext) : M (option string) :=
  if bool_decide (Opaque linkURI = "") then
    if bool_decide (Path linkURI = "") then ret None else
    let linkURI := url_ResolveReference (baseURL context) linkURI in
    do cached <- lookupFetched (url_String linkURI);
    do fetched <-
      match cached with
      | Some contentType => ret (Some contentType)
      | None =>
          do r <- getAndWrite linkURI (targetHostDir context);
          match r with
          | None => ret None
          | Some contentType =>
              do _ <- storeFetched (url_String linkURI) contentType;
              ret (Some contentType)
          end
      end;
    match fetched with
    | None => ret None
    | Some contentType =>
        match filepath_Rel (dirpath context) (filepath.FromSlash (Path linkURI)) with
        | None => ret None
        | Some relativeLinkPath =>
            let relativeReference :=
              withQuery (filepath.ToSlash relativeLinkPath) (RawQuery linkURI) in
            ret (Some (adjustResourceFilenameExtension relativeReference contentType))
        end
    end
  else
    do cached <- lookupFetched (url_String linkURI);
    let relativeReference := withQuery (Opaque linkURI) (RawQuery linkURI) in
    match cached with
    | Some _ =>
        (* [if wasResourceFetched { ... }] *)
        do r <- getAndWrite linkURI (targetHostDir context);
        match r with
        | None => ret None
        | Some contentType =>
            do _ <- storeFetched (url_String linkURI) contentType;
            ret (Some (adjustResourceFilenameExtension relativeReference contentType))
        end
    | None =>
        (* [contentType] is the zero value of the failed lookup *)
        ret (Some (adjustResourceFilenameExtension relativeReference ""))
    end.

(** The loop of [fetchLinkedResourcesInCSS]. [css] is the unprocessed rest
    and [buffer] is [rewrittenCSSBuffer]. [gas] bounds the number of
    iterations; [fetchLinkedResourcesInCSS_with] starts it with the length of
    the text, which is never used up ([css_loop_gas] below). *)
Fixpoint css_loop (gas : nat) (css : list ascii) (context : resourceFetcherContext)
    (buffer : list ascii) : M (list ascii) :=
  match cssURLMatcher.FindSubmatchIndex css with
  | None => ret (buffer ++ css)
  | Some urlMatch =>
      match gas with
      | 0 => fun _ => OutOfFuel
      | S gas' =>
          let linkURIStr := string_of_list_ascii (slice (i4 urlMatch) (i5 urlMatch) css) in
          match url_Parse linkURIStr with
          | None =>
              css_loop gas' (drop (i1 urlMatch) css) context
                       (buffer ++ take (i1 urlMatch) css)
          | Some linkURI =>
              let buffer := buffer ++ take (i0 urlMatch) css in
              do r <- fetchResourceFromLinkIfNecessary_with linkURI context;
              let buffer :=
                match r with
                | Some reference =>
                    buffer ++ slice (i2 urlMatch) (i3 urlMatch) css
                           ++ list_ascii_of_string reference
                           ++ slice (i6 urlMatch) (i7 urlMatch) css
                | None => buffer ++ slice (i0 urlMatch) (i1 urlMatch) css
                end in
              css_loop gas' (drop (i1 urlMatch) css) context buffer
          end
      end
  end.

Definition fetchLinkedResourcesInCSS_with (css : list ascii)
    (context : resourceFetcherContext) : M (list ascii) :=
  css_loop (length css) css context [].

End Rewriters.

(** [getAndWriteResourceToFile]: the content type, or [None] for an error.
    [fuel] bounds the depth of the calls nested through stylesheets. *)
Fixpoint getAndWriteResourceToFile (fuel : nat) (resourceURL : URL) (targetHostDir : string)
    : M (option string) :=
  match fuel with
  | 0 => fun _ => OutOfFuel
  | S fuel' =>
      do r <- getResourceM (url_String resourceURL);
      match r with
      | None => ret None
      | Some (contentType, content) =>
          do file <- openFileForResourceContent resourceURL contentType targetHostDir;
          if strings.HasPrefix contentType "text/css" then
            let context :=
              mkContext resourceURL targetHostDir
                        (filepath_Dir (filepath.FromSlash (Path resourceURL))) in
            do content <-
              fetchLinkedResourcesInCSS_with (getAndWriteResourceToFile fuel') content context;
            match file with
            | Some filename => do _ <- writeFile filename content; ret (Some contentType)
            | None => ret None
            end
          else
            match file with
            | Some filename => do _ <- writeFile filename content; ret (Some contentType)
            | None => ret None
            end
      end
  end.

Definition fetchResourceFromLinkIfNecessary (fuel : nat) :=
  fetchResourceFromLinkIfNecessary_with (getAndWriteResourceToFile fuel).

Definition fetchLinkedResourcesInCSS (fuel : nat) :=
  fetchLinkedResourcesInCSS_with (getAndWriteResourceToFile fuel).

Section Page.

Variables (pageURL : URL) (pageTargetHostDir pageDirpath : string).

Definition pageContext : resourceFetcherContext :=
  mkContext pageURL pageTargetHostDir pageDirpath.

(** The part of the loop body that handles the link attribute found by the
    scan: the attributes after it. *)
Definition rewriteLink (fuel : nat) (dataAtom : Atom) (s : Scan) (attrs : list Attribute)
    : M (list Attribute) :=
  if negb (hasLinkURIAttr s) then ret attrs else
  match url_Parse (linkURIStr s) with
  | None => ret attrs
  | Some linkURI =>
      if isRequisite (linkURIAttrAtom s) dataAtom (hasRel s) (rel s) then
        do r <- fetchResourceFromLinkIfNecessary fuel linkURI pageContext;
        match r with
        | Some reference => ret (setVal (linkURIAttrIndex s) reference attrs)
        | None => ret attrs
        end
      else
        let linkURI := url_ResolveReference pageURL linkURI in
        ret (setVal (linkURIAttrIndex s) (url_String linkURI) attrs)
  end.

(** The part of the loop body that rewrites the [style] attribute. *)
Definition rewriteStyle (fuel : nat) (s : Scan) (attrs : list Attribute)
    : M (list Attribute) :=
  if hasStyle s then
    do styleData <-
      fetchLinkedResourcesInCSS fuel (list_ascii_of_string (style s)) pageContext;
    ret (setVal (styleIndex s) (string_of_list_ascii styleData) attrs)
  else ret attrs.

(** The body of the loop of [fetchForumTopicPage] for one token; [prevToken]
    is [None] while the pointer is nil. The result is the token as it is
    passed to the deferred write. *)
Definition processToken (fuel : nat) (prevToken : option Token) (token : Token) : M Token :=
  if negb (bool_decide (Type_ token = html.SelfClosingTagToken))
     && negb (bool_decide (Type_ token = html.StartTagToken)) then ret token else
  match prevToken with
  | None => fun _ => Panic   (* [prevToken.DataAtom] on the nil pointer *)
  | Some prev =>
      if bool_decide (DataAtom prev = atom.Style) then
        do styleData <-
          fetchLinkedResourcesInCSS fuel (list_ascii_of_string (Data token)) pageContext;
        ret (html.withData token (string_of_list_ascii styleData))
      else
        let s := scanAttrs true (Attr token) in
        do attrs <- rewriteStyle fuel s (Attr token);
        do attrs <- rewriteLink fuel (DataAtom token) s attrs;
        ret (html.withAttr token attrs)
  end.

(** The loop over the tokens of the page; the deferred function sets
    [prevToken] to the token just handled. *)
Fixpoint processTokens (fuel : nat) (prevToken : option Token) (tokens : list Token)
    : M (list Token) :=
  match tokens with
  | [] => ret []
  | token :: rest =>
      do token' <- processToken fuel prevToken token;
      do rest' <- processTokens fuel (Some token') rest;
      ret (token' :: rest')
  end.

End Page.
End V3.
End V3.

(** ** The failure ledger: [getFailedDownloads] and the start of [main] *)

Module ledger.

(** The files of the target directory by name. [os.Open] and [os.Stat] fail
    with a not-exist error on a name that is absent (the empty name always
    is); other errors of the file system are not modelled. *)
Definition FS : Type := gmap string (list ascii).

Inductive error : Type := ErrNotExist | ErrOther.

Definition exists_in (fs : FS) (name : string) : bool :=
  negb (bool_decide (name = "")) && bool_decide (is_Some (fs !! name)).

(** [os.Stat]: [None] is the nil error. *)
Definition os_Stat (fs : FS) (name : string) : option error :=
  if exists_in fs name then None else Some ErrNotExist.

(** [os.Open] followed by reading the whole file. *)
Definition os_Open (fs : FS) (name : string) : list ascii + error :=
  if exists_in fs name then inl (default [] (fs !! name)) else inr ErrNotExist.

(** [os.Rename(oldpath, newpath)]: an existing [newpath] is replaced. *)
Definition os_Rename (fs : FS) (oldpath newpath : string) : option FS :=
  match fs !! oldpath with
  | Some content =>
      if exists_in fs oldpath then Some (<[newpath := content]> (delete oldpath fs))
      else None
  | None => None
  end.

(** [os.Create]: the file is created or truncated. *)
Definition os_Create (fs : FS) (name : string) : FS := <[name := []]> fs.

Definition os_IsNotExist (err : option error) : bool :=
  match err with Some ErrNotExist => true | _ => false end.

(** [i++] on [int], 64 bits wide. *)
Definition int_incr (i : Z) : Z := ((i + 1 + 2 ^ 63) mod 2 ^ 64 - 2 ^ 63)%Z.

(** [fmt.Sprintf("%s.%d", name, i)] *)
Definition archiveName (name : string) (i : Z) : string :=
  name +:+ "." +:+
  (if bool_decide (i < 0)%Z then "-" +:+ fmt.decimal (- i) else fmt.decimal i).

(** [for ; err == nil; _, err = os.Stat(archivedFailureListFilename) { i++ }]:
    the values of [i] and [err] when the loop is left, or [None] when it is
    not left within [fuel] iterations. The file name is computed once, before
    the loop, and the loop does not change it. *)
Fixpoint archive_loop (fuel : nat) (fs : FS) (archivedFailureListFilename : string)
    (i : Z) (err : option error) : option (Z * option error) :=
  match err with
  | Some _ => Some (i, err)
  | None =>
      match fuel with
      | 0 => None
      | S fuel' =>
          archive_loop fuel' fs archivedFailureListFilename (int_incr i)
                       (os_Stat fs archivedFailureListFilename)
      end
  end.

Section Ledger.

(** The loop that reads the page numbers, one [fmt.Sscanf(line, "%d", ...)]
    per line; the properties of the archival do not depend on it. *)
Variable scanPageNumbers : list ascii -> list Z.

(** [getFailedDownloads]. Its parameter [targetDir] is not used by the body;
    the file name is read from the package-level variable
    [failureListFilename], passed here as an argument. The result is the list
    of page numbers and the file system afterwards, or [None] when the
    function does not return within [fuel] iterations of its last loop. *)
Definition getFailedDownloads (fuel : nat) (failureListFilename : string) (fs : FS)
    : option (list Z * FS) :=
  match os_Open fs failureListFilename with
  | inr _ => Some ([], fs)
  | inl content =>
      let failedPageNumbers := scanPageNumbers content in
      let i := 0%Z in
      let archivedFailureListFilename := archiveName failureListFilename i in
      match archive_loop fuel fs archivedFailureListFilename i None with
      | None => None
      | Some (i, err) =>
          (* [if err != nil && !os.IsNotExist(err) { return }] *)
          if bool_decide (is_Some err) && negb (os_IsNotExist err)
          then Some (failedPageNumbers, fs) else
          let latestFailureListFilename := archiveName failureListFilename i in
          match os_Rename fs failureListFilename latestFailureListFilename with
          | Some fs' => Some (failedPageNumbers, fs')
          | None => Some (failedPageNumbers, fs)
          end
      end
  end.

(** The value of the package-level variable [failureListFilename] when
    [main] calls [getFailedDownloads]: [main] declares a local variable of
    the same name with [:=], so the package-level one keeps its zero value. *)
Definition global_failureListFilename : string := "".

(** The ledger part of [main]: the local [failureListFilename], the call of
    [getFailedDownloads], and [os.Create] of the new ledger. [rangePages] are
    the pages of the ranges on the command line; when neither they nor the
    recovered failures give a page, [main] exits before the new ledger is
    created. *)
Definition main_ledger {lib : Library} (fuel : nat) (targetDir : string)
    (rangePages : list Z) (fs : FS) : option (list Z * FS) :=
  let failureListFilename := filepath_Join [targetDir; "failures.lst"] in
  match getFailedDownloads fuel global_failureListFilename fs with
  | None => None
  | Some (failedPageNumbers, fs1) =>
      match failedPageNumbers ++ rangePages with
      | [] => Some (failedPageNumbers, fs1)
      | _ => Some (failedPageNumbers, os_Create fs1 failureListFilename)
      end
  end.

End Ledger.
End ledger.

(** ** An executable model of the library

    [net/url] and [path/filepath] for references made of a scheme, a host, a
    path, a query and a fragment. Left out: user information and the
    validation of hosts, the decoding and encoding of percent escapes (a
    well-formed escape is kept as it is, a malformed one is the parse error
    of Go), IPv6 literals, and the [OmitHost] field of later Go versions. *)

Module GoModel.

Definition is_alpha (c : ascii) : bool :=
  let n := nat_of_ascii c in
  (97 <=? n)%nat && (n <=? 122)%nat || (65 <=? n)%nat && (n <=? 90)%nat.

Definition is_digit (c : ascii) : bool :=
  let n := nat_of_ascii c in (48 <=? n)%nat && (n <=? 57)%nat.

Definition is_hex (c : ascii) : bool :=
  let n := nat_of_ascii c in
  is_digit c || (97 <=? n)%nat && (n <=? 102)%nat || (65 <=? n)%nat && (n <=? 70)%nat.

Definition is_ctl (c : ascii) : bool :=
  let n := nat_of_ascii c in (n <? 32)%nat || (n =? 127)%nat.

Definition to_lower (c : ascii) : ascii :=
  let n := nat_of_ascii c in
  if (65 <=? n)%nat && (n <=? 90)%nat then ascii_of_nat (n + 32) else c.

Fixpoint map_string (f : ascii -> ascii) (s : string) : string :=
  match s with
  | EmptyString => EmptyString
  | String c s' => String (f c) (map_string f s')
  end.

Fixpoint any_byte (p : ascii -> bool) (s : string) : bool :=
  match s with
  | EmptyString => false
  | String c s' => p c || any_byte p s'
  end.

(** [strings.Cut(s, sep)] for a one-byte separator: the text before the first
    separator, and the text after it if there is one. *)
Fixpoint cut (sep : ascii) (s : string) : string * option string :=
  match s with
  | EmptyString => (EmptyString, None)
  | String c s' =>
      if Ascii.eqb c sep then (EmptyString, Some s')
      else let '(a, b) := cut sep s' in (String c a, b)
  end.

(** [strings.Split(s, sep)] for a one-byte separator. *)
Fixpoint split (sep : ascii) (s : string) : list string :=
  match s with
  | EmptyString => [EmptyString]
  | String c s' =>
      if Ascii.eqb c sep then EmptyString :: split sep s'
      else match split sep s' with
           | x :: l => String c x :: l
           | [] => [String c EmptyString]
           end
  end.

(** [strings.Join(elems, sep)] *)
Fixpoint join (sep : string) (elems : list string) : string :=
  match elems with
  | [] => ""
  | [x] => x
  | x :: l => x +:+ sep +:+ join sep l
  end.

Definition count_byte (c : ascii) (s : string) : nat :=
  List.length (filter (fun d => d = c) (list_ascii_of_string s)).

Definition has_suffix (s suffix : string) : bool :=
  String.prefix (String.rev suffix) (String.rev s).

Definition drop_last (s : string) : string :=
  String.rev (match String.rev s with String _ r => r | EmptyString => EmptyString end).

Definition nonempty (s : string) : bool := negb (bool_decide (s = "")).

(** [getScheme]: [None] is the error (a colon at the start); otherwise the
    scheme and the rest, or no scheme. *)
Fixpoint getScheme_from (first : bool) (s : string) : option (option (string * string)) :=
  match s with
  | EmptyString => Some None
  | String c s' =>
      let continue :=
        match getScheme_from false s' with
        | Some (Some (scheme, rest)) => Some (Some (String c scheme, rest))
        | r => r
        end in
      if is_alpha c then continue
      else if is_digit c || bool_decide (c ∈ ["+"; "-"; "."]%char) then
        if first then Some None else continue
      else if Ascii.eqb c ":" then
        if first then None else Some (Some (EmptyString, s'))
      else Some None
  end.

(** A percent sign must be followed by two hexadecimal digits. *)
Fixpoint escapes_ok (s : string) : bool :=
  match s with
  | EmptyString => true
  | String "%" (String a (String b s')) => is_hex a && is_hex b && escapes_ok s'
  | String "%" _ => false
  | String _ s' => escapes_ok s'
  end.

(** [url.Parse] *)
Definition Parse (rawURL : string) : option URL :=
  let '(u, frag) := cut "#" rawURL in
  let fragment := default "" frag in
  if any_byte is_ctl u then None else
  if bool_decide (u = "*") then
    (if escapes_ok fragment then Some (mkURL "" "" "" "*" false "" fragment) else None)
  else
  match getScheme_from true u with
  | None => None
  | Some found =>
      let scheme := match found with Some (s, _) => map_string to_lower s | None => "" end in
      let rest := match found with Some (_, r) => r | None => u end in
      let forceQuery := has_suffix rest "?" && bool_decide (count_byte "?" rest = 1) in
      let rawQuery := if forceQuery then "" else default "" (snd (cut "?" rest)) in
      let rest := if forceQuery then drop_last rest else fst (cut "?" rest) in
      if negb (String.prefix "/" rest) && nonempty scheme then
        (if escapes_ok fragment
         then Some (mkURL scheme rest "" "" forceQuery rawQuery fragment) else None)
      else if negb (String.prefix "/" rest)
              && strings.ContainsByte (fst (cut "/" rest)) ":" then None
      else
        let hasAuthority :=
          (nonempty scheme || negb (String.prefix "///" rest)) && String.prefix "//" rest in
        let afterSlashes := substring 2 (String.length rest - 2) rest in
        let host := if hasAuthority then fst (cut "/" afterSlashes) else "" in
        let path :=
          if hasAuthority
          then match snd (cut "/" afterSlashes) with
               | Some p => "/" +:+ p
               | None => ""
               end
          else rest in
        if escapes_ok path && escapes_ok fragment
        then Some (mkURL scheme "" host path forceQuery rawQuery fragment)
        else None
  end.

(** [URL.String] *)
Definition String_ (u : URL) : string :=
  (if nonempty (Scheme u) then Scheme u +:+ ":" else "")
  +:+ (if nonempty (Opaque u) then Opaque u
       else
         let authority :=
           if nonempty (Scheme u) || nonempty (Host u)
           then (if nonempty (Host u) || nonempty (Path u) then "//" else "") +:+ Host u
           else "" in
         let slash :=
           if nonempty (Path u) && negb (String.prefix "/" (Path u)) && nonempty (Host u)
           then "/" else "" in
         let dot :=
           if bool_decide (Scheme u = "") && bool_decide (authority = "")
              && strings.ContainsByte (fst (cut "/" (Path u))) ":"
           then "./" else "" in
         authority +:+ slash +:+ dot +:+ Path u)
  +:+ (if ForceQuery u || nonempty (RawQuery u) then "?" +:+ RawQuery u else "")
  +:+ (if nonempty (Fragment u) then "#" +:+ Fragment u else "").

(** [URL.Hostname]: the host without the port. *)
Definition Hostname (u : URL) : string := fst (cut ":" (Host u)).

(** The text up to and including the last slash. *)
Definition up_to_last_slash (s : string) : string :=
  match rev (split "/" s) with
  | _ :: before => join "/" (rev before) +:+ (match before with [] => "" | _ => "/" end)
  | [] => ""
  end.

(** The elements of a path with [.] dropped and [..] taking back the element
    before it. *)
Fixpoint removeDots (src dst : list string) : list string :=
  match src with
  | [] => rev dst
  | elem :: src' =>
      if bool_decide (elem = ".") then removeDots src' dst
      else if bool_decide (elem = "..") then removeDots src' (tail dst)
      else removeDots src' (elem :: dst)
  end.

Definition trim_slash (s : string) : string :=
  match s with String "/" s' => s' | _ => s end.

(** [resolvePath(base, ref)] *)
Definition resolvePath (base ref : string) : string :=
  let full :=
    if bool_decide (ref = "") then base
    else if negb (String.prefix "/" ref) then up_to_last_slash base +:+ ref
    else ref in
  if bool_decide (full = "") then "" else
  let src := split "/" full in
  let dst := removeDots src [] in
  let dst :=
    match last src with
    | Some l => if bool_decide (l = ".") || bool_decide (l = "..") then dst ++ [""] else dst
    | None => dst
    end in
  "/" +:+ trim_slash (join "/" dst).

(** [URL.ResolveReference] *)
Definition ResolveReference (u ref : URL) : URL :=
  let scheme := if bool_decide (Scheme ref = "") then Scheme u else Scheme ref in
  if nonempty (Scheme ref) || nonempty (Host ref) then
    mkURL scheme (Opaque ref) (Host ref) (resolvePath (Path ref) "")
          (ForceQuery ref) (RawQuery ref) (Fragment ref)
  else if nonempty (Opaque ref) then
    mkURL scheme (Opaque ref) "" "" (ForceQuery ref) (RawQuery ref) (Fragment ref)
  else
    let inherit :=
      bool_decide (Path ref = "") && negb (ForceQuery ref) && bool_decide (RawQuery ref = "") in
    let rawQuery := if inherit then RawQuery u else RawQuery ref in
    let fragment :=
      if inherit && bool_decide (Fragment ref = "") then Fragment u else Fragment ref in
    if bool_decide (Path ref = "") && nonempty (Opaque u) then
      mkURL scheme (Opaque u) "" "" (ForceQuery ref) rawQuery fragment
    else
      mkURL scheme "" (Host u) (resolvePath (Path u) (Path ref))
            (ForceQuery ref) rawQuery fragment.

(** The elements of a cleaned path: empty ones and [.] are dropped, [..]
    takes back the element before it, is dropped at the root, and is kept at
    the start of a path that is not rooted. *)
Fixpoint cleanElems (rooted : bool) (src dst : list string) : list string :=
  match src with
  | [] => rev dst
  | elem :: src' =>
      if bool_decide (elem = "") || bool_decide (elem = ".") then cleanElems rooted src' dst
      else if bool_decide (elem = "..") then
        match dst with
        | top :: dst' =>
            if bool_decide (top = "..") then cleanElems rooted src' (elem :: dst)
            else cleanElems rooted src' dst'
        | [] => if rooted then cleanElems rooted src' dst
                else cleanElems rooted src' (elem :: dst)
        end
      else cleanElems rooted src' (elem :: dst)
  end.

(** [filepath.Clean] *)
Definition Clean (path : string) : string :=
  let rooted := String.prefix "/" path in
  let out := join "/" (cleanElems rooted (split "/" path) []) in
  if rooted then "/" +:+ out
  else if bool_decide (out = "") then "." else out.

(** [filepath.Join] *)
Fixpoint Join (elem : list string) : string :=
  match elem with
  | [] => ""
  | e :: elem' => if bool_decide (e = "") then Join elem' else Clean (join "/" elem)
  end.

(** [filepath.Dir] *)
Definition Dir (path : string) : string := Clean (up_to_last_slash path).

Fixpoint strip_common (base targ : list string) : list string * list string :=
  match base, targ with
  | b :: base', t :: targ' =>
      if bool_decide (b = t) then strip_common base' targ' else (base, targ)
  | _, _ => (base, targ)
  end.

(** [filepath.Rel] for two rooted paths or two paths that are not rooted. *)
Definition Rel (basepath targpath : string) : option string :=
  let base := Clean basepath in
  let targ := Clean targpath in
  if bool_decide (targ = base) then Some "." else
  if negb (bool_decide (String.prefix "/" base = String.prefix "/" targ)) then None else
  let elems p :=
    if bool_decide (p = ".") then [] else filter (fun e => e ≠ "") (split "/" p) in
  let '(b, t) := strip_common (elems base) (elems targ) in
  match b with
  | ".." :: _ => None
  | _ => Some (join "/" (map (fun _ => "..") b ++ t))
  end.

#[global] Instance library : Library := {
  url_Parse := Parse;
  url_ResolveReference := ResolveReference;
  url_String := String_;
  url_Hostname := Hostname;
  filepath_Join := Join;
  filepath_Dir := Dir;
  filepath_Rel := Rel
}.

End GoModel.

(** ** Predicates on the computations of the third generation *)

(** The computation ends with a result. *)
Definition returns {T : Type} (o : V3.Outcome T) : Prop :=
  exists a st, o = V3.Done a st.

Definition total {T : Type} (c : V3.M T) : Prop := forall st, returns (c st).

(** Every resource URI of the cache of [st] is in the cache of [st']. *)
Definition cache_kept (st st' : V3.State) : Prop :=
  forall key, is_Some (V3.fetchedResources st !! key) ->
              is_Some (V3.fetchedResources st' !! key).

Definition keeps_cache {T : Type} (c : V3.M T) : Prop :=
  forall st a st', c st = V3.Done a st' -> cache_kept st st'.

(** ** The navigational test in words, for comparison with [isRequisite] *)

(** The link is navigational when the attribute is [action] or [formaction],
    or the attribute is [href] and the element is an anchor, an area, an
    embed element, or a [link] element whose [rel] value contains none of
    [stylesheet], [icon], [shortcut] (a [link] element without [rel] has
    none). *)
Definition navigational_in_words (attribute element : Atom) (hasRel : bool) (rel : string)
    : Prop :=
  attribute = atom.Action \/ attribute = atom.Formaction
  \/ (attribute = atom.Href
      /\ (element = atom.A \/ element = atom.Area \/ element = atom.Embed
          \/ (element = atom.Link /\ ~ (hasRel = true /\ isRelInline rel = true)))).

(** ** The attribute scan in words, for comparison with [scanAttrs] *)

(** An attribute with a candidate link name. *)
Definition is_candidate (attr : Attribute) : bool :=
  is_link_atom (atom.Lookup (Key attr)) || is_link_key (Key attr).

(** A candidate whose name is one of the atoms of the first [case]. *)
Definition is_atom_candidate (attr : Attribute) : bool :=
  is_link_atom (atom.Lookup (Key attr)).

Definition is_rel (attr : Attribute) : bool :=
  bool_decide (atom.Lookup (Key attr) = atom.Rel).

Definition is_style (withStyle : bool) (attr : Attribute) : bool :=
  withStyle && bool_decide (atom.Lookup (Key attr) = atom.Style).

(** The attributes that the scan reads: all of them up to and including the
    one with which both a candidate and a [rel] attribute have been seen. *)
Fixpoint read_from (seenLink seenRel : bool) (attrs : list Attribute) : list Attribute :=
  match attrs with
  | [] => []
  | attr :: rest =>
      if seenLink && seenRel then []
      else attr :: read_from (seenLink || is_candidate attr) (seenRel || is_rel attr) rest
  end.

Definition attrs_read (attrs : list Attribute) : list Attribute :=
  read_from false false attrs.

(** The last attribute with the property [p], with its index. *)
Fixpoint last_where (p : Attribute -> bool) (index : nat) (attrs : list Attribute)
    : option (nat * Attribute) :=
  match attrs with
  | [] => None
  | attr :: rest =>
      match last_where p (S index) rest with
      | Some found => Some found
      | None => if p attr then Some (index, attr) else None
      end
  end.

(** The variables of the scan after it has read [attrs] from [index] on
    without a [break], starting from the values [s]: every variable holds
    what the last attribute of its kind gave it. *)
Definition scan_words_from (withStyle : bool) (index : nat) (attrs : list Attribute)
    (s : Scan) : Scan :=
  let link := last_where is_candidate index attrs in
  let atomLink := last_where is_atom_candidate index attrs in
  let r := last_where is_rel index attrs in
  let st := last_where (is_style withStyle) index attrs in
  mkScan
    (from_option (fun found => atom.Lookup (Key found.2)) (linkURIAttrAtom s) atomLink)
    (from_option fst (linkURIAttrIndex s) link)
    (from_option fst (styleIndex s) st)
    (from_option (fun found => Val found.2) (linkURIStr s) link)
    (from_option (fun found => Val found.2) (rel s) r)
    (from_option (fun found => Val found.2) (style s) st)
    (hasLinkURIAttr s || bool_decide (is_Some link))
    (hasRel s || bool_decide (is_Some r))
    (hasStyle s || bool_decide (is_Some st)).

(** The scan in words: of the attributes read, the last candidate link
    attribute and the last [rel] attribute are used, and the atom is the one
    of the last candidate from the atom table. *)
Definition scan_in_words (withStyle : bool) (attrs : list Attribute) : Scan :=
  scan_words_from withStyle 0 (attrs_read attrs) scan_init.

(** The loop of the scan without its [break]. *)
Fixpoint scan_all (withStyle : bool) (index : nat) (attrs : list Attribute) (s : Scan) : Scan :=
  match attrs with
  | [] => s
  | attr :: rest => scan_all withStyle (S index) rest (scan_step withStyle index attr s)
  end.

(** * Worked examples: the inputs of the evaluations below *)

Module ledger_example.

Import ledger.

Definition name : string := "/srv/mirror/failures.lst".

(** A target directory with the ledger of the last run and one archive. *)
Definition with_archive_0 : FS :=
  <[name := list_ascii_of_string "3"]>
    (<[name +:+ ".0" := list_ascii_of_string "7"]> ∅).

Definition with_archive_1 : FS :=
  <[name := list_ascii_of_string "3"]>
    (<[name +:+ ".1" := list_ascii_of_string "9"]> ∅).

End ledger_example.

Module scan_example.

(** An image button: the attributes of [input], in the order in which they
    are written. *)
Definition image_button : list Attribute :=
  [mkAttribute "" "type" "image"; mkAttribute "" "src" "go.png";
   mkAttribute "" "formaction" "/post"].

End scan_example.

Module page_example.

(** The page [http://forum.example/topic] stored below [/srv/mirror/1]. *)
Definition pageURL : URL := mkURL "http" "" "forum.example" "/topic" false "" "".
Definition targetHostDir : string := "/srv/mirror/1/forum.example".
Definition pageDirpath : string := "/".

(** A world without a network and without a writable disk. *)
Definition offline : World := Build_World (fun _ _ => None) (fun _ => false).

(** A document type declaration, the token before the first tag. *)
Definition doctype : Token := mkToken html.DoctypeToken atom.Zero "html" [].

(** An anchor with a long description: [href] is in the atom table,
    [longdesc] is one of the names of the inner [switch]. *)
Definition anchor_attrs : list Attribute :=
  [mkAttribute "" "href" "p.html"; mkAttribute "" "longdesc" "d.html"].
Definition anchor : Token := mkToken html.StartTagToken atom.A "a" anchor_attrs.

(** An image whose source is a fragment of the page itself. *)
Definition fragment_image_attrs : list Attribute := [mkAttribute "" "src" "#top"].
Definition fragment_image : Token :=
  mkToken html.SelfClosingTagToken atom.Zero "img" fragment_image_attrs.

(** The anchor after the rewrite of the three generations. *)
Definition anchor_rewritten : list Attribute :=
  [mkAttribute "" "href" "p.html";
   mkAttribute "" "longdesc" "http://forum.example/d.html"].

(** An image on another host, and a server of that host which answers. *)
Definition remote_image_attrs : list Attribute :=
  [mkAttribute "" "src" "http://other.example/a.png"].
Definition remote_image : Token :=
  mkToken html.SelfClosingTagToken atom.Zero "img" remote_image_attrs.

Definition png : list ascii := list_ascii_of_string "PNG".

Definition other_host : World :=
  Build_World
    (fun _ urlStr =>
       if bool_decide (urlStr = "http://other.example/a.png")
       then Some ("image/png", png) else None)
    (fun _ => true).

End page_example.

Module css_example.

(** A rule whose link does not parse: [url.Parse] rejects a reference that
    starts with a colon. *)
Definition bad_link : list ascii := list_ascii_of_string "a{b:url(':x')}c{d:e}".

(** A stylesheet that imports itself, and the server that delivers it. *)
Definition self_import : list ascii := list_ascii_of_string "@import url('a.css');".

Definition stylesheetURL : URL := mkURL "http" "" "forum.example" "/a.css" false "" "".
Definition stylesheetKey : string := "http://forum.example/a.css".

(** The inner link of the import, parsed. *)
Definition import_link : URL := mkURL "" "" "" "a.css" false "" "".

Definition self_import_server : World :=
  Build_World
    (fun _ urlStr =>
       if bool_decide (urlStr = "http://forum.example/a.css")
       then Some ("text/css", self_import) else None)
    (fun _ => true).

(** The element that refers to the stylesheet from the page. *)
Definition stylesheet_link : Token :=
  mkToken html.SelfClosingTagToken atom.Link "link"
    [mkAttribute "" "rel" "stylesheet"; mkAttribute "" "href" "a.css"].

(** Two images with the same source, and a server that does not answer. *)
Definition image : Token :=
  mkToken html.SelfClosingTagToken atom.Zero "img" [mkAttribute "" "src" "img/a.png"].

(** A server of the host of the page that delivers the pictures. *)
Definition picture_server : World :=
  Build_World
    (fun _ urlStr =>
       if bool_decide (urlStr = "http://forum.example/img/a.png")
          || bool_decide (urlStr = "http://forum.example/images/x.png")
       then Some ("image/png", page_example.png) else None)
    (fun _ => true).

(** A rule with a link to a picture, in a page of the directory [/t]. *)
Definition background : list ascii :=
  list_ascii_of_string "p{background:url('/images/x.png')}".
Definition background_rewritten : list ascii :=
  list_ascii_of_string "p{background:url('../images/x.png')}".
Definition deepPageURL : URL := mkURL "http" "" "forum.example" "/t/topic" false "" "".

End css_example.

(** * More of the program *)

From Stdlib Require Import Numbers.DecimalN.

(** ** Writing the tokens of the page (third generation) *)

Module serialize.

(** How a function that writes to the buffer ends: with the contents of the
    buffer, with the [panic] of [escape], or not within the iterations
    given. *)
Inductive Result : Type :=
| Written (buffer : string)
| Panics
| Unfinished.

Definition doubleQuote : ascii := "034"%char.
Definition carriageReturn : ascii := "013"%char.

(** The constant [escapedChars]: ampersand, apostrophe, less-than,
    greater-than, double quote, carriage return. *)
Definition escapedChars : string :=
  String "&" (String "'" (String "<" (String ">"
    (String doubleQuote (String carriageReturn ""))))).

(** [strings.IndexAny(s, chars)] for ASCII [chars]: the index of the first
    byte of [s] that is one of [chars]; [None] is [-1]. *)
Fixpoint IndexAny (s chars : string) : option nat :=
  match s with
  | EmptyString => None
  | String c s' =>
      if strings.ContainsByte chars c then Some 0 else S <$> IndexAny s' chars
  end.

(** [s[:n]] and [s[n:]] *)
Fixpoint str_take (n : nat) (s : string) : string :=
  match n, s with
  | S n', String c s' => String c (str_take n' s')
  | _, _ => EmptyString
  end.

Fixpoint str_drop (n : nat) (s : string) : string :=
  match n, s with
  | S n', String _ s' => str_drop n' s'
  | _, _ => s
  end.

(** The [switch s[i]] of [escape]: [None] is the [default] case. *)
Definition entity (c : ascii) : option string :=
  if Ascii.eqb c "&" then Some "&amp;"
  else if Ascii.eqb c "'" then Some "&#39;"
  else if Ascii.eqb c "<" then Some "&lt;"
  else if Ascii.eqb c ">" then Some "&gt;"
  else if Ascii.eqb c doubleQuote then Some "&#34;"
  else if Ascii.eqb c carriageReturn then Some "&#13;"
  else None.

(** The loop of [escape] on the buffer [w]; a [bytes.Buffer] never refuses a
    write. [gas] bounds the iterations. *)
Fixpoint escape_loop (gas : nat) (w s : string) : Result :=
  match IndexAny s escapedChars with
  | None => Written (w +:+ s)
  | Some i =>
      match gas with
      | 0 => Unfinished
      | S gas' =>
          match String.get i s with
          | None => Panics   (* index out of range *)
          | Some c =>
              match entity c with
              | None => Panics   (* [panic("unrecognized escape character")] *)
              | Some esc =>
                  escape_loop gas' ((w +:+ str_take i s) +:+ esc) (str_drop (S i) s)
              end
          end
      end
  end.

(** [escape(w, s)] *)
Definition escape (w s : string) : Result := escape_loop (String.length s) w s.

(** The value of the attribute is written as it is. *)
Definition writtenRaw (key : string) : bool :=
  bool_decide (atom.Lookup key = atom.Style) || strings.HasPrefix key "on".

(** The loop of [tagStringWithStyleDataPreserved] over the attributes. *)
Fixpoint writeAttrs (attrs : list Attribute) (buffer : string) : Result :=
  match attrs with
  | [] => Written buffer
  | attr :: rest =>
      let buffer := ((buffer +:+ " ") +:+ Key attr) +:+ String "=" (String doubleQuote "") in
      let value :=
        if writtenRaw (Key attr) then Written (buffer +:+ Val attr)
        else escape buffer (Val attr) in
      match value with
      | Written buffer => writeAttrs rest (buffer +:+ String doubleQuote "")
      | Panics => Panics
      | Unfinished => Unfinished
      end
  end.

Definition tagStringWithStyleDataPreserved (token : Token) : Result :=
  match Attr token with
  | [] => Written (Data token)
  | _ => writeAttrs (Attr token) (Data token)
  end.

(** What one byte becomes. *)
Definition escaped_byte (c : ascii) : string :=
  match entity c with Some esc => esc | None => String c "" end.

(** The text of one attribute in a tag. *)
Definition attribute_in_words (attr : Attribute) (value : string) : string :=
  " " +:+ Key attr +:+ String "=" (String doubleQuote "") +:+ value
      +:+ String doubleQuote "".

(** The same replacement, byte by byte. *)
Fixpoint escape_in_words (s : string) : string :=
  match s with
  | EmptyString => EmptyString
  | String c s' =>
      match entity c with
      | Some esc => esc +:+ escape_in_words s'
      | None => String c (escape_in_words s')
      end
  end.

(** [p] is the start of [s]. *)
Fixpoint starts_with (p s : string) : bool :=
  match p, s with
  | EmptyString, _ => true
  | String a p', String b s' => Ascii.eqb a b && starts_with p' s'
  | String _ _, EmptyString => false
  end.

(** The inverse replacement: each of the six entities at the start of the
    text is replaced by its byte. *)
Fixpoint unescape_in_words (gas : nat) (s : string) : string :=
  match gas with
  | 0 => s
  | S gas' =>
      if starts_with "&amp;" s then String "&" (unescape_in_words gas' (str_drop 5 s))
      else if starts_with "&#39;" s then String "'" (unescape_in_words gas' (str_drop 5 s))
      else if starts_with "&lt;" s then String "<" (unescape_in_words gas' (str_drop 4 s))
      else if starts_with "&gt;" s then String ">" (unescape_in_words gas' (str_drop 4 s))
      else if starts_with "&#34;" s
      then String doubleQuote (unescape_in_words gas' (str_drop 5 s))
      else if starts_with "&#13;" s
      then String carriageReturn (unescape_in_words gas' (str_drop 5 s))
      else match s with
           | EmptyString => EmptyString
           | String c s' => String c (unescape_in_words gas' s')
           end
  end.

(** The number of bytes [c] in [s]. *)
Fixpoint count (c : ascii) (s : string) : nat :=
  match s with
  | EmptyString => 0
  | String d s' => (if Ascii.eqb d c then 1 else 0) + count c s'
  end.

End serialize.

(** ** The page ranges of [main] *)

(** [for j := forumTopicPageRangeStart; j <= forumTopicPageRangeEnd; j++
    { forumTopicPageNumbers[j] = struct{}{} }] with [j] of type [uint]: the
    set after the loop, or [None] when the loop has not ended within [fuel]
    iterations. *)
Fixpoint addPageRange (fuel : nat) (j forumTopicPageRangeEnd : Z)
    (forumTopicPageNumbers : gset Z) : option (gset Z) :=
  if bool_decide (j <= forumTopicPageRangeEnd)%Z then
    match fuel with
    | 0 => None
    | S fuel' =>
        addPageRange fuel' (V1.uint_wrap (j + 1)) forumTopicPageRangeEnd
                     ({[j]} ∪ forumTopicPageNumbers)
    end
  else Some forumTopicPageNumbers.

(** ** The extension test in words, for comparison with the patterns *)

(** [name] is made of the letters of [lower], each of them as it is or as
    the letter of [upper] at its place. *)
Fixpoint letters (name lower upper : string) : bool :=
  match lower, upper with
  | String a lower', String b upper' =>
      match name with
      | String c name' => (Ascii.eqb c a || Ascii.eqb c b) && letters name' lower' upper'
      | EmptyString => false
      end
  | _, _ => filepath.is_empty name
  end.

(** [name] ends with a dot and the letters of the extension, and no
    separator stands before the dot. *)
Fixpoint has_extension (name lower upper : string) : bool :=
  letters name (String "." lower) (String "." upper)
  || match name with
     | String c name' =>
         negb (Ascii.eqb c filepath.Separator) && has_extension name' lower upper
     | EmptyString => false
     end.

(** The extension normalizer in words: the extension of the content type is
    added unless the name has it already. *)
Definition adjust_in_words (filename contentType : string) : string :=
  if strings.HasPrefix contentType "text/html"
     || strings.HasPrefix contentType "application/xhtml+xml" then
    if has_extension filename "html" "HTML" || has_extension filename "htm" "HTM"
    then filename else filename +:+ ".html"
  else if strings.HasPrefix contentType "text/css" then
    if has_extension filename "css" "CSS" then filename else filename +:+ ".css"
  else if strings.HasPrefix contentType "application/atom+xml" then
    if has_extension filename "atom" "ATOM" then filename else filename +:+ ".atom"
  else if strings.HasPrefix contentType "application/rss+xml" then
    if has_extension filename "rss" "RSS" then filename else filename +:+ ".rss"
  else filename.

(** The extension that belongs to a content type. *)
Definition extension_of (contentType : string) : string :=
  if strings.HasPrefix contentType "text/html"
     || strings.HasPrefix contentType "application/xhtml+xml" then ".html"
  else if strings.HasPrefix contentType "text/css" then ".css"
  else if strings.HasPrefix contentType "application/atom+xml" then ".atom"
  else if strings.HasPrefix contentType "application/rss+xml" then ".rss"
  else "".

(** ** Predicates on the states of the third generation *)

(** The requests of [st] are the first requests of [st']. *)
Definition log_extended (st st' : V3.State) : Prop :=
  requests (V3.sys st) `prefix_of` requests (V3.sys st').

(** Every resource URI of the cache has been requested. *)
Definition cache_requested (st : V3.State) : Prop :=
  forall key, is_Some (V3.fetchedResources st !! key) -> key ∈ requests (V3.sys st).

(** Neither the files nor the cache differ. *)
Definition quiet (st st' : V3.State) : Prop :=
  files (V3.sys st') = files (V3.sys st)
  /\ V3.fetchedResources st' = V3.fetchedResources st.

(** Every file that differs is the file of a requested resource below
    [targetHostDir]. *)
Definition written_for {lib : Library} (targetHostDir : string) (st st' : V3.State) : Prop :=
  forall name,
    files (V3.sys st') !! name <> files (V3.sys st) !! name ->
    exists resourceURL contentType,
      name = resourceFilename resourceURL contentType targetHostDir
      /\ url_String resourceURL ∈ requests (V3.sys st').

(** The log is extended and the cache keeps holding requested URIs only. *)
Definition requested_kept (st st' : V3.State) : Prop :=
  log_extended st st' /\ (cache_requested st -> cache_requested st').

(** The log is extended and the files that differ are accounted for. *)
Definition files_accounted {lib : Library} (targetHostDir : string) (st st' : V3.State)
    : Prop :=
  log_extended st st' /\ written_for targetHostDir st st'.

(** The server answers no request. *)
Definition silent (world : World) : Prop :=
  forall gets urlStr, http_Get world gets urlStr = None.

(** The computation does not end with a run-time panic. *)
Definition never_panics {T : Type} (c : V3.M T) : Prop := forall st, c st <> V3.Panic.

(** No answer of the server is a stylesheet. *)
Definition no_stylesheet (world : World) : Prop :=
  forall gets urlStr contentType content,
    http_Get world gets urlStr = Some (contentType, content) ->
    strings.HasPrefix contentType "text/css" = false.

(** The token is a start tag or a self-closing tag. *)
Definition is_tag (token : Token) : Prop :=
  Type_ token = html.StartTagToken \/ Type_ token = html.SelfClosingTagToken.

(** ** What the rewrite keeps of the markup *)

(** The names of the attributes of a tag, in order. *)
Definition names (attrs : list Attribute) : list (string * string) :=
  map (fun attr => (Namespace attr, Key attr)) attrs.

(** [out] is [token] up to the values of its attributes and, for a tag,
    its data; a token that is not a start tag or a self-closing tag is the
    same. *)
Definition same_tag (token out : Token) : Prop :=
  Type_ out = Type_ token /\ DataAtom out = DataAtom token
  /\ names (Attr out) = names (Attr token)
  /\ (Data out = Data token \/ Attr out = Attr token)
  /\ (Type_ token <> html.StartTagToken -> Type_ token <> html.SelfClosingTagToken ->
      out = token).

(** The tree without the values of its attributes. *)
Fixpoint skeleton (node : Node) : Node :=
  match node with
  | mkNode type dataAtom data attrs children =>
      mkNode type dataAtom data
             (map (fun attr => mkAttribute (Namespace attr) (Key attr) "") attrs)
             (map skeleton children)
  end.

(** The number of element nodes of the tree. *)
Fixpoint elements (node : Node) : nat :=
  match node with
  | mkNode type _ _ _ children =>
      (if bool_decide (type = html.ElementNode) then 1 else 0)
      + list_sum (map elements children)
  end.

Module serialize_example.

(** A link with an ampersand in its address and with an event handler. *)
Definition handler_link : Token :=
  mkToken html.StartTagToken atom.A "a"
    [mkAttribute "" "href" "list?a=1&b=2"; mkAttribute "" "onclick" "go(1)"].

End serialize_example.

Module css_example2.

(** A declaration whose link is written without quotes. *)
Definition unquoted : list ascii := list_ascii_of_string "a{background:url(x.png)}".

End css_example2.

Module run_example.

(** The page with one image, after the server has delivered the picture. *)
Definition image_localized : list Token :=
  [mkToken html.SelfClosingTagToken atom.Zero "img" [mkAttribute "" "src" "img/a.png"]].

Definition image_fetched : V3.State :=
  V3.mkState
    (mkSys ["http://forum.example/img/a.png"]
           {["/srv/mirror/1/forum.example/img/a.png" := page_example.png]})
    {["http://forum.example/img/a.png" := "image/png"]}.

(** The same page when the server does not answer. *)
Definition image_failed : V3.State :=
  V3.mkState (mkSys ["http://forum.example/img/a.png"] ∅) ∅.

(** An image whose source is a [data] link. *)
Definition inline_image : Token :=
  mkToken html.SelfClosingTagToken atom.Zero "img"
    [mkAttribute "" "src" "data:image/png;base64,AAAA"].

Definition inline_image_link : URL := mkURL "data" "image/png;base64,AAAA" "" "" false "" "".

(** A picture with a description, on the page [/t/topic], and what is
    written for it. *)
Definition described_picture : Token :=
  mkToken html.SelfClosingTagToken atom.Zero "img"
    [mkAttribute "" "alt" "a picture"; mkAttribute "" "src" "/images/x.png"].

Definition described_picture_localized : Token :=
  mkToken html.SelfClosingTagToken atom.Zero "img"
    [mkAttribute "" "alt" "a picture"; mkAttribute "" "src" "../images/x.png"].

Definition picture_fetched : V3.State :=
  V3.mkState
    (mkSys ["http://forum.example/images/x.png"]
           {["/srv/mirror/1/forum.example/images/x.png" := page_example.png]})
    {["http://forum.example/images/x.png" := "image/png"]}.

(** A stylesheet in the directory of the page, and the server of it. *)
Definition plain_stylesheet : list ascii := list_ascii_of_string "p{color:red}".

Definition stylesheet_server : World :=
  Build_World
    (fun _ urlStr =>
       if bool_decide (urlStr = "http://forum.example/style.css")
       then Some ("text/css", plain_stylesheet) else None)
    (fun _ => true).

Definition style_link : URL := mkURL "" "" "" "style.css" false "" "".

Definition style_fetched : V3.State :=
  V3.mkState
    (mkSys ["http://forum.example/style.css"]
           {["/srv/mirror/1/forum.example/style.css.css" := plain_stylesheet]})
    {["http://forum.example/style.css" := "text/css"]}.

(** The end of a style element, directly followed by a tag. *)
Definition style_end : Token := mkToken html.EndTagToken atom.Style "style" [].

End run_example.

Module V1_example.

(** Two pictures with the same source below the document node. *)
Definition picture : Node :=
  mkNode html.ElementNode atom.Zero "img" [mkAttribute "" "src" "img/a.png"] [].

Definition document : Node := mkNode html.DocumentNode atom.Zero "" [] [picture; picture].

End V1_example.

Module V2_example.

(** An image with an absolute path, twice on the page [/t/topic]. *)
Definition picture : Token :=
  mkToken html.SelfClosingTagToken atom.Zero "img" [mkAttribute "" "src" "/images/x.png"].

Definition picture_localized : Token :=
  mkToken html.SelfClosingTagToken atom.Zero "img" [mkAttribute "" "src" "../images/x.png"].

Definition picture_link : URL := mkURL "" "" "" "/images/x.png" false "" "".

Definition picture_fetched : Sys :=
  mkSys ["http://forum.example/images/x.png"]
        {["/srv/mirror/1/forum.example/images/x.png" := page_example.png]}.

End V2_example.
(** * Properties *)

(** ** The Extension Normalizer *)

Example adjust_page :
  adjustResourceFilenameExtension "index" "text/html; charset=utf-8" = "index.html".
Proof. reflexivity. Qed.

Example adjust_htm : adjustResourceFilenameExtension "INDEX.HTM" "text/html" = "INDEX.HTM".
Proof. reflexivity. Qed.

Example adjust_png : adjustResourceFilenameExtension "a.png" "image/png" = "a.png".
Proof. reflexivity. Qed.

Example adjust_css : adjustResourceFilenameExtension "site.css" "text/css" = "site.css".
Proof. reflexivity. Qed.

(** The star of a pattern does not cross a separator, so a name with a
    directory part never matches the patterns of the normalizer. *)
Example match_with_directory : Match pattern_css "css/site.css" = false.
Proof. reflexivity. Qed.

Lemma skipStar_cons chunk c s :
  Ascii.eqb c Separator = false ->
  (matchChunk chunk s = Some "" \/ skipStar chunk true s = Some "") ->
  skipStar chunk true (String c s) = Some "".
Proof.
  intros Hc H. simpl. rewrite Hc.
  destruct (matchChunk chunk s) as [t|] eqn:Ht.
  - destruct t as [|d t]; simpl; [reflexivity|].
    destruct H as [H|H]; [discriminate|exact H].
  - destruct H as [H|H]; [discriminate|exact H].
Qed.

(** A name without a separator that ends with text matching the chunk
    matches the pattern made of a star and that chunk. *)
Lemma star_suffix chunk name ext :
  strings.ContainsByte name Separator = false ->
  matchChunk chunk ext = Some "" ->
  matchChunk chunk (name +:+ ext) = Some ""
  \/ skipStar chunk true (name +:+ ext) = Some "".
Proof.
  induction name as [|c name IH]; intros Hn He; simpl in *.
  - left. exact He.
  - apply orb_false_iff in Hn as [Hc Hn]. right.
    change (skipStar chunk true (String c (name +:+ ext)) = Some "").
    apply skipStar_cons; [exact Hc|]. apply IH; assumption.
Qed.

Lemma Match_star_suffix it chunk name ext :
  strings.ContainsByte name Separator = false ->
  matchChunk (it :: chunk) ext = Some "" ->
  Match [(true, it :: chunk)] (name +:+ ext) = true.
Proof.
  intros Hn He. destruct (star_suffix (it :: chunk) name ext Hn He) as [H|H].
  - unfold Match. rewrite H. reflexivity.
  - unfold Match. rewrite H.
    destruct (matchChunk (it :: chunk) (name +:+ ext)) as [t|]; [|reflexivity].
    destruct t; reflexivity.
Qed.

Lemma Match_html name :
  strings.ContainsByte name Separator = false -> Match pattern_html (name +:+ ".html") = true.
Proof. intros H. apply (Match_star_suffix (Lit ".") (both_cases "html" "HTML") name ".html" H). reflexivity. Qed.

Lemma Match_css name :
  strings.ContainsByte name Separator = false -> Match pattern_css (name +:+ ".css") = true.
Proof. intros H. apply (Match_star_suffix (Lit ".") (both_cases "css" "CSS") name ".css" H). reflexivity. Qed.

Lemma Match_atom name :
  strings.ContainsByte name Separator = false -> Match pattern_atom (name +:+ ".atom") = true.
Proof. intros H. apply (Match_star_suffix (Lit ".") (both_cases "atom" "ATOM") name ".atom" H). reflexivity. Qed.

Lemma Match_rss name :
  strings.ContainsByte name Separator = false -> Match pattern_rss (name +:+ ".rss") = true.
Proof. intros H. apply (Match_star_suffix (Lit ".") (both_cases "rss" "RSS") name ".rss" H). reflexivity. Qed.

(** On a name without a directory part the normalizer is idempotent. *)
Lemma adjust_idempotent_without_separator filename contentType :
  strings.ContainsByte filename Separator = false ->
  adjustResourceFilenameExtension
    (adjustResourceFilenameExtension filename contentType) contentType
  = adjustResourceFilenameExtension filename contentType.
Proof.
  intros Hn. unfold adjustResourceFilenameExtension.
  destruct (strings.HasPrefix contentType "text/html"
            || strings.HasPrefix contentType "application/xhtml+xml").
  { destruct (Match pattern_html filename) eqn:E1; cbn [negb andb].
    - rewrite E1. reflexivity.
    - destruct (Match pattern_htm filename) eqn:E2; cbn [negb andb].
      + rewrite E1, E2. reflexivity.
      + rewrite (Match_html _ Hn). reflexivity. }
  destruct (strings.HasPrefix contentType "text/css").
  { destruct (Match pattern_css filename) eqn:E; cbn [negb].
    - rewrite E. reflexivity.
    - rewrite (Match_css _ Hn). reflexivity. }
  destruct (strings.HasPrefix contentType "application/atom+xml").
  { destruct (Match pattern_atom filename) eqn:E; cbn [negb].
    - rewrite E. reflexivity.
    - rewrite (Match_atom _ Hn). reflexivity. }
  destruct (strings.HasPrefix contentType "application/rss+xml").
  { destruct (Match pattern_rss filename) eqn:E; cbn [negb].
    - rewrite E. reflexivity.
    - rewrite (Match_rss _ Hn). reflexivity. }
  reflexivity.
Qed.

(** C5. The Extension Normalizer is not idempotent on a path with a
    directory part: for the stylesheet path [css/site.css] and the content
    type [text/css] the first application gives [css/site.css.css] although
    the name already ends in [.css], and the second application adds the
    suffix once more. *)
Theorem adjust_twice_on_path :
  adjustResourceFilenameExtension "css/site.css" "text/css" = "css/site.css.css"
  /\ adjustResourceFilenameExtension
       (adjustResourceFilenameExtension "css/site.css" "text/css") "text/css"
     = "css/site.css.css.css"
  /\ adjustResourceFilenameExtension
       (adjustResourceFilenameExtension "css/site.css" "text/css") "text/css"
     <> adjustResourceFilenameExtension "css/site.css" "text/css".
Proof. split; [reflexivity | split; [reflexivity | discriminate]]. Qed.

(** ** The page URL and the page file *)

Lemma page2_URL :
  GoModel.Parse (V1.pageURLStr "http://forum.example/topic?start=" 15 2)
  = Some (mkURL "http" "" "forum.example" "/topic" false "start=15" "").
Proof. vm_compute. reflexivity. Qed.

(** The file name of a resource keeps the query of its URL: the local
    reference is [Path?RawQuery] with the suffix for the content type. *)
Lemma page2_reference :
  getLocalResourceRelativeReference (lib := GoModel.library)
    (mkURL "http" "" "forum.example" "/topic" false "start=15" "") "text/html"
  = "/topic?start=15.html".
Proof. vm_compute. reflexivity. Qed.

(** C6, as the code has it. For the template
    [http://forum.example/topic?start=], step 15 and page 2 the request URL is
    [http://forum.example/topic?start=15]; with the content type [text/html]
    the page is written to the file [topic?start=15.html] in the directory
    [forum.example] of the directory [2] of the target directory: the file
    name keeps the query of the page URL. *)
Theorem page2_request_and_file (targetDir : string) :
  V1.pageRequestURL (lib := GoModel.library) "http://forum.example/topic?start=" 15 2
  = Some "http://forum.example/topic?start=15"
  /\ V1.pageFilename (lib := GoModel.library)
       "http://forum.example/topic?start=" 15 2 targetDir "text/html"
     = Some (GoModel.Join
               [GoModel.Join [GoModel.Join [targetDir; "2"]; "forum.example"];
                "/topic?start=15.html"])
  /\ V1.pageFilename (lib := GoModel.library)
       "http://forum.example/topic?start=" 15 2 "/srv/mirror" "text/html"
     = Some "/srv/mirror/2/forum.example/topic?start=15.html".
Proof.
  split; [vm_compute; reflexivity|]. split; [|vm_compute; reflexivity].
  unfold V1.pageFilename. cbn [url_Parse GoModel.library]. rewrite page2_URL.
  unfold resourceFilename. rewrite page2_reference. reflexivity.
Qed.

(** C6, as stated, fails: the page file is not [topic.html]. *)
Lemma page2_file_is_not_topic_html :
  V1.pageFilename (lib := GoModel.library)
    "http://forum.example/topic?start=" 15 2 "/srv/mirror" "text/html"
  <> Some "/srv/mirror/2/forum.example/topic.html".
Proof. vm_compute. discriminate. Qed.

(** ** The failure ledger *)

Section LedgerFacts.

Import ledger.

Variable scanPageNumbers : list ascii -> list Z.

(** While the fixed name [failures.lst.0] exists the loop is never left. *)
Lemma archive_loop_never_left fs archived :
  os_Stat fs archived = None ->
  forall fuel i, archive_loop fuel fs archived i None = None.
Proof.
  intros Hstat fuel. induction fuel as [|fuel IH]; intros i; simpl.
  - reflexivity.
  - rewrite Hstat. apply IH.
Qed.

(** Otherwise it is left after one round, with [i = 1]. *)
Lemma archive_loop_once fs archived e fuel :
  os_Stat fs archived = Some e ->
  archive_loop (S (S fuel)) fs archived 0 None = Some (1%Z, Some e).
Proof. intros Hstat. simpl. rewrite Hstat. reflexivity. Qed.

Lemma getFailedDownloads_never_returns fs name :
  exists_in fs name = true ->
  exists_in fs (archiveName name 0) = true ->
  forall fuel, getFailedDownloads scanPageNumbers fuel name fs = None.
Proof.
  intros Hname Harch fuel. unfold getFailedDownloads, os_Open. rewrite Hname.
  rewrite archive_loop_never_left; [reflexivity|].
  unfold os_Stat. rewrite Harch. reflexivity.
Qed.

Lemma getFailedDownloads_renames_to_1 fs name content fuel :
  name <> "" ->
  fs !! name = Some content ->
  exists_in fs (archiveName name 0) = false ->
  getFailedDownloads scanPageNumbers (S (S fuel)) name fs
  = Some (scanPageNumbers content, <[archiveName name 1 := content]> (delete name fs)).
Proof.
  intros Hne Hname Harch.
  assert (Hex : exists_in fs name = true).
  { unfold exists_in. rewrite Hname.
    rewrite (bool_decide_eq_false_2 _ Hne). rewrite bool_decide_eq_true_2; eauto. }
  unfold getFailedDownloads, os_Open. rewrite Hex, Hname.
  rewrite (archive_loop_once _ _ ErrNotExist).
  - cbn [os_IsNotExist negb andb]. rewrite andb_false_r.
    unfold os_Rename. rewrite Hname, Hex. reflexivity.
  - unfold os_Stat. rewrite Harch. reflexivity.
Qed.

(** [main] calls [getFailedDownloads] while the package-level file name is
    still empty: nothing is read and nothing is renamed, whatever the target
    directory holds, and the new ledger replaces the old one. *)
Lemma main_ledger_archives_nothing {lib : Library} fuel targetDir rangePages fs :
  main_ledger scanPageNumbers fuel targetDir rangePages fs
  = Some ([], match rangePages with
              | [] => fs
              | _ => os_Create fs (filepath_Join [targetDir; "failures.lst"])
              end).
Proof.
  unfold main_ledger, getFailedDownloads, global_failureListFilename, os_Open, exists_in.
  cbn. destruct rangePages; reflexivity.
Qed.

End LedgerFacts.

(** C4 on a target directory [/srv/mirror] that holds [failures.lst] and
    [failures.lst.0], for a run with the page range [1]:
    - [main] does not archive the ledger at all: [getFailedDownloads] opens the
      empty file name, recovers no page, and the new ledger replaces the old
      one;
    - [getFailedDownloads] with the file name of the ledger does not return,
      for any number of iterations;
    - in a directory with [failures.lst] and [failures.lst.1] it renames the
      ledger to [failures.lst.1], not to the free [failures.lst.0], and the
      archive that was there is lost. *)
Theorem ledger_archival_at_failing_input (scanPageNumbers : list ascii -> list Z) :
  (forall fuel,
     ledger.main_ledger (lib := GoModel.library) scanPageNumbers fuel "/srv/mirror" [1%Z]
       ledger_example.with_archive_0
     = Some ([], <[ledger_example.name := []]> ledger_example.with_archive_0))
  /\ (forall fuel,
        ledger.getFailedDownloads scanPageNumbers fuel ledger_example.name
          ledger_example.with_archive_0 = None)
  /\ (forall fuel,
        ledger.getFailedDownloads scanPageNumbers (S (S fuel)) ledger_example.name
          ledger_example.with_archive_1
        = Some (scanPageNumbers (list_ascii_of_string "3"),
                <[ledger_example.name +:+ ".1" := list_ascii_of_string "3"]> ∅)).
Proof.
  split; [|split].
  - intros fuel. rewrite main_ledger_archives_nothing. reflexivity.
  - apply getFailedDownloads_never_returns; vm_compute; reflexivity.
  - intros fuel.
    rewrite (getFailedDownloads_renames_to_1 _ _ _ (list_ascii_of_string "3")).
    + vm_compute. reflexivity.
    + discriminate.
    + reflexivity.
    + vm_compute. reflexivity.
Qed.

(** ** The attribute scan *)

Lemma link_key_no_atom k : is_link_key k = true -> atom.Lookup k = atom.Zero.
Proof.
  unfold is_link_key. intros H. apply bool_decide_eq_true_1 in H.
  repeat (apply elem_of_cons in H as [->|H]; [reflexivity|]).
  apply elem_of_nil in H. destruct H.
Qed.

(** The proofs about one step go by cases on the atom of the key and on
    whether the key is one of the seven names of the inner [switch]. *)
Ltac scan_cases attr :=
  let a := fresh "a" in
  let Hk := fresh "Hk" in
  let k := fresh "k" in
  pose proof (link_key_no_atom (Key attr)) as Hk;
  remember (atom.Lookup (Key attr)) as a;
  remember (is_link_key (Key attr)) as k;
  destruct k; [rewrite Hk by reflexivity|destruct a]; clear Hk.

(** What one attribute does to the flags. *)
Lemma scan_step_flags ws index attr s :
  hasLinkURIAttr (scan_step ws index attr s) = hasLinkURIAttr s || is_candidate attr
  /\ hasRel (scan_step ws index attr s) = hasRel s || is_rel attr.
Proof.
  unfold scan_step, is_candidate, is_rel.
  scan_cases attr; destruct ws; cbn;
    rewrite ?orb_true_r, ?orb_false_r; split; reflexivity.
Qed.

(** The [break] only cuts the list of attributes that are read. *)
Lemma scan_from_read ws attrs : forall index s,
  scan_from ws index attrs s
  = scan_all ws index (read_from (hasLinkURIAttr s) (hasRel s) attrs) s.
Proof.
  induction attrs as [|attr rest IH]; intros index s; simpl.
  - reflexivity.
  - destruct (hasLinkURIAttr s && hasRel s); [reflexivity|].
    simpl. rewrite IH.
    destruct (scan_step_flags ws index attr s) as [-> ->]. reflexivity.
Qed.

(** Reading one more attribute first, in words. *)
Lemma scan_words_step ws index attr rest s :
  scan_words_from ws (S index) rest (scan_step ws index attr s)
  = scan_words_from ws index (attr :: rest) s.
Proof.
  unfold scan_words_from. cbn [last_where].
  destruct (last_where is_candidate (S index) rest) as [[i1 a1]|];
  destruct (last_where is_atom_candidate (S index) rest) as [[i2 a2]|];
  destruct (last_where is_rel (S index) rest) as [[i3 a3]|];
  destruct (last_where (is_style ws) (S index) rest) as [[i4 a4]|];
  unfold scan_step, is_candidate, is_atom_candidate, is_rel, is_style;
  scan_cases attr; destruct ws; cbn;
  rewrite ?orb_true_r, ?orb_false_r; try reflexivity;
  match goal with H : _ = atom.Lookup _ |- _ => rewrite <- H; reflexivity end.
Qed.

Lemma scan_all_in_words ws attrs : forall index s,
  scan_all ws index attrs s = scan_words_from ws index attrs s.
Proof.
  induction attrs as [|attr rest IH]; intros index s.
  - destruct s. unfold scan_words_from. cbn. rewrite !orb_false_r. reflexivity.
  - cbn [scan_all]. rewrite IH. apply scan_words_step.
Qed.

(** The attributes read are a prefix of the attributes of the element. *)
Lemma read_from_prefix attrs : forall seenLink seenRel,
  exists rest, attrs = read_from seenLink seenRel attrs ++ rest.
Proof.
  induction attrs as [|attr attrs IH]; intros seenLink seenRel; simpl.
  - exists []. reflexivity.
  - destruct (seenLink && seenRel).
    + exists (attr :: attrs). reflexivity.
    + destruct (IH (seenLink || is_candidate attr) (seenRel || is_rel attr)) as [rest E].
      exists rest. simpl. congruence.
Qed.

(** The scan stops before the end only when both kinds have been seen. *)
Lemma read_from_stops attrs : forall seenLink seenRel,
  read_from seenLink seenRel attrs = attrs
  \/ (seenLink || existsb is_candidate (read_from seenLink seenRel attrs))
     && (seenRel || existsb is_rel (read_from seenLink seenRel attrs)) = true.
Proof.
  induction attrs as [|attr rest IH]; intros seenLink seenRel; cbn [read_from].
  - left. reflexivity.
  - destruct (seenLink && seenRel) eqn:E.
    + right. cbn. rewrite !orb_false_r. exact E.
    + destruct (IH (seenLink || is_candidate attr) (seenRel || is_rel attr)) as [H|H].
      * left. rewrite H. reflexivity.
      * right. cbn [existsb]. rewrite !orb_assoc. exact H.
Qed.

(** It stops as soon as both kinds have been seen: without the last
    attribute read, not both have been. *)
Lemma read_from_shortest attrs : forall seenLink seenRel,
  seenLink && seenRel = false ->
  (seenLink || existsb is_candidate (removelast (read_from seenLink seenRel attrs)))
  && (seenRel || existsb is_rel (removelast (read_from seenLink seenRel attrs))) = false.
Proof.
  induction attrs as [|attr rest IH]; intros seenLink seenRel E; cbn [read_from].
  - cbn. rewrite !orb_false_r. exact E.
  - rewrite E.
    destruct ((seenLink || is_candidate attr) && (seenRel || is_rel attr)) eqn:E'.
    + assert (read_from (seenLink || is_candidate attr) (seenRel || is_rel attr) rest = [])
        as ->.
      { destruct rest; cbn [read_from]; [reflexivity|]. rewrite E'. reflexivity. }
      cbn. rewrite !orb_false_r. exact E.
    + specialize (IH _ _ E').
      destruct (read_from (seenLink || is_candidate attr) (seenRel || is_rel attr) rest)
        as [|x l] eqn:R.
      * cbn. rewrite !orb_false_r. exact E.
      * change (removelast (attr :: x :: l)) with (attr :: removelast (x :: l)).
        cbn [existsb]. rewrite !orb_assoc. exact IH.
Qed.

(** C7, as the code has it. The scan keeps one candidate link attribute and
    one [rel] attribute. It reads the attributes in order and stops as soon
    as both a candidate link attribute and a [rel] attribute have been seen;
    of the attributes read, the last candidate link attribute gives the index
    and the link text, and the last [rel] attribute gives [rel] (last match
    wins among the attributes read). The attributes read are a prefix of the
    attributes of the element; they are all of them unless both kinds are
    among them, and without the last one read not both kinds are. *)
Theorem scan_last_match_among_read (withStyle : bool) (attrs : list Attribute) :
  scanAttrs withStyle attrs = scan_in_words withStyle attrs
  /\ (exists rest, attrs = attrs_read attrs ++ rest)
  /\ bool_decide (attrs_read attrs = attrs)
     || existsb is_candidate (attrs_read attrs) && existsb is_rel (attrs_read attrs)
     = true
  /\ existsb is_candidate (removelast (attrs_read attrs))
     && existsb is_rel (removelast (attrs_read attrs)) = false.
Proof.
  split; [|split; [|split]].
  - unfold scanAttrs, scan_in_words, attrs_read.
    rewrite scan_from_read. apply scan_all_in_words.
  - apply read_from_prefix.
  - destruct (read_from_stops attrs false false) as [H|H].
    + unfold attrs_read. rewrite (bool_decide_eq_true_2 _ H). reflexivity.
    + unfold attrs_read. cbn [orb] in H. rewrite H. apply orb_true_r.
  - exact (read_from_shortest attrs false false eq_refl).
Qed.

(** C7, as stated, fails: on the image button the scan reads [src] and then
    [formaction], and the second one is used. *)
Lemma scan_first_match_does_not_win :
  let s := scanAttrs false scan_example.image_button in
  hasLinkURIAttr s = true
  /\ scan_example.image_button !! 1 = Some (mkAttribute "" "src" "go.png")
  /\ linkURIAttrIndex s = 2 /\ linkURIStr s = "/post"
  /\ linkURIAttrIndex s <> 1 /\ linkURIStr s <> "go.png".
Proof. vm_compute. repeat split; discriminate. Qed.

(** ** The navigational test *)

(** The condition of the [if] is the negation of the rule in words, for the
    atom that the scan has recorded. *)
Lemma isRequisite_in_words attribute element hasRel rel :
  isRequisite attribute element hasRel rel = false
  <-> navigational_in_words attribute element hasRel rel.
Proof.
  unfold isRequisite, navigational_in_words, atom_neq.
  destruct hasRel, (isRelInline rel); cbn [andb orb];
    rewrite ?orb_true_r, ?orb_false_r, ?andb_true_r, ?andb_false_r;
    rewrite ?andb_false_iff, ?orb_false_iff, ?andb_false_iff;
    rewrite ?negb_false_iff, ?bool_decide_eq_true;
    intuition congruence.
Qed.

(** The scan finds the same link and the same [rel] with and without the
    [case] for [style]. *)
Lemma scan_link_fields ws attrs :
  let s := scanAttrs ws attrs in
  let s0 := scanAttrs false attrs in
  linkURIAttrAtom s = linkURIAttrAtom s0 /\ linkURIAttrIndex s = linkURIAttrIndex s0
  /\ linkURIStr s = linkURIStr s0 /\ rel s = rel s0
  /\ hasLinkURIAttr s = hasLinkURIAttr s0 /\ hasRel s = hasRel s0.
Proof.
  unfold scanAttrs. rewrite !scan_from_read, !scan_all_in_words.
  cbn. repeat split; reflexivity.
Qed.

(** Where the scan found its values: the attribute at the recorded index. *)
Lemma last_where_spec p attrs : forall index i a,
  last_where p index attrs = Some (i, a) ->
  index <= i /\ attrs !! (i - index) = Some a /\ p a = true.
Proof.
  induction attrs as [|attr rest IH]; intros index i a H; simpl in H.
  - discriminate.
  - destruct (last_where p (S index) rest) as [[j b]|] eqn:E.
    + injection H as -> ->. apply IH in E as (Hle & Hl & Hp).
      split; [lia|]. split; [|exact Hp].
      replace (i - index) with (S (i - S index)) by lia. exact Hl.
    + destruct (p attr) eqn:Hp; [|discriminate].
      injection H as <- <-. split; [lia|]. rewrite Nat.sub_diag. split; [reflexivity|exact Hp].
Qed.

Lemma attrs_read_lookup attrs i a :
  attrs_read attrs !! i = Some a -> attrs !! i = Some a.
Proof.
  intros H. destruct (read_from_prefix attrs false false) as [rest E].
  rewrite E. apply lookup_app_l_Some. exact H.
Qed.

(** The link index and the style index of a scan point at a candidate link
    attribute and at a [style] attribute of the element. *)
Lemma scan_link_index ws attrs :
  hasLinkURIAttr (scanAttrs ws attrs) = true ->
  exists a, attrs !! linkURIAttrIndex (scanAttrs ws attrs) = Some a
            /\ is_candidate a = true /\ linkURIStr (scanAttrs ws attrs) = Val a.
Proof.
  unfold scanAttrs. rewrite scan_from_read, scan_all_in_words. cbn.
  destruct (last_where is_candidate 0 (read_from false false attrs)) as [[i a]|] eqn:E;
    cbn; [|discriminate].
  intros _. apply last_where_spec in E as (_ & Hl & Hp). rewrite Nat.sub_0_r in Hl.
  exists a. split; [apply attrs_read_lookup; exact Hl|]. split; [exact Hp|reflexivity].
Qed.

Lemma scan_style_index attrs :
  hasStyle (scanAttrs true attrs) = true ->
  exists a, attrs !! styleIndex (scanAttrs true attrs) = Some a /\ is_style true a = true.
Proof.
  unfold scanAttrs. rewrite scan_from_read, scan_all_in_words. cbn.
  destruct (last_where (is_style true) 0 (read_from false false attrs)) as [[i a]|] eqn:E;
    cbn; [|discriminate].
  intros _. apply last_where_spec in E as (_ & Hl & Hp). rewrite Nat.sub_0_r in Hl.
  exists a. split; [apply attrs_read_lookup; exact Hl|exact Hp].
Qed.

Lemma style_is_no_candidate a : is_style true a = true -> is_candidate a = false.
Proof.
  unfold is_style, is_candidate. cbn. intros H. apply bool_decide_eq_true_1 in H.
  rewrite H. cbn. destruct (is_link_key (Key a)) eqn:Hk; [|reflexivity].
  apply link_key_no_atom in Hk. congruence.
Qed.

Lemma scan_style_index_ne attrs :
  hasStyle (scanAttrs true attrs) = true ->
  hasLinkURIAttr (scanAttrs true attrs) = true ->
  styleIndex (scanAttrs true attrs) <> linkURIAttrIndex (scanAttrs true attrs).
Proof.
  intros Hs Hl E.
  apply scan_style_index in Hs as (a & Ha & Hsa).
  apply scan_link_index in Hl as (b & Hb & Hcb & _).
  rewrite E in Ha. rewrite Ha in Hb. injection Hb as <-.
  apply style_is_no_candidate in Hsa. congruence.
Qed.

Lemma setVal_lookup_ne i j v attrs : i <> j -> setVal i v attrs !! j = attrs !! j.
Proof. intros H. unfold setVal. apply list_lookup_alter_ne. exact H. Qed.

(** ** The two branches that fetch nothing *)

Section NoFetch.

Context {lib : Library} (world : World).
Variables (pageURL : URL) (targetHostDir pageDirpath : string).
Variables (dataAtom : Atom) (attrs : list Attribute) (linkURI : URL).

Local Abbreviation s := (scanAttrs false attrs).

Hypothesis found : hasLinkURIAttr s = true.
Hypothesis parsed : url_Parse (linkURIStr s) = Some linkURI.

Lemma scan_true_parsed : url_Parse (linkURIStr (scanAttrs true attrs)) = Some linkURI.
Proof. destruct (scan_link_fields true attrs) as (_ & _ & -> & _). exact parsed. Qed.

Lemma scan_true_found : hasLinkURIAttr (scanAttrs true attrs) = true.
Proof. destruct (scan_link_fields true attrs) as (_ & _ & _ & _ & -> & _). exact found. Qed.

Lemma scan_true_requisite :
  isRequisite (linkURIAttrAtom (scanAttrs true attrs)) dataAtom
              (hasRel (scanAttrs true attrs)) (rel (scanAttrs true attrs))
  = isRequisite (linkURIAttrAtom s) dataAtom (hasRel s) (rel s).
Proof. destruct (scan_link_fields true attrs) as (-> & _ & _ & -> & _ & ->). reflexivity. Qed.

(** A navigational link is rewritten to the resolved URL and nothing is
    fetched, in each generation. *)
Lemma navigational_V1 sys :
  isRequisite (linkURIAttrAtom s) dataAtom (hasRel s) (rel s) = false ->
  V1.rewriteElement world pageURL targetHostDir pageDirpath dataAtom attrs sys
  = (setVal (linkURIAttrIndex s) (url_String (url_ResolveReference pageURL linkURI)) attrs,
     sys).
Proof.
  intros Hnav. unfold V1.rewriteElement. rewrite found, parsed, Hnav. reflexivity.
Qed.

Lemma navigational_V3 fuel attrs' st :
  isRequisite (linkURIAttrAtom s) dataAtom (hasRel s) (rel s) = false ->
  V3.rewriteLink world pageURL targetHostDir pageDirpath fuel dataAtom
    (scanAttrs true attrs) attrs' st
  = V3.Done (setVal (linkURIAttrIndex s)
               (url_String (url_ResolveReference pageURL linkURI)) attrs') st.
Proof.
  intros Hnav. unfold V3.rewriteLink.
  rewrite scan_true_found, scan_true_parsed, scan_true_requisite, Hnav. cbn.
  destruct (scan_link_fields true attrs) as (_ & -> & _). reflexivity.
Qed.

(** A requisite link without opaque part and with an empty path is left
    alone, in each generation. *)
Hypothesis requisite : isRequisite (linkURIAttrAtom s) dataAtom (hasRel s) (rel s) = true.
Hypothesis hierarchical : Opaque linkURI = "".
Hypothesis no_path : Path linkURI = "".

Lemma empty_path_V1 sys :
  V1.rewriteElement world pageURL targetHostDir pageDirpath dataAtom attrs sys = (attrs, sys).
Proof.
  unfold V1.rewriteElement. rewrite found, parsed, requisite. cbn.
  rewrite bool_decide_eq_true_2 by exact hierarchical.
  rewrite bool_decide_eq_false_2; [reflexivity|]. intros H. apply H. exact no_path.
Qed.

Lemma empty_path_V3 fuel attrs' st :
  V3.rewriteLink world pageURL targetHostDir pageDirpath fuel dataAtom
    (scanAttrs true attrs) attrs' st
  = V3.Done attrs' st.
Proof.
  unfold V3.rewriteLink.
  rewrite scan_true_found, scan_true_parsed, scan_true_requisite, requisite. cbn.
  unfold V3.fetchResourceFromLinkIfNecessary, V3.fetchResourceFromLinkIfNecessary_with.
  rewrite bool_decide_eq_true_2 by exact hierarchical.
  rewrite bool_decide_eq_true_2 by exact no_path. reflexivity.
Qed.

End NoFetch.

(** C10. A requisite link that is not opaque and whose parsed URL has an
    empty path (a reference made of a fragment or of a query only) is left
    alone by the markup rewriter of every generation: the tree walk returns
    the element as it was and the effects as they were; the first token
    stream returns the token as it was, with the same requests and files; in
    the second token stream the handling of the token is the handling of its
    [style] attribute alone, the link attribute keeps its value in every
    token that is written, and a token without [style] attribute is returned
    as it was with the state as it was. *)
Theorem empty_path_link_untouched {lib : Library} (world : World)
    (pageURL : URL) (targetHostDir pageDirpath : string)
    (type : html.TokenType) (dataAtom : Atom) (data : string)
    (attrs : list Attribute) (linkURI : URL) :
  let s := scanAttrs false attrs in
  let token := mkToken type dataAtom data attrs in
  let node := mkNode html.ElementNode dataAtom data attrs [] in
  type = html.StartTagToken \/ type = html.SelfClosingTagToken ->
  hasLinkURIAttr s = true ->
  url_Parse (linkURIStr s) = Some linkURI ->
  isRequisite (linkURIAttrAtom s) dataAtom (hasRel s) (rel s) = true ->
  Opaque linkURI = "" ->
  Path linkURI = "" ->
  (forall sys,
     V1.fetchRequisiteResourcesAndRewriteLinks world pageURL targetHostDir pageDirpath node sys
     = (node, sys))
  /\ (forall st,
        exists fetched,
          V2.processToken world pageURL targetHostDir pageDirpath token st
          = (token, V2.mkState (V2.sys st) fetched))
  /\ (forall fuel prev st,
        DataAtom prev <> atom.Style ->
        V3.processToken world pageURL targetHostDir pageDirpath fuel (Some prev) token st
        = V3.bind
            (V3.rewriteStyle world pageURL targetHostDir pageDirpath fuel
               (scanAttrs true attrs) attrs)
            (fun attrs' => V3.ret (html.withAttr token attrs')) st)
  /\ (forall fuel prevToken st out st',
        V3.processToken world pageURL targetHostDir pageDirpath fuel prevToken token st
        = V3.Done out st' ->
        Attr out !! linkURIAttrIndex s = attrs !! linkURIAttrIndex s)
  /\ (forall fuel prev st,
        DataAtom prev <> atom.Style ->
        hasStyle (scanAttrs true attrs) = false ->
        V3.processToken world pageURL targetHostDir pageDirpath fuel (Some prev) token st
        = V3.Done token st).
Proof.
  intros s token node Htype Hfound Hparsed Hreq Hop Hpath.
  assert (Htag : negb (bool_decide (type = html.SelfClosingTagToken))
                 && negb (bool_decide (type = html.StartTagToken)) = false).
  { destruct Htype as [-> | ->]; reflexivity. }
  assert (Hstep : forall fuel prev st,
    DataAtom prev <> atom.Style ->
    V3.processToken world pageURL targetHostDir pageDirpath fuel (Some prev) token st
    = V3.bind
        (V3.rewriteStyle world pageURL targetHostDir pageDirpath fuel
           (scanAttrs true attrs) attrs)
        (fun attrs' => V3.ret (html.withAttr token attrs')) st).
  { intros fuel prev st Hprev. unfold V3.processToken. cbn [Type_ token DataAtom Attr].
    rewrite Htag. rewrite (bool_decide_eq_false_2 _ Hprev).
    unfold V3.bind.
    destruct (V3.rewriteStyle world pageURL targetHostDir pageDirpath fuel
                (scanAttrs true attrs) attrs st) as [attrs1 st1| |]; try reflexivity.
    rewrite (empty_path_V3 world pageURL targetHostDir pageDirpath dataAtom attrs linkURI
               Hfound Hparsed Hreq Hop Hpath). reflexivity. }
  split; [|split; [|split; [|split]]].
  - intros sys. cbn.
    rewrite (empty_path_V1 world pageURL targetHostDir pageDirpath dataAtom attrs linkURI
               Hfound Hparsed Hreq Hop Hpath). reflexivity.
  - intros st. unfold V2.processToken. cbn [Type_ token DataAtom Attr].
    rewrite Htag. fold s. rewrite Hfound, Hparsed, Hreq. cbn.
    rewrite bool_decide_eq_true_2 by exact Hop.
    rewrite bool_decide_eq_false_2 by (intros H; apply H; exact Hpath).
    eexists. reflexivity.
  - exact Hstep.
  - intros fuel prevToken st out st' Hrun.
    destruct prevToken as [prev|];
      [|unfold V3.processToken in Hrun; cbn [Type_ token] in Hrun;
        rewrite Htag in Hrun; discriminate Hrun].
    destruct (decide (DataAtom prev = atom.Style)) as [Hstyled|Hprev].
    { unfold V3.processToken in Hrun. cbn [Type_ token] in Hrun. rewrite Htag in Hrun.
      rewrite (bool_decide_eq_true_2 _ Hstyled) in Hrun. unfold V3.bind in Hrun.
      destruct (V3.fetchLinkedResourcesInCSS world fuel _ _ st) as [css1 st1| |];
        try discriminate Hrun.
      injection Hrun as <- <-. reflexivity. }
    rewrite Hstep in Hrun by exact Hprev.
    unfold V3.bind, V3.rewriteStyle in Hrun.
    destruct (hasStyle (scanAttrs true attrs)) eqn:Hstyle.
    + unfold V3.bind in Hrun.
      destruct (V3.fetchLinkedResourcesInCSS world fuel _ _ st) as [css1 st1| |];
        try discriminate Hrun.
      cbn in Hrun. injection Hrun as <- <-. cbn.
      apply setVal_lookup_ne. unfold s.
      destruct (scan_link_fields true attrs) as (_ & <- & _ & _ & Hf & _).
      apply scan_style_index_ne; [exact Hstyle|]. rewrite Hf. exact Hfound.
    + cbn in Hrun. injection Hrun as <- <-. reflexivity.
  - intros fuel prev st Hprev Hstyle. rewrite Hstep by exact Hprev.
    unfold V3.bind, V3.rewriteStyle. rewrite Hstyle. reflexivity.
Qed.

(** The image whose source is [#top], on the example page. *)
Lemma empty_path_link_untouched_witness :
  V1.fetchRequisiteResourcesAndRewriteLinks (lib := GoModel.library) page_example.offline
    page_example.pageURL page_example.targetHostDir page_example.pageDirpath
    (mkNode html.ElementNode atom.Zero "img" page_example.fragment_image_attrs []) sys_init
  = (mkNode html.ElementNode atom.Zero "img" page_example.fragment_image_attrs [], sys_init)
  /\ V3.processToken (lib := GoModel.library) page_example.offline
       page_example.pageURL page_example.targetHostDir page_example.pageDirpath
       1 (Some page_example.doctype) page_example.fragment_image V3.state_init
     = V3.Done page_example.fragment_image V3.state_init.
Proof.
  pose proof (empty_path_link_untouched (lib := GoModel.library) page_example.offline
    page_example.pageURL page_example.targetHostDir page_example.pageDirpath
    html.SelfClosingTagToken atom.Zero "img" page_example.fragment_image_attrs
    (mkURL "" "" "" "" false "" "top")
    (or_intror eq_refl) eq_refl eq_refl eq_refl eq_refl eq_refl) as (H1 & _ & _ & _ & H5).
  split.
  - apply H1.
  - apply H5; [discriminate|reflexivity].
Defined.

(** ** The navigational rule and the atom that the scan records *)

Lemma last_where_none_sub (p q : Attribute -> bool) attrs :
  (forall a, q a = true -> p a = true) ->
  forall index, last_where p index attrs = None -> last_where q index attrs = None.
Proof.
  intros Hsub. induction attrs as [|attr rest IH]; intros index H; simpl in *.
  - reflexivity.
  - destruct (last_where p (S index) rest) eqn:E; [discriminate|].
    rewrite (IH _ E).
    destruct (p attr) eqn:Hp; [discriminate|].
    destruct (q attr) eqn:Hq; [|reflexivity].
    apply Hsub in Hq. congruence.
Qed.

Lemma last_where_sub (p q : Attribute -> bool) attrs :
  (forall a, q a = true -> p a = true) ->
  forall index i a,
    last_where p index attrs = Some (i, a) -> q a = true ->
    last_where q index attrs = Some (i, a).
Proof.
  intros Hsub. induction attrs as [|attr rest IH]; intros index i a H Hq; simpl in *.
  - discriminate.
  - destruct (last_where p (S index) rest) as [[j b]|] eqn:E.
    + injection H as -> ->. rewrite (IH _ _ _ E Hq). reflexivity.
    + rewrite (last_where_none_sub p q rest Hsub _ E).
      destruct (p attr); [|discriminate]. injection H as <- <-. rewrite Hq. reflexivity.
Qed.

(** When the attribute that the scan uses has its name in the atom table,
    the recorded atom is the atom of that name, and the rule in words decides
    the branch by the name of the attribute itself. *)
Lemma scan_atom_of_used_attribute ws attrs a :
  hasLinkURIAttr (scanAttrs ws attrs) = true ->
  attrs !! linkURIAttrIndex (scanAttrs ws attrs) = Some a ->
  is_atom_candidate a = true ->
  linkURIAttrAtom (scanAttrs ws attrs) = atom.Lookup (Key a).
Proof.
  unfold scanAttrs. rewrite scan_from_read, scan_all_in_words. cbn.
  destruct (last_where is_candidate 0 (read_from false false attrs)) as [[i b]|] eqn:E;
    cbn; [|discriminate].
  intros _ Ha Hatom.
  pose proof (last_where_spec _ _ _ _ _ E) as (_ & Hl & _). rewrite Nat.sub_0_r in Hl.
  apply attrs_read_lookup in Hl. rewrite Hl in Ha. injection Ha as ->.
  rewrite (last_where_sub is_candidate is_atom_candidate _
             (fun x H => orb_true_intro _ _ (or_introl H)) _ _ _ E Hatom).
  reflexivity.
Qed.

(** The first generation of the tokenizer keeps the mirror on the host of
    the page: a requisite link that resolves to another host is not fetched
    and the token is written as it was. *)
Lemma V2_cross_host_untouched {lib : Library} (world : World)
    (pageURL : URL) (targetHostDir pageDirpath : string) (token : Token) (linkURI : URL) st :
  let s := scanAttrs false (Attr token) in
  hasLinkURIAttr s = true ->
  url_Parse (linkURIStr s) = Some linkURI ->
  isRequisite (linkURIAttrAtom s) (DataAtom token) (hasRel s) (rel s) = true ->
  Opaque linkURI = "" ->
  Path linkURI <> "" ->
  Host (url_ResolveReference pageURL linkURI) <> Host pageURL ->
  V2.processToken world pageURL targetHostDir pageDirpath token st = (token, st).
Proof.
  intros s Hfound Hparsed Hreq Hop Hpath Hhost. unfold V2.processToken.
  destruct (negb (bool_decide (Type_ token = html.SelfClosingTagToken))
            && negb (bool_decide (Type_ token = html.StartTagToken))); [reflexivity|].
  fold s. rewrite Hfound, Hparsed, Hreq. cbn.
  rewrite bool_decide_eq_true_2 by exact Hop.
  rewrite bool_decide_eq_true_2 by exact Hpath.
  unfold V2.doesResourceHaveToBeFetched.
  rewrite (bool_decide_eq_false_2 _ Hhost). rewrite andb_false_r. reflexivity.
Qed.

Lemma V2_getAndWrite_requests {lib : Library} (world : World) u targetHostDir sys :
  requests (V2.getAndWriteResourceToFile world u targetHostDir sys).2
  = requests sys ++ [url_String u].
Proof.
  unfold V2.getAndWriteResourceToFile, getResource, V2.openFileForResourceContent.
  destruct (http_Get world _ _) as [[ct content]|]; [|reflexivity].
  cbn. destruct (can_create world _); reflexivity.
Qed.

(** In that generation every request of a token goes to the host of the
    page. *)
Lemma V2_requests_same_host {lib : Library} (world : World)
    (pageURL : URL) (targetHostDir pageDirpath : string) (token : Token) st :
  let st' := (V2.processToken world pageURL targetHostDir pageDirpath token st).2 in
  requests (V2.sys st') = requests (V2.sys st)
  \/ exists resourceURL,
       Host resourceURL = Host pageURL
       /\ requests (V2.sys st') = requests (V2.sys st) ++ [url_String resourceURL].
Proof.
  unfold V2.processToken.
  destruct (negb (bool_decide (Type_ token = html.SelfClosingTagToken))
            && negb (bool_decide (Type_ token = html.StartTagToken))); [left; reflexivity|].
  destruct (hasLinkURIAttr (scanAttrs false (Attr token))); cbn [negb]; [|left; reflexivity].
  destruct (url_Parse _) as [linkURI|]; [|left; reflexivity].
  destruct (isRequisite _ _ _ _); [|left; reflexivity].
  assert (Hhost : forall u,
    V2.doesResourceHaveToBeFetched pageURL (V2.fetchedResources st) u = true ->
    Host u = Host pageURL).
  { intros u Hu. unfold V2.doesResourceHaveToBeFetched in Hu.
    apply andb_true_iff in Hu as [_ Hu]. apply bool_decide_eq_true_1 in Hu. exact Hu. }
  destruct (bool_decide (Opaque linkURI = "")).
  - destruct (bool_decide (Path linkURI <> "")); [|left; reflexivity].
    destruct (V2.doesResourceHaveToBeFetched pageURL _ (url_ResolveReference pageURL linkURI))
      eqn:Hdo; cbn [negb]; [|left; reflexivity].
    right. exists (url_ResolveReference pageURL linkURI). split; [apply Hhost, Hdo|].
    pose proof (V2_getAndWrite_requests world (url_ResolveReference pageURL linkURI)
                  targetHostDir (V2.sys st)) as Hreq.
    destruct (V2.getAndWriteResourceToFile world _ targetHostDir (V2.sys st)) as [[ct|] s1];
      cbn [snd] in Hreq; [|exact Hreq].
    destruct (filepath_Rel _ _); exact Hreq.
  - destruct (V2.doesResourceHaveToBeFetched pageURL _ linkURI) eqn:Hdo; cbn [negb];
      [|left; reflexivity].
    right. exists linkURI. split; [apply Hhost, Hdo|].
    pose proof (V2_getAndWrite_requests world linkURI targetHostDir (V2.sys st)) as Hreq.
    destruct (V2.getAndWriteResourceToFile world _ targetHostDir (V2.sys st)) as [[ct|] s1];
      cbn [snd] in Hreq; exact Hreq.
Qed.

(** C1 on the anchor [<a href="p.html" longdesc="d.html">] of the page
    [http://forum.example/topic]. The attribute that the rewriter writes is
    [longdesc], which by the rule in words is requisite (it is none of
    [action], [formaction], [href]); but the branch is chosen by the atom left
    over from [href], so every generation treats it as navigational:
    [longdesc] is rewritten to the resolved URL, nothing is fetched, and
    [href] is left as it was. *)
Theorem anchor_longdesc_classified_by_href :
  let s := scanAttrs false page_example.anchor_attrs in
  page_example.anchor_attrs !! linkURIAttrIndex s = Some (mkAttribute "" "longdesc" "d.html")
  /\ ~ navigational_in_words (atom.Lookup "longdesc") atom.A (hasRel s) (rel s)
  /\ linkURIAttrAtom s = atom.Href
  /\ (forall world sys,
        V1.rewriteElement (lib := GoModel.library) world page_example.pageURL
          page_example.targetHostDir page_example.pageDirpath
          atom.A page_example.anchor_attrs sys
        = (page_example.anchor_rewritten, sys))
  /\ (forall world st,
        V2.processToken (lib := GoModel.library) world page_example.pageURL
          page_example.targetHostDir page_example.pageDirpath page_example.anchor st
        = (html.withAttr page_example.anchor page_example.anchor_rewritten, st))
  /\ (forall world fuel st,
        V3.processToken (lib := GoModel.library) world page_example.pageURL
          page_example.targetHostDir page_example.pageDirpath fuel
          (Some page_example.doctype) page_example.anchor st
        = V3.Done (html.withAttr page_example.anchor page_example.anchor_rewritten) st).
Proof.
  cbv zeta. split; [reflexivity|]. split.
  { intros [H|[H|[H _]]]; discriminate H. }
  split; [reflexivity|]. split; [|split].
  - intros world sys. vm_compute. reflexivity.
  - intros world st. vm_compute. reflexivity.
  - intros world fuel st. vm_compute. reflexivity.
Qed.

(** C2 on the image [<img src="http://other.example/a.png"/>] of the page
    [http://forum.example/topic], with a server of [other.example] that
    answers. The tree walk and the second token stream fetch the resource of
    the other host, store it below the directory of the host of the page and
    rewrite the attribute to the local reference; only the first token
    stream, which has the host test, leaves the token alone. *)
Theorem remote_image_is_fetched :
  Host (GoModel.ResolveReference page_example.pageURL
          (mkURL "http" "" "other.example" "/a.png" false "" ""))
  <> Host page_example.pageURL
  /\ V1.rewriteElement (lib := GoModel.library) page_example.other_host
       page_example.pageURL page_example.targetHostDir page_example.pageDirpath
       atom.Zero page_example.remote_image_attrs sys_init
     = ([mkAttribute "" "src" "a.png"],
        mkSys ["http://other.example/a.png"]
              {["/srv/mirror/1/forum.example/a.png" := page_example.png]})
  /\ (forall fuel,
        V3.processToken (lib := GoModel.library) page_example.other_host
          page_example.pageURL page_example.targetHostDir page_example.pageDirpath
          (S fuel) (Some page_example.doctype) page_example.remote_image V3.state_init
        = V3.Done
            (html.withAttr page_example.remote_image [mkAttribute "" "src" "a.png"])
            (V3.mkState
               (mkSys ["http://other.example/a.png"]
                      {["/srv/mirror/1/forum.example/a.png" := page_example.png]})
               {["http://other.example/a.png" := "image/png"]}))
  /\ V2.processToken (lib := GoModel.library) page_example.other_host
       page_example.pageURL page_example.targetHostDir page_example.pageDirpath
       page_example.remote_image (V2.mkState sys_init ∅)
     = (page_example.remote_image, V2.mkState sys_init ∅).
Proof.
  split; [vm_compute; discriminate|]. split; [vm_compute; reflexivity|].
  split; [|vm_compute; reflexivity].
  intros fuel. vm_compute. reflexivity.
Qed.

(** ** The pattern of the CSS link rewriter *)

Section Matcher.

Import cssURLMatcher.

Lemma lazy_body_length s : forall n, lazy_body s = Some n -> n + 2 <= length s.
Proof.
  induction s as [|c s IH]; intros n H.
  - discriminate.
  - cbn [lazy_body] in H. destruct (closes (c :: s)) eqn:Hc.
    + injection H as <-. destruct s as [|d s]; [discriminate|]. cbn. lia.
    + destruct (bool_decide (c = newline)); [discriminate|].
      destruct (lazy_body s) as [k|]; [|discriminate].
      injection H as <-. specialize (IH k eq_refl). cbn. lia.
Qed.

Lemma skip_spaces_length s : forall k r,
  skip_spaces s = (k, r) -> k + length r = length s.
Proof.
  induction s as [|c s IH]; intros k r H; cbn in H.
  - injection H as <- <-. reflexivity.
  - destruct (is_space c).
    + destruct (skip_spaces s) as [k' r'] eqn:E. injection H as <- <-.
      specialize (IH _ _ eq_refl). cbn. lia.
    + injection H as <- <-. reflexivity.
Qed.

(** A match is at least seven bytes long (three letters, a parenthesis, a
    quote, a quote and a parenthesis) and lies within the text. *)
Lemma match_here_length s g1 g2 :
  match_here s = Some (g1, g2) -> 5 <= g1 /\ g1 + g2 + 2 <= length s.
Proof.
  unfold match_here. intros H.
  destruct s as [|c1 [|c2 [|c3 s1]]]; try discriminate;
    try (destruct c1 as [[] [] [] [] [] [] [] []]; discriminate).
  - destruct c1 as [[] [] [] [] [] [] [] []]; try discriminate.
    destruct c2 as [[] [] [] [] [] [] [] []]; discriminate.
  - destruct c1 as [[] [] [] [] [] [] [] []]; try discriminate.
    destruct c2 as [[] [] [] [] [] [] [] []]; try discriminate.
    destruct c3 as [[] [] [] [] [] [] [] []]; try discriminate.
    destruct (skip_spaces s1) as [k s2] eqn:Hk.
    apply skip_spaces_length in Hk.
    destruct s2 as [|p [|q s3]]; try discriminate;
      try (destruct p as [[] [] [] [] [] [] [] []]; discriminate).
    destruct p as [[] [] [] [] [] [] [] []]; try discriminate.
    destruct (is_quote q); [|discriminate].
    destruct (lazy_body s3) as [n|] eqn:Hn; [|discriminate].
    apply lazy_body_length in Hn. injection H as <- <-.
    cbn in *. lia.
Qed.

Lemma find_from_bounds s : forall start m,
  find_from start s = Some m ->
  start <= i0 m /\ i0 m + 7 <= i1 m /\ i1 m <= start + length s
  /\ i2 m = i0 m /\ i2 m <= i3 m /\ i4 m = i3 m /\ i4 m <= i5 m
  /\ i6 m = i5 m /\ i7 m = i6 m + 2 /\ i7 m = i1 m.
Proof.
  induction s as [|c s IH]; intros start m H; cbn [find_from] in H.
  - destruct (match_here []) as [[g1 g2]|] eqn:E; [|discriminate].
    apply match_here_length in E. cbn in E. lia.
  - destruct (match_here (c :: s)) as [[g1 g2]|] eqn:E.
    + apply match_here_length in E. injection H as <-. cbn in *. lia.
    + apply IH in H. cbn. lia.
Qed.

(** Each match lies within the text and ends after its start, so the rest
    [css[urlMatch[1]:]] is shorter than [css] by at least seven bytes. *)
Lemma match_consumes css m :
  FindSubmatchIndex css = Some m ->
  i0 m + 7 <= i1 m /\ i1 m <= length css /\ length (drop (i1 m) css) + 7 <= length css.
Proof.
  intros H. apply find_from_bounds in H. rewrite length_drop. lia.
Qed.

End Matcher.

(** ** The loop of the CSS link rewriter *)

Lemma take_slice {T : Type} (lo hi : nat) (b : list T) :
  lo <= hi -> take hi b = take lo b ++ slice lo hi b.
Proof.
  intros H. unfold slice. rewrite take_take_drop. f_equal. lia.
Qed.

Section CSSLoop.

Context {lib : Library}.
Variable getAndWrite : URL -> string -> V3.M (option string).

Lemma css_loop_nil gas context buffer st :
  V3.css_loop getAndWrite gas [] context buffer st = V3.Done (buffer ++ []) st.
Proof. destruct gas; reflexivity. Qed.

(** The length of the text is enough gas: more gas changes nothing. *)
Lemma css_loop_gas gas1 : forall gas2 css context buffer st,
  length css <= gas1 -> length css <= gas2 ->
  V3.css_loop getAndWrite gas1 css context buffer st
  = V3.css_loop getAndWrite gas2 css context buffer st.
Proof.
  induction gas1 as [|gas1 IH]; intros gas2 css context buffer st H1 H2.
  - destruct css; [|cbn in H1; lia]. rewrite !css_loop_nil. reflexivity.
  - destruct gas2 as [|gas2].
    { destruct css; [|cbn in H2; lia]. rewrite !css_loop_nil. reflexivity. }
    cbn [V3.css_loop].
    destruct (cssURLMatcher.FindSubmatchIndex css) as [m|] eqn:E; [|reflexivity].
    pose proof (match_consumes css m E) as (_ & _ & Hlen).
    destruct (url_Parse _) as [linkURI|].
    + unfold V3.bind.
      destruct (V3.fetchResourceFromLinkIfNecessary_with getAndWrite linkURI context st);
        try reflexivity.
      apply IH; lia.
    + apply IH; lia.
Qed.

(** One iteration on a match whose link parses. *)
Lemma css_loop_parsed gas css context buffer st urlMatch linkURI :
  cssURLMatcher.FindSubmatchIndex css = Some urlMatch ->
  url_Parse (string_of_list_ascii (slice (i4 urlMatch) (i5 urlMatch) css)) = Some linkURI ->
  V3.css_loop getAndWrite (S gas) css context buffer st
  = V3.bind (V3.fetchResourceFromLinkIfNecessary_with getAndWrite linkURI context)
      (fun r =>
         V3.css_loop getAndWrite gas (drop (i1 urlMatch) css) context
           (match r with
            | Some reference =>
                (buffer ++ take (i0 urlMatch) css)
                  ++ slice (i2 urlMatch) (i3 urlMatch) css
                  ++ list_ascii_of_string reference
                  ++ slice (i6 urlMatch) (i7 urlMatch) css
            | None => (buffer ++ take (i0 urlMatch) css)
                        ++ slice (i0 urlMatch) (i1 urlMatch) css
            end)) st.
Proof.
  intros Hfind Hparse. cbn [V3.css_loop]. rewrite Hfind, Hparse. reflexivity.
Qed.

(** The buffer is only appended to. *)
Lemma css_loop_buffer gas : forall css context buffer st out st',
  V3.css_loop getAndWrite gas css context buffer st = V3.Done out st' ->
  exists rest, out = buffer ++ rest.
Proof.
  induction gas as [|gas IH]; intros css context buffer st out st' H.
  - cbn [V3.css_loop] in H.
    destruct (cssURLMatcher.FindSubmatchIndex css); [discriminate|].
    injection H as <- <-. eauto.
  - cbn [V3.css_loop] in H.
    destruct (cssURLMatcher.FindSubmatchIndex css) as [m|].
    2:{ injection H as <- <-. eauto. }
    destruct (url_Parse _) as [linkURI|].
    + unfold V3.bind in H.
      destruct (V3.fetchResourceFromLinkIfNecessary_with getAndWrite linkURI context st)
        as [r st1| |]; try discriminate.
      apply IH in H as [rest ->]. destruct r; rewrite <- !app_assoc; eauto.
    + apply IH in H as [rest ->]. rewrite <- app_assoc. eauto.
Qed.

End CSSLoop.

(** C8. When the loop of the CSS link rewriter stands before a
    [url(...)] occurrence whose inner link does not parse, it appends the
    text before the occurrence and the whole occurrence to the output, byte
    for byte, touches neither the network nor the cache, and goes on with the
    text after the occurrence; hence every output of the rewriter holds the
    occurrence unchanged right after what was written before it. This holds
    at every iteration (any buffer, any state), for every handler of
    fetches, and for the rewriter as a whole ([fetchLinkedResourcesInCSS]
    starts the loop with the whole text and the empty buffer). *)
Theorem css_unparsable_link_verbatim {lib : Library}
    (getAndWrite : URL -> string -> V3.M (option string))
    (css : list ascii) (context : V3.resourceFetcherContext) (buffer : list ascii)
    (st : V3.State) (urlMatch : Submatch) (gas : nat) :
  length css <= gas ->
  cssURLMatcher.FindSubmatchIndex css = Some urlMatch ->
  url_Parse (string_of_list_ascii (slice (i4 urlMatch) (i5 urlMatch) css)) = None ->
  let occurrence := slice (i0 urlMatch) (i1 urlMatch) css in
  let before := take (i0 urlMatch) css in
  let after := drop (i1 urlMatch) css in
  css = before ++ occurrence ++ after
  /\ V3.css_loop getAndWrite gas css context buffer st
     = V3.css_loop getAndWrite (length after) after context
         (buffer ++ before ++ occurrence) st
  /\ (forall out st',
        V3.css_loop getAndWrite gas css context buffer st = V3.Done out st' ->
        exists rest, out = buffer ++ before ++ occurrence ++ rest)
  /\ (forall world fuel,
        V3.fetchLinkedResourcesInCSS world fuel css context st
        = V3.css_loop (V3.getAndWriteResourceToFile world fuel) (length after) after
            context (before ++ occurrence) st).
Proof.
  intros Hgas Hfind Hparse occurrence before after.
  pose proof (match_consumes css urlMatch Hfind) as (H01 & H1 & Hlen).
  assert (Htake : take (i1 urlMatch) css = before ++ occurrence).
  { apply take_slice. lia. }
  assert (Hstep : forall gaw g buf,
    length css <= g ->
    V3.css_loop gaw g css context buf st
    = V3.css_loop gaw (length after) after context (buf ++ before ++ occurrence) st).
  { intros gaw g buf Hg. destruct g as [|g]; [lia|].
    cbn [V3.css_loop]. rewrite Hfind, Hparse, Htake.
    apply css_loop_gas; unfold after; lia. }
  split; [|split; [|split]].
  - rewrite app_assoc, <- Htake. symmetry. apply take_drop.
  - apply Hstep. exact Hgas.
  - intros out st' Hrun. rewrite Hstep in Hrun by exact Hgas.
    apply css_loop_buffer in Hrun as [rest ->]. exists rest.
    rewrite <- !app_assoc. reflexivity.
  - intros world fuel.
    unfold V3.fetchLinkedResourcesInCSS, V3.fetchLinkedResourcesInCSS_with.
    rewrite Hstep by lia. reflexivity.
Qed.

(** The rule [a{b:url(':x')}c{d:e}]: the text is returned as it is. *)
Lemma css_unparsable_link_verbatim_witness :
  V3.fetchLinkedResourcesInCSS (lib := GoModel.library) page_example.offline 0
    css_example.bad_link
    (V3.mkContext page_example.pageURL page_example.targetHostDir page_example.pageDirpath)
    V3.state_init
  = V3.Done css_example.bad_link V3.state_init.
Proof.
  destruct (css_unparsable_link_verbatim (lib := GoModel.library)
              (V3.getAndWriteResourceToFile page_example.offline 0)
              css_example.bad_link
              (V3.mkContext page_example.pageURL page_example.targetHostDir
                 page_example.pageDirpath)
              [] V3.state_init
              (cssURLMatcher.mkSubmatch 4 13 4 9 9 11 11 13) 20
              (le_n 20) eq_refl eq_refl) as (_ & _ & _ & H).
  rewrite H. reflexivity.
Defined.

(** ** Entries of the cache are never removed *)

Lemma cache_kept_refl st : cache_kept st st.
Proof. intros k H. exact H. Qed.

Lemma cache_kept_same st st' :
  V3.fetchedResources st' = V3.fetchedResources st -> cache_kept st st'.
Proof. intros E k H. rewrite E. exact H. Qed.

Lemma cache_kept_trans st1 st2 st3 :
  cache_kept st1 st2 -> cache_kept st2 st3 -> cache_kept st1 st3.
Proof. intros H12 H23 k H. apply H23, H12, H. Qed.

Lemma keeps_ret {T : Type} (a : T) : keeps_cache (V3.ret a).
Proof. intros st b st' H. injection H as _ <-. apply cache_kept_refl. Qed.

Lemma keeps_bind {T U : Type} (c : V3.M T) (k : T -> V3.M U) :
  keeps_cache c -> (forall a, keeps_cache (k a)) -> keeps_cache (V3.bind c k).
Proof.
  intros Hc Hk st b st' H. unfold V3.bind in H.
  destruct (c st) as [a st1| |] eqn:E; try discriminate.
  eapply cache_kept_trans; [eapply Hc, E|eapply Hk, H].
Qed.

Section KeepsCache.

Context {lib : Library} (world : World).

Lemma keeps_lookupFetched key : keeps_cache (V3.lookupFetched key).
Proof. intros st a st' H. injection H as _ <-. apply cache_kept_refl. Qed.

Lemma keeps_storeFetched key contentType : keeps_cache (V3.storeFetched key contentType).
Proof.
  intros st a st' H. injection H as _ <-. intros k Hk. cbn.
  destruct (decide (key = k)) as [->|Hne].
  - rewrite lookup_insert_eq. eauto.
  - rewrite lookup_insert_ne by exact Hne. exact Hk.
Qed.

Lemma keeps_getResourceM urlStr : keeps_cache (V3.getResourceM world urlStr).
Proof. intros st a st' H. injection H as _ <-. apply cache_kept_same. reflexivity. Qed.

Lemma keeps_openFile u contentType targetHostDir :
  keeps_cache (V3.openFileForResourceContent world u contentType targetHostDir).
Proof.
  intros st a st' H. unfold V3.openFileForResourceContent in H.
  destruct (can_create world _); injection H as _ <-; apply cache_kept_same; reflexivity.
Qed.

Lemma keeps_writeFile filename content : keeps_cache (V3.writeFile filename content).
Proof. intros st a st' H. injection H as _ <-. apply cache_kept_same. reflexivity. Qed.

Section WithHandler.

Variable getAndWrite : URL -> string -> V3.M (option string).
Hypothesis keeps_getAndWrite : forall u targetHostDir, keeps_cache (getAndWrite u targetHostDir).

Lemma keeps_fetchResource linkURI context :
  keeps_cache (V3.fetchResourceFromLinkIfNecessary_with getAndWrite linkURI context).
Proof.
  unfold V3.fetchResourceFromLinkIfNecessary_with.
  destruct (bool_decide (Opaque linkURI = "")).
  - destruct (bool_decide (Path linkURI = "")); [apply keeps_ret|].
    apply keeps_bind; [apply keeps_lookupFetched|]. intros cached.
    apply keeps_bind.
    + destruct cached; [apply keeps_ret|].
      apply keeps_bind; [apply keeps_getAndWrite|]. intros [ct|]; [|apply keeps_ret].
      apply keeps_bind; [apply keeps_storeFetched|]. intros _. apply keeps_ret.
    + intros [ct|]; [|apply keeps_ret]. destruct (filepath_Rel _ _); apply keeps_ret.
  - apply keeps_bind; [apply keeps_lookupFetched|]. intros [ct0|]; [|apply keeps_ret].
    apply keeps_bind; [apply keeps_getAndWrite|]. intros [ct|]; [|apply keeps_ret].
    apply keeps_bind; [apply keeps_storeFetched|]. intros _. apply keeps_ret.
Qed.

Lemma keeps_css_loop gas : forall css context buffer,
  keeps_cache (V3.css_loop getAndWrite gas css context buffer).
Proof.
  induction gas as [|gas IH]; intros css context buffer; cbn [V3.css_loop].
  - destruct (cssURLMatcher.FindSubmatchIndex css); [|apply keeps_ret].
    intros st a st' H. discriminate H.
  - destruct (cssURLMatcher.FindSubmatchIndex css); [|apply keeps_ret].
    destruct (url_Parse _); [|apply IH].
    apply keeps_bind; [apply keeps_fetchResource|]. intros r. apply IH.
Qed.

End WithHandler.

Lemma keeps_getAndWriteResourceToFile fuel : forall u targetHostDir,
  keeps_cache (V3.getAndWriteResourceToFile world fuel u targetHostDir).
Proof.
  induction fuel as [|fuel IH]; intros u targetHostDir; cbn [V3.getAndWriteResourceToFile].
  - intros st a st' H. discriminate H.
  - apply keeps_bind; [apply keeps_getResourceM|]. intros [[ct content]|]; [|apply keeps_ret].
    apply keeps_bind; [apply keeps_openFile|]. intros file.
    destruct (strings.HasPrefix ct "text/css").
    + apply keeps_bind; [apply keeps_css_loop, IH|]. intros content'.
      destruct file; [|apply keeps_ret].
      apply keeps_bind; [apply keeps_writeFile|]. intros _. apply keeps_ret.
    + destruct file; [|apply keeps_ret].
      apply keeps_bind; [apply keeps_writeFile|]. intros _. apply keeps_ret.
Qed.

Variables (pageURL : URL) (pageTargetHostDir pageDirpath : string).

Lemma keeps_processToken fuel prevToken token :
  keeps_cache (V3.processToken world pageURL pageTargetHostDir pageDirpath fuel prevToken token).
Proof.
  unfold V3.processToken.
  destruct (negb _ && negb _); [apply keeps_ret|].
  destruct prevToken as [prev|]; [|intros st a st' H; discriminate H].
  destruct (bool_decide (DataAtom prev = atom.Style)).
  - apply keeps_bind; [apply keeps_css_loop, keeps_getAndWriteResourceToFile|].
    intros css. apply keeps_ret.
  - apply keeps_bind.
    + unfold V3.rewriteStyle. destruct (hasStyle _); [|apply keeps_ret].
      apply keeps_bind; [apply keeps_css_loop, keeps_getAndWriteResourceToFile|].
      intros css. apply keeps_ret.
    + intros attrs. apply keeps_bind; [|intros attrs'; apply keeps_ret].
      unfold V3.rewriteLink. destruct (negb _); [apply keeps_ret|].
      destruct (url_Parse _); [|apply keeps_ret].
      destruct (isRequisite _ _ _ _); [|apply keeps_ret].
      apply keeps_bind; [apply keeps_fetchResource, keeps_getAndWriteResourceToFile|].
      intros [r|]; apply keeps_ret.
Qed.

Lemma keeps_processTokens fuel tokens : forall prevToken,
  keeps_cache (V3.processTokens world pageURL pageTargetHostDir pageDirpath fuel
                 prevToken tokens).
Proof.
  induction tokens as [|token rest IH]; intros prevToken; cbn [V3.processTokens].
  - apply keeps_ret.
  - apply keeps_bind; [apply keeps_processToken|]. intros token'.
    apply keeps_bind; [apply IH|]. intros rest'. apply keeps_ret.
Qed.

End KeepsCache.

(** ** The cache of fetched resources *)

(** The link function on a link that is not opaque and has a path, by
    cases on the lookup in the cache and on the result of the fetch. *)
Lemma fetchResource_hierarchical {lib : Library}
    (getAndWrite : URL -> string -> V3.M (option string))
    (linkURI : URL) (context : V3.resourceFetcherContext) (st : V3.State) :
  Opaque linkURI = "" ->
  Path linkURI <> "" ->
  let resourceURL := url_ResolveReference (V3.baseURL context) linkURI in
  let key := url_String resourceURL in
  let localize contentType :=
    match filepath_Rel (V3.dirpath context) (filepath.FromSlash (Path resourceURL)) with
    | None => None
    | Some relativeLinkPath =>
        Some (adjustResourceFilenameExtension
                (withQuery (filepath.ToSlash relativeLinkPath) (RawQuery resourceURL))
                contentType)
    end in
  V3.fetchResourceFromLinkIfNecessary_with getAndWrite linkURI context st
  = match V3.fetchedResources st !! key with
    | Some contentType => V3.Done (localize contentType) st
    | None =>
        match getAndWrite resourceURL (V3.targetHostDir context) st with
        | V3.Done (Some contentType) st1 =>
            V3.Done (localize contentType)
              (V3.mkState (V3.sys st1) (<[key := contentType]> (V3.fetchedResources st1)))
        | V3.Done None st1 => V3.Done None st1
        | V3.Panic => V3.Panic
        | V3.OutOfFuel => V3.OutOfFuel
        end
    end.
Proof.
  intros Hop Hpath resourceURL key localize.
  unfold V3.fetchResourceFromLinkIfNecessary_with.
  rewrite (bool_decide_eq_true_2 _ Hop), (bool_decide_eq_false_2 _ Hpath).
  fold resourceURL. fold key. unfold V3.bind, V3.lookupFetched, V3.ret.
  destruct (V3.fetchedResources st !! key) as [ct|].
  - unfold localize. destruct (filepath_Rel _ _); reflexivity.
  - destruct (getAndWrite resourceURL _ st) as [[ct|] st1| |]; try reflexivity.
    cbn. unfold localize. destruct (filepath_Rel _ _); reflexivity.
Qed.

(** C3, as the code has it. For a link that is not opaque and has a path,
    the resolved URL is looked up in the cache of the page:
    - when it is there, nothing is fetched and nothing changes: the stored
      content type is used for the local reference;
    - when it is not there, the resource is fetched; after a successful fetch
      the content type is stored under the resolved URL and used for the
      local reference;
    - after a failed fetch nothing is stored for it, so a later occurrence of
      the same URL is fetched again;
    - no entry of the cache is ever removed while the tokens of the page are
      processed, so every occurrence after a successful fetch finds the
      entry. *)
Theorem fetch_only_on_cache_miss {lib : Library} (world : World) (fuel : nat)
    (linkURI : URL) (context : V3.resourceFetcherContext) (st : V3.State) :
  Opaque linkURI = "" ->
  Path linkURI <> "" ->
  let resourceURL := url_ResolveReference (V3.baseURL context) linkURI in
  let key := url_String resourceURL in
  let localize contentType :=
    match filepath_Rel (V3.dirpath context) (filepath.FromSlash (Path resourceURL)) with
    | None => None
    | Some relativeLinkPath =>
        Some (adjustResourceFilenameExtension
                (withQuery (filepath.ToSlash relativeLinkPath) (RawQuery resourceURL))
                contentType)
    end in
  (forall contentType,
     V3.fetchedResources st !! key = Some contentType ->
     V3.fetchResourceFromLinkIfNecessary world fuel linkURI context st
     = V3.Done (localize contentType) st)
  /\ (forall contentType st1,
        V3.fetchedResources st !! key = None ->
        V3.getAndWriteResourceToFile world fuel resourceURL (V3.targetHostDir context) st
        = V3.Done (Some contentType) st1 ->
        V3.fetchResourceFromLinkIfNecessary world fuel linkURI context st
        = V3.Done (localize contentType)
            (V3.mkState (V3.sys st1) (<[key := contentType]> (V3.fetchedResources st1))))
  /\ (forall st1,
        V3.fetchedResources st !! key = None ->
        V3.getAndWriteResourceToFile world fuel resourceURL (V3.targetHostDir context) st
        = V3.Done None st1 ->
        V3.fetchResourceFromLinkIfNecessary world fuel linkURI context st
        = V3.Done None st1)
  /\ (forall pageURL pageTargetHostDir pageDirpath prevToken tokens out st',
        V3.processTokens world pageURL pageTargetHostDir pageDirpath fuel prevToken tokens st
        = V3.Done out st' ->
        cache_kept st st').
Proof.
  intros Hop Hpath resourceURL key localize.
  pose proof (fetchResource_hierarchical (V3.getAndWriteResourceToFile world fuel)
                linkURI context st Hop Hpath) as Hunfold.
  cbv zeta in Hunfold. fold resourceURL key in Hunfold.
  change (V3.fetchResourceFromLinkIfNecessary_with (V3.getAndWriteResourceToFile world fuel))
    with (V3.fetchResourceFromLinkIfNecessary world fuel) in Hunfold.
  split; [|split; [|split]].
  - intros ct Hhit. rewrite Hunfold, Hhit. reflexivity.
  - intros ct st1 Hmiss Hget. rewrite Hunfold, Hmiss, Hget. reflexivity.
  - intros st1 Hmiss Hget. rewrite Hunfold, Hmiss, Hget. reflexivity.
  - intros pageURL pageTargetHostDir pageDirpath prevToken tokens out st' Hrun.
    eapply keeps_processTokens. exact Hrun.
Qed.

(** The image [img/a.png] when its URL is in the cache: no request. *)
Lemma fetch_only_on_cache_miss_witness :
  let st :=
    V3.mkState sys_init {["http://forum.example/img/a.png" := "image/png"]} in
  V3.fetchResourceFromLinkIfNecessary (lib := GoModel.library) page_example.offline 0
    (mkURL "" "" "" "img/a.png" false "" "")
    (V3.mkContext page_example.pageURL page_example.targetHostDir page_example.pageDirpath)
    st
  = V3.Done (Some "img/a.png") st.
Proof.
  intros st.
  destruct (fetch_only_on_cache_miss (lib := GoModel.library) page_example.offline 0
              (mkURL "" "" "" "img/a.png" false "" "")
              (V3.mkContext page_example.pageURL page_example.targetHostDir
                 page_example.pageDirpath)
              st eq_refl ltac:(discriminate)) as (Hhit & _).
  exact (Hhit "image/png" eq_refl).
Defined.

(** C3, as stated, fails: two images with the same source on a page whose
    server does not answer make two requests for the same URL. *)
Lemma two_occurrences_two_requests :
  V3.processTokens (lib := GoModel.library) page_example.offline
    page_example.pageURL page_example.targetHostDir page_example.pageDirpath
    1 (Some page_example.doctype) [css_example.image; css_example.image]
    V3.state_init
  = V3.Done [css_example.image; css_example.image]
      (V3.mkState
         (mkSys ["http://forum.example/img/a.png"; "http://forum.example/img/a.png"] ∅)
         ∅).
Proof. vm_compute. reflexivity. Qed.

(** With a server that answers, the second occurrence finds the content
    type in the cache: one request, and both images are localized. *)
Example two_occurrences_one_request :
  V3.processTokens (lib := GoModel.library) css_example.picture_server
    page_example.pageURL page_example.targetHostDir page_example.pageDirpath
    1 (Some page_example.doctype) [css_example.image; css_example.image]
    V3.state_init
  = V3.Done [css_example.image; css_example.image]
      (V3.mkState
         (mkSys ["http://forum.example/img/a.png"]
                {["/srv/mirror/1/forum.example/img/a.png" := page_example.png]})
         {["http://forum.example/img/a.png" := "image/png"]}).
Proof. vm_compute. reflexivity. Qed.

(** A link in a rule is replaced by the relative path from the directory of
    the page to the local copy. *)
Example background_is_localized :
  V3.fetchLinkedResourcesInCSS (lib := GoModel.library) css_example.picture_server 1
    css_example.background
    (V3.mkContext css_example.deepPageURL page_example.targetHostDir "/t")
    V3.state_init
  = V3.Done css_example.background_rewritten
      (V3.mkState
         (mkSys ["http://forum.example/images/x.png"]
                {["/srv/mirror/1/forum.example/images/x.png" := page_example.png]})
         {["http://forum.example/images/x.png" := "image/png"]}).
Proof. vm_compute. reflexivity. Qed.

(** ** Termination of the CSS link rewriter *)

Lemma total_ret {T : Type} (a : T) : total (V3.ret a).
Proof. intros st. exists a, st. reflexivity. Qed.

Lemma total_bind {T U : Type} (c : V3.M T) (k : T -> V3.M U) :
  total c -> (forall a, total (k a)) -> total (V3.bind c k).
Proof.
  intros Hc Hk st. unfold V3.bind. destruct (Hc st) as (a & st1 & ->). apply Hk.
Qed.

Section Termination.

Context {lib : Library} (world : World).

Section WithHandler.

Variable getAndWrite : URL -> string -> V3.M (option string).
Hypothesis total_getAndWrite : forall u targetHostDir, total (getAndWrite u targetHostDir).

Lemma total_fetchResource linkURI context :
  total (V3.fetchResourceFromLinkIfNecessary_with getAndWrite linkURI context).
Proof.
  unfold V3.fetchResourceFromLinkIfNecessary_with.
  destruct (bool_decide (Opaque linkURI = "")).
  - destruct (bool_decide (Path linkURI = "")); [apply total_ret|].
    apply total_bind; [intros st; eexists _, _; reflexivity|]. intros cached.
    apply total_bind.
    + destruct cached; [apply total_ret|].
      apply total_bind; [apply total_getAndWrite|]. intros [ct|]; [|apply total_ret].
      apply total_bind; [intros st; eexists _, _; reflexivity|]. intros _. apply total_ret.
    + intros [ct|]; [|apply total_ret]. destruct (filepath_Rel _ _); apply total_ret.
  - apply total_bind; [intros st; eexists _, _; reflexivity|].
    intros [ct0|]; [|apply total_ret].
    apply total_bind; [apply total_getAndWrite|]. intros [ct|]; [|apply total_ret].
    apply total_bind; [intros st; eexists _, _; reflexivity|]. intros _. apply total_ret.
Qed.

(** The loop itself always comes to its end: every iteration takes at least
    the seven bytes of a match from the rest of the text, so the length of
    the text bounds the number of iterations. *)
Lemma total_css_loop gas : forall css context buffer,
  length css <= gas -> total (V3.css_loop getAndWrite gas css context buffer).
Proof.
  induction gas as [|gas IH]; intros css context buffer Hgas.
  - destruct css; [|cbn in Hgas; lia]. intros st. rewrite css_loop_nil. eexists _, _.
    reflexivity.
  - cbn [V3.css_loop].
    destruct (cssURLMatcher.FindSubmatchIndex css) as [m|] eqn:E; [|apply total_ret].
    pose proof (match_consumes css m E) as (_ & _ & Hlen).
    destruct (url_Parse _); [|apply IH; lia].
    apply total_bind; [apply total_fetchResource|]. intros r. apply IH. lia.
Qed.

Lemma total_fetchLinkedResourcesInCSS css context :
  total (V3.fetchLinkedResourcesInCSS_with getAndWrite css context).
Proof. apply total_css_loop. reflexivity. Qed.

End WithHandler.

(** When no answer of the server is a stylesheet, no fetch starts a nested
    rewrite, and the rewriter returns on every text. *)
Hypothesis no_stylesheet : forall gets urlStr contentType content,
  http_Get world gets urlStr = Some (contentType, content) ->
  strings.HasPrefix contentType "text/css" = false.

Lemma total_getAndWrite_without_stylesheets fuel u targetHostDir :
  total (V3.getAndWriteResourceToFile world (S fuel) u targetHostDir).
Proof.
  cbn [V3.getAndWriteResourceToFile]. intros st.
  unfold V3.bind at 1. unfold V3.getResourceM, getResource.
  destruct (http_Get world (requests (V3.sys st)) (url_String u)) as [[ct content]|] eqn:E.
  - rewrite (no_stylesheet _ _ _ _ E).
    unfold V3.bind, V3.openFileForResourceContent.
    destruct (can_create world _); eexists _, _; reflexivity.
  - eexists _, _. reflexivity.
Qed.

Lemma css_rewriter_returns_without_stylesheets fuel css context :
  total (V3.fetchLinkedResourcesInCSS world (S fuel) css context).
Proof.
  apply total_fetchLinkedResourcesInCSS. intros u targetHostDir.
  apply total_getAndWrite_without_stylesheets.
Qed.

End Termination.

(** ** A stylesheet that imports itself *)

Section SelfImport.

Import css_example.

Local Abbreviation key := stylesheetKey.
Local Abbreviation link := import_link.
Local Abbreviation lib := GoModel.library.

Lemma self_import_match :
  cssURLMatcher.FindSubmatchIndex self_import
  = Some (cssURLMatcher.mkSubmatch 8 20 8 13 13 18 18 20).
Proof. vm_compute. reflexivity. Qed.

Lemma self_import_link :
  GoModel.Parse (string_of_list_ascii (slice 13 18 self_import)) = Some link.
Proof. vm_compute. reflexivity. Qed.

Lemma self_import_length : length self_import = 21.
Proof. vm_compute. reflexivity. Qed.

(** The rewriter on the text of the stylesheet, for a context that resolves
    [a.css] to the URL of the stylesheet itself: when the fetch of that URL
    does not return, the rewriter does not return. *)
Lemma self_import_rewrite getAndWrite context st :
  GoModel.ResolveReference (V3.baseURL context) link = stylesheetURL ->
  V3.fetchedResources st !! key = None ->
  getAndWrite stylesheetURL (V3.targetHostDir context) st = V3.OutOfFuel ->
  V3.fetchLinkedResourcesInCSS_with (lib := lib) getAndWrite self_import context st
  = V3.OutOfFuel.
Proof.
  intros Hres Hmiss Hget. unfold V3.fetchLinkedResourcesInCSS_with.
  rewrite self_import_length.
  rewrite (css_loop_parsed (lib := lib) getAndWrite 20 self_import context [] st _ link
             self_import_match self_import_link).
  unfold V3.bind.
  rewrite (fetchResource_hierarchical (lib := lib) getAndWrite link context st eq_refl)
    by discriminate.
  cbv zeta. change (url_ResolveReference (V3.baseURL context) link)
    with (GoModel.ResolveReference (V3.baseURL context) link).
  rewrite Hres. change (url_String stylesheetURL) with key.
  rewrite Hmiss, Hget. reflexivity.
Qed.

(** The fetch of the stylesheet never returns, whatever the depth allowed
    for nested fetches: the URL is put into the cache only after the rewrite
    of the stylesheet has returned, and that rewrite fetches the stylesheet
    again. *)
Lemma self_import_fetch fuel : forall st,
  V3.fetchedResources st !! key = None ->
  V3.getAndWriteResourceToFile (lib := lib) self_import_server fuel stylesheetURL
    page_example.targetHostDir st
  = V3.OutOfFuel.
Proof.
  induction fuel as [|fuel IH]; intros st Hmiss; [reflexivity|].
  cbn [V3.getAndWriteResourceToFile].
  unfold V3.bind at 1. unfold V3.getResourceM, getResource.
  change (url_String stylesheetURL) with key.
  change (http_Get self_import_server (requests (V3.sys st)) key)
    with (Some ("text/css", self_import)).
  cbv iota beta. change (strings.HasPrefix "text/css" "text/css") with true. cbv iota.
  unfold V3.bind at 1. unfold V3.openFileForResourceContent.
  change (can_create self_import_server ?f) with true. cbv iota.
  unfold V3.bind at 1.
  rewrite self_import_rewrite; [reflexivity|reflexivity|exact Hmiss|].
  apply IH. exact Hmiss.
Qed.

End SelfImport.

(** C9 on the stylesheet [@import url('a.css');] served for
    [http://forum.example/a.css]. Every iteration of the loop takes at least
    the seven bytes of a match from the rest of the text ([match_consumes],
    [total_css_loop]); but the rewriter does not return on this text, for any
    depth allowed for nested fetches, neither for the text of a [style]
    attribute on the page nor for the [link] element that refers to the
    stylesheet: the fetch of the stylesheet rewrites its text before the URL
    is put into the cache, and that rewrite fetches the stylesheet again. *)
Theorem self_importing_stylesheet_never_returns :
  (forall fuel,
     V3.fetchLinkedResourcesInCSS (lib := GoModel.library)
       css_example.self_import_server fuel css_example.self_import
       (V3.mkContext page_example.pageURL page_example.targetHostDir
          page_example.pageDirpath)
       V3.state_init
     = V3.OutOfFuel)
  /\ (forall fuel,
        V3.processToken (lib := GoModel.library) css_example.self_import_server
          page_example.pageURL page_example.targetHostDir page_example.pageDirpath
          fuel (Some page_example.doctype) css_example.stylesheet_link V3.state_init
        = V3.OutOfFuel).
Proof.
  split.
  - intros fuel. apply self_import_rewrite; [reflexivity|reflexivity|].
    apply self_import_fetch. reflexivity.
  - intros fuel. unfold V3.processToken.
    change (negb (bool_decide (Type_ css_example.stylesheet_link = html.SelfClosingTagToken))
            && negb (bool_decide (Type_ css_example.stylesheet_link = html.StartTagToken)))
      with false.
    change (bool_decide (DataAtom page_example.doctype = atom.Style)) with false.
    cbv iota.
    change (scanAttrs true (Attr css_example.stylesheet_link))
      with (mkScan atom.Href 1 0 "a.css" "stylesheet" "" true true false).
    unfold V3.rewriteStyle, V3.rewriteLink. cbn [hasStyle hasLinkURIAttr negb linkURIStr].
    unfold V3.bind at 1. unfold V3.ret at 1.
    change (url_Parse (Library := GoModel.library) "a.css")
      with (Some css_example.import_link).
    cbv iota.
    change (isRequisite _ _ _ _) with true. cbv iota.
    unfold V3.bind at 1. unfold V3.bind at 1.
    unfold V3.fetchResourceFromLinkIfNecessary.
    rewrite (fetchResource_hierarchical (lib := GoModel.library)
               (V3.getAndWriteResourceToFile css_example.self_import_server fuel)
               css_example.import_link
               (V3.pageContext page_example.pageURL page_example.targetHostDir
                  page_example.pageDirpath)
               V3.state_init eq_refl)
      by discriminate.
    cbv zeta.
    change (V3.fetchedResources V3.state_init !! _) with (@None string).
    cbv iota.
    change (url_ResolveReference _ _) with css_example.stylesheetURL.
    rewrite self_import_fetch; reflexivity.
Qed.

(** * Properties of the rest of the program *)

(** ** Strings *)

Lemma str_app_cons c s t : String c s +:+ t = String c (s +:+ t).
Proof. reflexivity. Qed.

Lemma str_app_nil_r s : s +:+ "" = s.
Proof. induction s as [|c s IH]; [reflexivity|]. rewrite str_app_cons, IH. reflexivity. Qed.

Lemma str_app_assoc s t u : (s +:+ t) +:+ u = s +:+ (t +:+ u).
Proof.
  induction s as [|c s IH]; [reflexivity|]. rewrite !str_app_cons, IH. reflexivity.
Qed.

Lemma str_length_app s t : String.length (s +:+ t) = String.length s + String.length t.
Proof.
  induction s as [|c s IH]; [reflexivity|]. rewrite str_app_cons. cbn. rewrite IH. reflexivity.
Qed.

(** ** [escape] *)

Section Escape.

Import serialize.

Lemma entity_special c :
  strings.ContainsByte escapedChars c
  = match entity c with Some _ => true | None => false end.
Proof. destruct c as [[] [] [] [] [] [] [] []]; reflexivity. Qed.

(** Where [IndexAny] points: the byte there is one of the bytes sought, the
    text before it has none of them, and the text after it is shorter. *)
Lemma IndexAny_split chars s : forall i,
  IndexAny s chars = Some i ->
  exists c,
    String.get i s = Some c /\ strings.ContainsByte chars c = true
    /\ s = str_take i s +:+ String c (str_drop (S i) s)
    /\ IndexAny (str_take i s) chars = None
    /\ String.length (str_drop (S i) s) < String.length s.
Proof.
  induction s as [|d s IH]; intros i H; cbn [IndexAny] in H; [discriminate|].
  destruct (strings.ContainsByte chars d) eqn:Hd.
  - injection H as <-. exists d. cbn. repeat split; try assumption; try reflexivity. lia.
  - destruct (IndexAny s chars) as [j|] eqn:Hj; [|discriminate].
    injection H as <-. destruct (IH j eq_refl) as (c & Hget & Hc & Hs & Hnone & Hlen).
    exists c. cbn [String.get str_take str_drop IndexAny String.length].
    rewrite Hd, Hnone. repeat split; try assumption; try reflexivity.
    + rewrite str_app_cons. f_equal. exact Hs.
    + cbn in Hlen. lia.
Qed.

Lemma escape_in_words_safe s :
  IndexAny s escapedChars = None -> escape_in_words s = s.
Proof.
  induction s as [|c s IH]; intros H; [reflexivity|]. cbn [IndexAny] in H.
  rewrite entity_special in H. cbn [escape_in_words].
  destruct (entity c); [discriminate|].
  destruct (IndexAny s escapedChars); [discriminate|]. rewrite IH; reflexivity.
Qed.

Lemma escape_in_words_app s t :
  escape_in_words (s +:+ t) = escape_in_words s +:+ escape_in_words t.
Proof.
  induction s as [|c s IH]; [reflexivity|]. rewrite str_app_cons. cbn [escape_in_words].
  rewrite IH. destruct (entity c); [rewrite str_app_assoc|]; reflexivity.
Qed.

Lemma escape_loop_in_words gas : forall w s,
  String.length s <= gas ->
  escape_loop gas w s = Written (w +:+ escape_in_words s).
Proof.
  induction gas as [|gas IH]; intros w s Hgas.
  - destruct s; [reflexivity|cbn in Hgas; lia].
  - cbn [escape_loop]. destruct (IndexAny s escapedChars) as [i|] eqn:Hi.
    + destruct (IndexAny_split _ _ _ Hi) as (c & Hget & Hc & Hs & Hnone & Hlen).
      rewrite Hget. rewrite entity_special in Hc.
      destruct (entity c) as [esc|] eqn:He; [|discriminate].
      rewrite IH by lia. f_equal. rewrite Hs at 3.
      rewrite escape_in_words_app, (escape_in_words_safe _ Hnone).
      cbn [escape_in_words]. rewrite He. rewrite !str_app_assoc. reflexivity.
    + rewrite (escape_in_words_safe _ Hi). reflexivity.
Qed.

Lemma escape_written w s : escape w s = Written (w +:+ escape_in_words s).
Proof. apply escape_loop_in_words. reflexivity. Qed.

End Escape.

(** X1. [escape] always returns, without the panic of its [default] case,
    and appends to the buffer the text in which each of the six bytes
    ampersand, apostrophe, less-than, greater-than, double quote and carriage
    return is replaced by its entity and every other byte is kept. *)
Theorem escape_replaces_bytes (w s : string) :
  serialize.escape w s = serialize.Written (w +:+ serialize.escape_in_words s).
Proof. apply escape_loop_in_words. reflexivity. Qed.

(** X2. Escaping a concatenation is escaping its parts one after the other
    into the same buffer. *)
Theorem escape_concatenation (w s t : string) :
  serialize.escape w (s +:+ t)
  = match serialize.escape w s with
    | serialize.Written buffer => serialize.escape buffer t
    | r => r
    end.
Proof.
  rewrite !escape_written. rewrite escape_in_words_app, str_app_assoc. reflexivity.
Qed.

Lemma count_app c s t :
  serialize.count c (s +:+ t) = serialize.count c s + serialize.count c t.
Proof.
  induction s as [|d s IH]; [reflexivity|]. rewrite str_app_cons. cbn. rewrite IH. lia.
Qed.

Lemma escape_in_words_cons c s :
  serialize.escape_in_words (String c s)
  = serialize.escaped_byte c +:+ serialize.escape_in_words s.
Proof.
  unfold serialize.escaped_byte. cbn [serialize.escape_in_words].
  destruct (serialize.entity c); reflexivity.
Qed.

Lemma escaped_byte_counts c :
  serialize.count "'" (serialize.escaped_byte c) = 0
  /\ serialize.count "<" (serialize.escaped_byte c) = 0
  /\ serialize.count ">" (serialize.escaped_byte c) = 0
  /\ serialize.count serialize.doubleQuote (serialize.escaped_byte c) = 0
  /\ serialize.count serialize.carriageReturn (serialize.escaped_byte c) = 0.
Proof. destruct c as [[] [] [] [] [] [] [] []]; vm_compute; repeat split. Qed.

Lemma escaped_counts s :
  serialize.count "'" (serialize.escape_in_words s) = 0
  /\ serialize.count "<" (serialize.escape_in_words s) = 0
  /\ serialize.count ">" (serialize.escape_in_words s) = 0
  /\ serialize.count serialize.doubleQuote (serialize.escape_in_words s) = 0
  /\ serialize.count serialize.carriageReturn (serialize.escape_in_words s) = 0.
Proof.
  induction s as [|c s (IH1 & IH2 & IH3 & IH4 & IH5)]; [repeat split|].
  rewrite escape_in_words_cons, !count_app, IH1, IH2, IH3, IH4, IH5.
  destruct (escaped_byte_counts c) as (-> & -> & -> & -> & ->). repeat split.
Qed.

(** X3. What [escape] appends holds no apostrophe, no less-than, no
    greater-than, no double quote and no carriage return. *)
Theorem escape_leaves_no_markup (w s : string) :
  exists e,
    serialize.escape w s = serialize.Written (w +:+ e)
    /\ serialize.count "'" e = 0 /\ serialize.count "<" e = 0
    /\ serialize.count ">" e = 0 /\ serialize.count serialize.doubleQuote e = 0
    /\ serialize.count serialize.carriageReturn e = 0.
Proof.
  exists (serialize.escape_in_words s). split; [apply escape_written|].
  apply escaped_counts.
Qed.

Lemma unescape_byte c rest gas :
  serialize.unescape_in_words (S gas) (serialize.escaped_byte c +:+ rest)
  = String c (serialize.unescape_in_words gas rest).
Proof.
  cbn [serialize.unescape_in_words].
  destruct c as [[] [] [] [] [] [] [] []];
    cbv -[serialize.unescape_in_words]; reflexivity.
Qed.

Lemma unescape_escaped s : forall gas,
  String.length s <= gas ->
  serialize.unescape_in_words gas (serialize.escape_in_words s) = s.
Proof.
  induction s as [|c s IH]; intros gas Hgas.
  - destruct gas; reflexivity.
  - destruct gas as [|gas]; [cbn in Hgas; lia|].
    rewrite escape_in_words_cons, unescape_byte. rewrite IH; [reflexivity|].
    cbn in Hgas. lia.
Qed.

(** X4. [escape] loses nothing: replacing the six entities in what it
    appended by their bytes gives the text back. *)
Theorem escape_can_be_undone (w s : string) :
  exists e,
    serialize.escape w s = serialize.Written (w +:+ e)
    /\ serialize.unescape_in_words (String.length s) e = s.
Proof.
  exists (serialize.escape_in_words s). split; [apply escape_written|].
  apply unescape_escaped. reflexivity.
Qed.

(** ** [tagStringWithStyleDataPreserved] *)

Lemma writeAttrs_in_words attrs : forall buffer,
  serialize.writeAttrs attrs buffer
  = serialize.Written
      (buffer +:+
       String.concat ""
         (map (fun attr =>
                 serialize.attribute_in_words attr
                   (if serialize.writtenRaw (Key attr) then Val attr
                    else serialize.escape_in_words (Val attr))) attrs)).
Proof.
  induction attrs as [|attr rest IH]; intros buffer.
  - cbn. rewrite str_app_nil_r. reflexivity.
  - cbn [serialize.writeAttrs].
    destruct (serialize.writtenRaw (Key attr)) eqn:Hraw.
    + rewrite IH. f_equal. cbn [map]. rewrite Hraw.
      destruct rest; cbn [String.concat map]; unfold serialize.attribute_in_words;
        rewrite ?str_app_nil_r, !str_app_assoc; reflexivity.
    + rewrite escape_written, IH. f_equal. cbn [map]. rewrite Hraw.
      destruct rest; cbn [String.concat map]; unfold serialize.attribute_in_words;
        rewrite ?str_app_nil_r, !str_app_assoc; reflexivity.
Qed.

Lemma count_concat c l :
  serialize.count c (String.concat "" l) = list_sum (map (serialize.count c) l).
Proof.
  induction l as [|x l IH]; [reflexivity|].
  destruct l as [|y l].
  - cbn. lia.
  - change (String.concat "" (x :: y :: l)) with (x +:+ "" +:+ String.concat "" (y :: l)).
    rewrite !count_app, IH. cbn. lia.
Qed.

Lemma count_attribute attr value :
  serialize.count serialize.doubleQuote (Key attr) = 0 ->
  serialize.count serialize.doubleQuote value = 0 ->
  serialize.count serialize.doubleQuote (serialize.attribute_in_words attr value) = 2.
Proof.
  intros Hk Hv. unfold serialize.attribute_in_words.
  rewrite !count_app, Hk, Hv. reflexivity.
Qed.

(** X5. In the text of a tag every attribute value is enclosed by exactly
    two double quotes: when no attribute name holds a double quote and no
    value that is written as it is (the value of [style] and of the
    attributes whose name starts with [on]) holds one, the text has two double
    quotes per attribute besides those of the tag name, because every other
    value is escaped. The function always returns. *)
Theorem tag_quotes_are_balanced (token : Token) :
  Forall (fun attr =>
            serialize.count serialize.doubleQuote (Key attr) = 0
            /\ (serialize.writtenRaw (Key attr) = true ->
                serialize.count serialize.doubleQuote (Val attr) = 0))
         (Attr token) ->
  exists out,
    serialize.tagStringWithStyleDataPreserved token = serialize.Written out
    /\ serialize.count serialize.doubleQuote out
       = serialize.count serialize.doubleQuote (Data token) + 2 * length (Attr token).
Proof.
  intros Hattrs. unfold serialize.tagStringWithStyleDataPreserved.
  assert (Hsum : list_sum
            (map (serialize.count serialize.doubleQuote)
               (map (fun attr =>
                       serialize.attribute_in_words attr
                         (if serialize.writtenRaw (Key attr) then Val attr
                          else serialize.escape_in_words (Val attr))) (Attr token)))
          = 2 * length (Attr token)).
  { induction Hattrs as [|attr rest [Hk Hv] _ IH]; [reflexivity|].
    change (serialize.count serialize.doubleQuote
              (serialize.attribute_in_words attr
                 (if serialize.writtenRaw (Key attr) then Val attr
                  else serialize.escape_in_words (Val attr)))
            + list_sum
                (map (serialize.count serialize.doubleQuote)
                   (map (fun attr =>
                           serialize.attribute_in_words attr
                             (if serialize.writtenRaw (Key attr) then Val attr
                              else serialize.escape_in_words (Val attr))) rest))
            = 2 * S (length rest)).
    rewrite IH. rewrite count_attribute; [lia|exact Hk|].
    destruct (serialize.writtenRaw (Key attr)); [apply Hv; reflexivity|].
    apply escaped_counts. }
  destruct (Attr token) as [|attr rest] eqn:E.
  - eexists. split; [reflexivity|]. cbn. lia.
  - rewrite writeAttrs_in_words. eexists. split; [reflexivity|].
    rewrite count_app, count_concat, Hsum. reflexivity.
Qed.

(** The tag [<a href="list?a=1&b=2" onclick="go(1)">]. *)
Lemma tag_quotes_are_balanced_witness :
  exists out,
    serialize.tagStringWithStyleDataPreserved serialize_example.handler_link
    = serialize.Written out
    /\ serialize.count serialize.doubleQuote out = 4.
Proof.
  apply (tag_quotes_are_balanced serialize_example.handler_link).
  repeat constructor; cbn; discriminate.
Defined.

(** ** What the pattern of the CSS link rewriter matches *)

Section MatcherShape.

Import cssURLMatcher.

Lemma skip_spaces_spec s : forall k r,
  skip_spaces s = (k, r) ->
  exists spaces, s = spaces ++ r /\ length spaces = k
                 /\ Forall (fun c => is_space c = true) spaces.
Proof.
  induction s as [|c s IH]; intros k r H; cbn in H.
  - injection H as <- <-. exists []. repeat constructor.
  - destruct (is_space c) eqn:Hc.
    + destruct (skip_spaces s) as [k' r'] eqn:E. injection H as <- <-.
      destruct (IH _ _ eq_refl) as (sp & -> & <- & Hsp).
      exists (c :: sp). split; [reflexivity|]. split; [reflexivity|].
      constructor; assumption.
    + injection H as <- <-. exists []. repeat constructor.
Qed.

Lemma closes_spec s :
  closes s = true -> exists q rest, s = q :: ")"%char :: rest /\ is_quote q = true.
Proof.
  unfold closes. destruct s as [|q [|p rest]]; try discriminate.
  destruct p as [[] [] [] [] [] [] [] []]; try discriminate.
  intros H. eauto.
Qed.

Lemma lazy_body_spec s : forall n,
  lazy_body s = Some n ->
  exists body q rest,
    s = body ++ q :: ")"%char :: rest /\ length body = n /\ is_quote q = true
    /\ Forall (fun c => c <> newline) body
    /\ forall j, j < n -> closes (drop j s) = false.
Proof.
  induction s as [|c s IH]; intros n H.
  - discriminate.
  - cbn [lazy_body] in H. destruct (closes (c :: s)) eqn:Hc.
    + injection H as <-. apply closes_spec in Hc as (q & rest & E & Hq).
      exists [], q, rest. split; [exact E|]. split; [reflexivity|]. split; [exact Hq|].
      split; [constructor|]. intros j Hj. lia.
    + destruct (bool_decide (c = newline)) eqn:Hnl; [discriminate|].
      apply bool_decide_eq_false in Hnl.
      destruct (lazy_body s) as [k|] eqn:Hk; [|discriminate].
      injection H as <-.
      destruct (IH k eq_refl) as (body & q & rest & -> & <- & Hq & Hbody & Hlazy).
      exists (c :: body), q, rest. split; [reflexivity|]. split; [reflexivity|].
      split; [exact Hq|]. split; [constructor; assumption|].
      intros [|j] Hj; [exact Hc|]. apply Hlazy. cbn in Hj. lia.
Qed.

Lemma match_here_spec s g1 g2 :
  match_here s = Some (g1, g2) ->
  exists spaces q1 body q2 rest,
    s = list_ascii_of_string "url" ++ spaces ++ ["("%char; q1] ++ body
        ++ [q2; ")"%char] ++ rest
    /\ g1 = 3 + length spaces + 2 /\ g2 = length body
    /\ Forall (fun c => is_space c = true) spaces
    /\ is_quote q1 = true /\ is_quote q2 = true
    /\ Forall (fun c => c <> newline) body
    /\ forall j, j < g2 -> closes (drop (g1 + j) s) = false.
Proof.
  unfold match_here. intros H.
  destruct s as [|c1 [|c2 [|c3 s1]]]; try discriminate;
    try (destruct c1 as [[] [] [] [] [] [] [] []]; discriminate).
  - destruct c1 as [[] [] [] [] [] [] [] []]; try discriminate.
    destruct c2 as [[] [] [] [] [] [] [] []]; discriminate.
  - destruct c1 as [[] [] [] [] [] [] [] []]; try discriminate.
    destruct c2 as [[] [] [] [] [] [] [] []]; try discriminate.
    destruct c3 as [[] [] [] [] [] [] [] []]; try discriminate.
    destruct (skip_spaces s1) as [k s2] eqn:Hk.
    apply skip_spaces_spec in Hk as (spaces & -> & <- & Hsp).
    destruct s2 as [|p [|q s3]]; try discriminate;
      try (destruct p as [[] [] [] [] [] [] [] []]; discriminate).
    destruct p as [[] [] [] [] [] [] [] []]; try discriminate.
    destruct (is_quote q) eqn:Hq; [|discriminate].
    destruct (lazy_body s3) as [n|] eqn:Hn; [|discriminate].
    injection H as <- <-.
    apply lazy_body_spec in Hn as (body & q2 & rest & -> & <- & Hq2 & Hbody & Hlazy).
    exists spaces, q, body, q2, rest.
    split; [reflexivity|]. split; [reflexivity|]. split; [reflexivity|].
    split; [exact Hsp|]. split; [exact Hq|]. split; [exact Hq2|]. split; [exact Hbody|].
    intros j Hj.
    cbn [drop Nat.add]. rewrite <- Nat.add_assoc, drop_app_add. cbn [drop Nat.add].
    apply Hlazy, Hj.
Qed.

Lemma find_from_spec s : forall start m,
  find_from start s = Some m ->
  exists before g1 g2,
    m = submatch_at (start + length before) g1 g2
    /\ before = take (length before) s
    /\ match_here (drop (length before) s) = Some (g1, g2)
    /\ forall j, j < length before -> match_here (drop j s) = None.
Proof.
  induction s as [|c s IH]; intros start m H; cbn [find_from] in H.
  - destruct (match_here []) as [[g1 g2]|] eqn:E; [|discriminate].
    apply match_here_length in E. cbn in E. lia.
  - destruct (match_here (c :: s)) as [[g1 g2]|] eqn:E.
    + injection H as <-. exists [], g1, g2. cbn [length]. rewrite Nat.add_0_r.
      split; [reflexivity|]. split; [reflexivity|]. split; [exact E|]. intros j Hj. lia.
    + apply IH in H as (before & g1 & g2 & -> & Hb & Hm & Hleft).
      exists (c :: before), g1, g2. cbn [length].
      split; [f_equal; lia|]. split; [cbn [take]; f_equal; exact Hb|].
      split; [exact Hm|]. intros [|j] Hj; [exact E|]. apply Hleft. lia.
Qed.

Lemma css_match_shape_aux (css : list ascii) (m : Submatch) :
  FindSubmatchIndex css = Some m ->
  exists before rest q1, css = before ++ q1 :: rest /\ is_quote q1 = true.
Proof.
  unfold FindSubmatchIndex. intros H.
  apply find_from_spec in H as (before & g1 & g2 & -> & Hb & Hm & _).
  apply match_here_spec in Hm
    as (spaces & q1 & link & q2 & rest & Hs & _ & _ & _ & Hq1 & _).
  exists (before ++ list_ascii_of_string "url" ++ spaces ++ ["("%char]),
         (link ++ [q2; ")"%char] ++ rest), q1.
  split; [|exact Hq1].
  rewrite <- (take_drop (length before) css) at 1. rewrite <- Hb, Hs.
  rewrite <- !app_assoc. reflexivity.
Qed.

(** X6. What a match of [cssURLMatcher] is: the text is the bytes before the
    match, the letters [url], spaces, an opening parenthesis and a quote (the
    first group), the link without a newline (the second group), a quote and
    a closing parenthesis (the third group), and the rest; the eight indices
    are the bounds of the match and of the three groups. The two quotes need
    not be the same character. *)
Theorem css_match_shape (css : list ascii) (m : Submatch) :
  FindSubmatchIndex css = Some m ->
  exists before spaces q1 link q2 rest,
    css = before ++ list_ascii_of_string "url" ++ spaces ++ ["("%char; q1]
          ++ link ++ [q2; ")"%char] ++ rest
    /\ Forall (fun c => is_space c = true) spaces
    /\ is_quote q1 = true /\ is_quote q2 = true
    /\ Forall (fun c => c <> newline) link
    /\ i0 m = length before /\ i1 m = i7 m
    /\ i2 m = i0 m /\ i3 m = i0 m + 3 + length spaces + 2
    /\ i4 m = i3 m /\ i5 m = i4 m + length link
    /\ i6 m = i5 m /\ i7 m = i6 m + 2
    /\ slice (i4 m) (i5 m) css = link.
Proof.
  unfold FindSubmatchIndex. intros H.
  apply find_from_spec in H as (before & g1 & g2 & -> & Hb & Hm & _).
  apply match_here_spec in Hm
    as (spaces & q1 & link & q2 & rest & Hs & -> & -> & Hsp & Hq1 & Hq2 & Hlink & _).
  assert (Hcss : css = before ++ list_ascii_of_string "url" ++ spaces ++ ["("%char; q1]
                       ++ link ++ [q2; ")"%char] ++ rest).
  { rewrite <- (take_drop (length before) css) at 1. rewrite <- Hb, Hs. reflexivity. }
  exists before, spaces, q1, link, q2, rest.
  split; [exact Hcss|]. split; [exact Hsp|]. split; [exact Hq1|]. split; [exact Hq2|].
  split; [exact Hlink|]. cbn [i0 i1 i2 i3 i4 i5 i6 i7 submatch_at].
  repeat (split; [lia|]).
  unfold slice.
  replace (0 + length before + (3 + length spaces + 2) + length link
           - (0 + length before + (3 + length spaces + 2))) with (length link) by lia.
  rewrite Hcss at 1.
  replace (0 + length before + (3 + length spaces + 2))
    with (length before + (3 + (length spaces + 2))) by lia.
  rewrite drop_app_add. cbn [list_ascii_of_string app drop Nat.add].
  rewrite drop_app_add. cbn [app drop].
  rewrite drop_0, take_app_length. reflexivity.
Qed.

(** The rule [p{background:url('/images/x.png')}]. *)
Lemma css_match_shape_witness :
  exists before spaces q1 link q2 rest,
    css_example.background
    = before ++ list_ascii_of_string "url" ++ spaces ++ ["("%char; q1]
      ++ link ++ [q2; ")"%char] ++ rest
    /\ Forall (fun c => is_space c = true) spaces
    /\ is_quote q1 = true /\ is_quote q2 = true
    /\ Forall (fun c => c <> newline) link
    /\ 13 = length before /\ 33 = 33
    /\ 13 = 13 /\ 18 = 13 + 3 + length spaces + 2
    /\ 18 = 18 /\ 31 = 18 + length link
    /\ 31 = 31 /\ 33 = 31 + 2
    /\ slice 18 31 css_example.background = link.
Proof.
  apply (css_match_shape css_example.background (mkSubmatch 13 33 13 18 18 31 31 33)).
  vm_compute. reflexivity.
Defined.

Lemma closes_lookup (l : list ascii) (k : nat) (q : ascii) :
  closes (drop k l) = false -> l !! k = Some q -> is_quote q = true ->
  l !! S k <> Some ")"%char.
Proof.
  intros Hc Hk Hq Hp.
  assert (H0 : drop k l !! 0 = Some q) by (rewrite lookup_drop, Nat.add_0_r; exact Hk).
  assert (H1 : drop k l !! 1 = Some ")"%char)
    by (rewrite lookup_drop, Nat.add_1_r; exact Hp).
  destruct (drop k l) as [|a [|b rest]]; try discriminate.
  cbn in H0, H1. injection H0 as ->. injection H1 as ->.
  cbn in Hc. congruence.
Qed.

(** X7. The match found is the leftmost one and its link is the shortest
    possible: no match starts at an earlier byte, and inside the link no quote
    is directly followed by a closing parenthesis. *)
Theorem css_match_leftmost_and_lazy (css : list ascii) (m : Submatch) :
  FindSubmatchIndex css = Some m ->
  (forall j, j < i0 m -> match_here (drop j css) = None)
  /\ (forall j q, i4 m <= j < i5 m -> css !! j = Some q -> is_quote q = true ->
                  css !! S j <> Some ")"%char).
Proof.
  unfold FindSubmatchIndex. intros H.
  apply find_from_spec in H as (before & g1 & g2 & -> & Hb & Hm & Hleft).
  cbn [i0 i4 i5 submatch_at]. split.
  - intros j Hj. apply Hleft. lia.
  - intros j q Hj Hq Hquote.
    apply match_here_spec in Hm as (_ & _ & _ & _ & _ & _ & _ & _ & _ & _ & _ & _ & Hlazy).
    apply (closes_lookup css j q); [|exact Hq|exact Hquote].
    specialize (Hlazy (j - (length before + g1)) ltac:(lia)).
    rewrite drop_drop in Hlazy.
    replace (length before + (g1 + (j - (length before + g1)))) with j in Hlazy by lia.
    exact Hlazy.
Qed.

(** The rule [p{background:url('/images/x.png')}]. *)
Lemma css_match_leftmost_and_lazy_witness :
  (forall j, j < 13 -> match_here (drop j css_example.background) = None)
  /\ (forall j q, 18 <= j < 31 -> css_example.background !! j = Some q ->
                  is_quote q = true -> css_example.background !! S j <> Some ")"%char).
Proof.
  apply (css_match_leftmost_and_lazy css_example.background
           (mkSubmatch 13 33 13 18 18 31 31 33)).
  vm_compute. reflexivity.
Defined.

Lemma skip_spaces_complete spaces : forall rest,
  Forall (fun c => is_space c = true) spaces ->
  match rest with c :: _ => is_space c = false | [] => True end ->
  skip_spaces (spaces ++ rest) = (length spaces, rest).
Proof.
  induction spaces as [|c spaces IH]; intros rest Hsp Hrest.
  - destruct rest as [|d rest]; [reflexivity|]. cbn. rewrite Hrest. reflexivity.
  - apply Forall_cons in Hsp as [Hc Hsp]. cbn. rewrite Hc, (IH rest Hsp Hrest). reflexivity.
Qed.

Lemma lazy_body_complete link : forall q rest,
  Forall (fun c => c <> newline) link -> is_quote q = true ->
  exists n, lazy_body (link ++ q :: ")"%char :: rest) = Some n /\ n <= length link.
Proof.
  induction link as [|c link IH]; intros q rest Hlink Hq.
  - exists 0. cbn. rewrite Hq. split; [reflexivity|lia].
  - apply Forall_cons in Hlink as [Hc Hlink].
    destruct (IH q rest Hlink Hq) as (n & Hn & Hle).
    change ((c :: link) ++ q :: ")"%char :: rest)
      with (c :: (link ++ q :: ")"%char :: rest)).
    cbn [lazy_body]. destruct (closes (c :: link ++ q :: ")"%char :: rest)).
    + exists 0. split; [reflexivity|cbn; lia].
    + rewrite bool_decide_eq_false_2 by exact Hc. rewrite Hn.
      exists (S n). split; [reflexivity|cbn; lia].
Qed.

Lemma find_from_complete s : forall start k,
  is_Some (match_here (drop k s)) ->
  exists m, find_from start s = Some m /\ i0 m <= start + k.
Proof.
  induction s as [|c s IH]; intros start k Hk.
  - rewrite drop_nil in Hk. cbn [find_from]. destruct (match_here []) as [[g1 g2]|] eqn:E.
    + eexists. split; [reflexivity|cbn; lia].
    + destruct Hk as [x Hx]. discriminate Hx.
  - cbn [find_from]. destruct (match_here (c :: s)) as [[g1 g2]|] eqn:E.
    + eexists. split; [reflexivity|cbn; lia].
    + destruct k as [|k].
      * rewrite drop_0, E in Hk. destruct Hk as [x Hx]. discriminate Hx.
      * cbn [drop] in Hk. destruct (IH (S start) k Hk) as (m & Hm & Hle).
        exists m. split; [exact Hm|lia].
Qed.

(** X8. No quoted link is missed: when the text holds the letters [url],
    spaces, an opening parenthesis, a quote, a link without newline, a quote
    and a closing parenthesis, the pattern has a match, and it starts at that
    occurrence or before it. *)
Theorem css_match_complete (before spaces link rest : list ascii) (q1 q2 : ascii) :
  Forall (fun c => is_space c = true) spaces ->
  is_quote q1 = true -> is_quote q2 = true ->
  Forall (fun c => c <> newline) link ->
  exists m,
    FindSubmatchIndex
      (before ++ list_ascii_of_string "url" ++ spaces ++ ["("%char; q1]
       ++ link ++ [q2; ")"%char] ++ rest) = Some m
    /\ i0 m <= length before.
Proof.
  intros Hsp Hq1 Hq2 Hlink. unfold FindSubmatchIndex.
  apply (find_from_complete _ 0 (length before)).
  rewrite drop_app_length. cbn [list_ascii_of_string app match_here].
  rewrite (skip_spaces_complete spaces ("("%char :: q1 :: link ++ q2 :: ")"%char :: rest))
    by (exact Hsp || reflexivity).
  rewrite Hq1.
  destruct (lazy_body_complete link q2 rest Hlink Hq2) as (n & -> & _).
  cbn. eauto.
Qed.

(** The rule [p{background:url('/images/x.png')}]. *)
Lemma css_match_complete_witness :
  exists m,
    FindSubmatchIndex
      (list_ascii_of_string "p{background:" ++ list_ascii_of_string "url" ++ []
       ++ ["("%char; "'"%char] ++ list_ascii_of_string "/images/x.png"
       ++ ["'"%char; ")"%char] ++ list_ascii_of_string "}") = Some m
    /\ i0 m <= length (list_ascii_of_string "p{background:").
Proof.
  apply (css_match_complete (list_ascii_of_string "p{background:") []
           (list_ascii_of_string "/images/x.png") (list_ascii_of_string "}") "'" "'").
  - constructor.
  - reflexivity.
  - reflexivity.
  - repeat constructor; discriminate.
Defined.

Lemma no_quote_no_match (css : list ascii) :
  Forall (fun c => is_quote c = false) css -> FindSubmatchIndex css = None.
Proof.
  intros Hcss. destruct (FindSubmatchIndex css) as [m|] eqn:E; [|reflexivity].
  apply css_match_shape_aux in E as (before & rest & q1 & -> & Hq1).
  rewrite Forall_app, Forall_cons in Hcss. destruct Hcss as (_ & Hq & _). congruence.
Qed.

End MatcherShape.

Lemma css_loop_no_match {lib : Library} getAndWrite gas css context buffer st :
  cssURLMatcher.FindSubmatchIndex css = None ->
  V3.css_loop getAndWrite gas css context buffer st = V3.Done (buffer ++ css) st.
Proof. intros H. destruct gas; cbn [V3.css_loop]; rewrite H; reflexivity. Qed.

(** X9. A link that is written without quotes is not seen by the rewriter:
    a CSS text without a single or double quote is returned as it is, with no
    request, no file and no change of the cache, whatever the server would
    answer. *)
Theorem css_without_quotes_unchanged {lib : Library} (world : World) (fuel : nat)
    (css : list ascii) (context : V3.resourceFetcherContext) (st : V3.State) :
  Forall (fun c => cssURLMatcher.is_quote c = false) css ->
  V3.fetchLinkedResourcesInCSS world fuel css context st = V3.Done css st.
Proof.
  intros Hcss. unfold V3.fetchLinkedResourcesInCSS, V3.fetchLinkedResourcesInCSS_with.
  rewrite css_loop_no_match by (apply no_quote_no_match, Hcss). reflexivity.
Qed.

(** The text [a{background:url(x.png)}] in a page of [forum.example]. *)
Lemma css_without_quotes_unchanged_witness :
  V3.fetchLinkedResourcesInCSS (lib := GoModel.library) page_example.offline 0
    css_example2.unquoted
    (V3.mkContext page_example.pageURL page_example.targetHostDir page_example.pageDirpath)
    V3.state_init
  = V3.Done css_example2.unquoted V3.state_init.
Proof.
  apply (css_without_quotes_unchanged (lib := GoModel.library)).
  repeat constructor.
Defined.

(** ** Invariants of the third generation *)

(** A relation between the state before and the state after, which may
    depend on the target directory, holds for the rewriters as soon as it
    holds for the calls of [getAndWriteResourceToFile] ([post] is what such a
    call ensures) and is kept when the cache is updated after a call. *)
Section Invariant.

Context {lib : Library} (world : World).

Variable rel : string -> V3.State -> V3.State -> Prop.
Variable post : URL -> string -> V3.State -> option string -> V3.State -> Prop.

Hypothesis rel_refl : forall d st, rel d st st.
Hypothesis rel_trans : forall d st1 st2 st3, rel d st1 st2 -> rel d st2 st3 -> rel d st1 st3.
Hypothesis post_none : forall u d st st1, post u d st None st1 -> rel d st st1.
Hypothesis post_store : forall u d st contentType st1,
  post u d st (Some contentType) st1 ->
  rel d st (V3.mkState (V3.sys st1)
              (<[url_String u := contentType]> (V3.fetchedResources st1))).

Section WithHandler.

Variable getAndWrite : URL -> string -> V3.M (option string).
Hypothesis post_getAndWrite : forall u d st r st',
  getAndWrite u d st = V3.Done r st' -> post u d st r st'.

Lemma inv_fetchResource linkURI context st r st' :
  V3.fetchResourceFromLinkIfNecessary_with getAndWrite linkURI context st = V3.Done r st' ->
  rel (V3.targetHostDir context) st st'.
Proof.
  unfold V3.fetchResourceFromLinkIfNecessary_with.
  destruct (bool_decide (Opaque linkURI = "")).
  - destruct (bool_decide (Path linkURI = "")).
    + intros H. injection H as _ <-. apply rel_refl.
    + unfold V3.bind, V3.lookupFetched, V3.storeFetched, V3.ret.
      destruct (V3.fetchedResources st !! _) as [ct|].
      * destruct (filepath_Rel _ _); intros H; injection H as _ <-; apply rel_refl.
      * destruct (getAndWrite _ _ st) as [[ct|] st1| |] eqn:E; try discriminate.
        -- apply post_getAndWrite, post_store in E.
           destruct (filepath_Rel _ _); intros H; injection H as _ <-; exact E.
        -- apply post_getAndWrite, post_none in E.
           intros H; injection H as _ <-; exact E.
  - unfold V3.bind, V3.lookupFetched, V3.storeFetched, V3.ret.
    destruct (V3.fetchedResources st !! _) as [ct0|].
    + destruct (getAndWrite _ _ st) as [[ct|] st1| |] eqn:E; try discriminate.
      * apply post_getAndWrite, post_store in E. intros H; injection H as _ <-; exact E.
      * apply post_getAndWrite, post_none in E. intros H; injection H as _ <-; exact E.
    + intros H. injection H as _ <-. apply rel_refl.
Qed.

Lemma inv_css_loop gas : forall css context buffer st out st',
  V3.css_loop getAndWrite gas css context buffer st = V3.Done out st' ->
  rel (V3.targetHostDir context) st st'.
Proof.
  induction gas as [|gas IH]; intros css context buffer st out st'; cbn [V3.css_loop].
  - destruct (cssURLMatcher.FindSubmatchIndex css); [discriminate|].
    intros H. injection H as _ <-. apply rel_refl.
  - destruct (cssURLMatcher.FindSubmatchIndex css).
    + destruct (url_Parse _); [|apply IH].
      unfold V3.bind at 1.
      destruct (V3.fetchResourceFromLinkIfNecessary_with _ _ _ st) as [r st1| |] eqn:E;
        try discriminate.
      intros H. eapply rel_trans; [eapply inv_fetchResource, E|eapply IH, H].
    + intros H. injection H as _ <-. apply rel_refl.
Qed.

End WithHandler.

Hypothesis post_getAndWriteResourceToFile : forall fuel u d st r st',
  V3.getAndWriteResourceToFile world fuel u d st = V3.Done r st' -> post u d st r st'.

Variables (pageURL : URL) (pageTargetHostDir pageDirpath : string).

Lemma inv_page_css fuel css st out st' :
  V3.fetchLinkedResourcesInCSS world fuel css
    (V3.pageContext pageURL pageTargetHostDir pageDirpath) st = V3.Done out st' ->
  rel pageTargetHostDir st st'.
Proof.
  intros H.
  exact (inv_css_loop _ (post_getAndWriteResourceToFile fuel) _ _ _ _ _ _ _ H).
Qed.

Lemma inv_processToken fuel prevToken token st out st' :
  V3.processToken world pageURL pageTargetHostDir pageDirpath fuel prevToken token st
  = V3.Done out st' ->
  rel pageTargetHostDir st st'.
Proof.
  unfold V3.processToken.
  destruct (negb _ && negb _).
  { intros H. injection H as _ <-. apply rel_refl. }
  destruct prevToken as [prev|]; [|discriminate].
  destruct (bool_decide (DataAtom prev = atom.Style)).
  - unfold V3.bind, V3.ret.
    destruct (V3.fetchLinkedResourcesInCSS _ _ _ _ st) as [css st1| |] eqn:E; try discriminate.
    intros H. injection H as _ <-. eapply inv_page_css, E.
  - unfold V3.bind at 1.
    destruct (V3.rewriteStyle _ _ _ _ _ _ _ st) as [attrs st1| |] eqn:Hstyle; try discriminate.
    assert (R1 : rel pageTargetHostDir st st1).
    { revert Hstyle. unfold V3.rewriteStyle. destruct (hasStyle _).
      - unfold V3.bind, V3.ret.
        destruct (V3.fetchLinkedResourcesInCSS _ _ _ _ st) as [css st2| |] eqn:E;
          try discriminate.
        intros H. injection H as _ <-. eapply inv_page_css, E.
      - intros H. injection H as _ <-. apply rel_refl. }
    unfold V3.bind at 1.
    destruct (V3.rewriteLink _ _ _ _ _ _ _ _ st1) as [attrs' st2| |] eqn:Hlink;
      try discriminate.
    intros H. injection H as _ <-. eapply rel_trans; [exact R1|].
    revert Hlink. unfold V3.rewriteLink.
    destruct (negb _); [intros H; injection H as _ <-; apply rel_refl|].
    destruct (url_Parse _); [|intros H; injection H as _ <-; apply rel_refl].
    destruct (isRequisite _ _ _ _); [|intros H; injection H as _ <-; apply rel_refl].
    unfold V3.bind, V3.ret.
    destruct (V3.fetchResourceFromLinkIfNecessary _ _ _ _ st1) as [r st3| |] eqn:E;
      try discriminate.
    apply (inv_fetchResource _ (post_getAndWriteResourceToFile fuel)) in E.
    destruct r; intros H; injection H as _ <-; exact E.
Qed.

Lemma inv_processTokens fuel tokens : forall prevToken st out st',
  V3.processTokens world pageURL pageTargetHostDir pageDirpath fuel prevToken tokens st
  = V3.Done out st' ->
  rel pageTargetHostDir st st'.
Proof.
  induction tokens as [|token rest IH]; intros prevToken st out st'; cbn [V3.processTokens].
  - intros H. injection H as _ <-. apply rel_refl.
  - unfold V3.bind at 1.
    destruct (V3.processToken _ _ _ _ _ _ _ st) as [token' st1| |] eqn:E; try discriminate.
    unfold V3.bind, V3.ret.
    destruct (V3.processTokens _ _ _ _ _ _ _ st1) as [rest' st2| |] eqn:Erest;
      try discriminate.
    intros H. injection H as _ <-.
    eapply rel_trans; [eapply inv_processToken, E|eapply IH, Erest].
Qed.

End Invariant.

(** ** The cache holds requested resources only *)

Lemma requested_kept_refl st : requested_kept st st.
Proof. split; [unfold log_extended; reflexivity|tauto]. Qed.

Lemma requested_kept_trans st1 st2 st3 :
  requested_kept st1 st2 -> requested_kept st2 st3 -> requested_kept st1 st3.
Proof.
  intros [H12 C12] [H23 C23]. split; [|tauto].
  unfold log_extended in *. etransitivity; eassumption.
Qed.

Lemma requested_kept_same_cache st st' :
  log_extended st st' -> V3.fetchedResources st' = V3.fetchedResources st ->
  requested_kept st st'.
Proof.
  intros Hlog Hcache. split; [exact Hlog|].
  intros Hst key Hkey. rewrite Hcache in Hkey.
  destruct Hlog as [more ->]. apply elem_of_app. left. apply Hst, Hkey.
Qed.

Lemma requested_kept_store {lib : Library} u contentType st st1 :
  requested_kept st st1 -> url_String u ∈ requests (V3.sys st1) ->
  requested_kept st
    (V3.mkState (V3.sys st1) (<[url_String u := contentType]> (V3.fetchedResources st1))).
Proof.
  intros [Hlog Hcache] Hin. split; [exact Hlog|].
  intros Hst key Hkey. cbn in *.
  destruct (decide (url_String u = key)) as [<-|Hne]; [exact Hin|].
  rewrite lookup_insert_ne in Hkey by exact Hne. apply Hcache; assumption.
Qed.

Section Requested.

Context {lib : Library} (world : World).

Local Abbreviation post :=
  (fun (u : URL) (d : string) (st : V3.State) (r : option string) (st' : V3.State) =>
     requested_kept st st' /\ url_String u ∈ requests (V3.sys st')).

Lemma requested_getAndWrite fuel : forall u d st r st',
  V3.getAndWriteResourceToFile world fuel u d st = V3.Done r st' ->
  requested_kept st st' /\ url_String u ∈ requests (V3.sys st').
Proof.
  induction fuel as [|fuel IH]; intros u d st r st'; cbn [V3.getAndWriteResourceToFile];
    [discriminate|].
  unfold V3.bind at 1, V3.getResourceM, getResource.
  set (st1 := V3.mkState
                (mkSys (requests (V3.sys st) ++ [url_String u]) (files (V3.sys st)))
                (V3.fetchedResources st)).
  intros H.
  assert (H01 : requested_kept st st1).
  { apply requested_kept_same_cache; [|reflexivity]. exists [url_String u]. reflexivity. }
  assert (Hin : url_String u ∈ requests (V3.sys st1)).
  { cbn. apply elem_of_app. right. apply list_elem_of_singleton. reflexivity. }
  enough (H1 : requested_kept st1 st').
  { split; [eapply requested_kept_trans; eassumption|].
    destruct H1 as [[more ->] _]. apply elem_of_app. left. exact Hin. }
  clearbody st1. clear H01 Hin.
  destruct (http_Get world _ _) as [[ct content]|];
    [|injection H as _ <-; apply requested_kept_refl].
  revert H. unfold V3.bind at 1, V3.openFileForResourceContent.
  set (filename := resourceFilename u ct d).
  assert (Hwrite : forall st2 content',
            requested_kept st2
              (V3.mkState (mkSys (requests (V3.sys st2))
                             (<[filename := content']> (files (V3.sys st2))))
                 (V3.fetchedResources st2))).
  { intros st2 content'.
    apply requested_kept_same_cache; [unfold log_extended|]; reflexivity. }
  assert (Hcss : forall st2 out st3,
            V3.fetchLinkedResourcesInCSS_with (V3.getAndWriteResourceToFile world fuel)
              content (V3.mkContext u d (filepath_Dir (filepath.FromSlash (Path u)))) st2
            = V3.Done out st3 -> requested_kept st2 st3).
  { intros st2 out st3 E.
    apply (inv_css_loop (fun _ => requested_kept) post) in E; [exact E| | | | |].
    - intros _. apply requested_kept_refl.
    - intros _. apply requested_kept_trans.
    - intros ? ? ? ? [Hk _]. exact Hk.
    - intros ? ? ? ? ? [Hk Hi]. apply requested_kept_store; assumption.
    - apply IH. }
  destruct (can_create world filename).
  - destruct (strings.HasPrefix ct "text/css").
    + unfold V3.bind at 1.
      destruct (V3.fetchLinkedResourcesInCSS_with _ _ _ _) as [content' st3| |] eqn:E;
        try discriminate.
      intros H. injection H as _ <-.
      eapply requested_kept_trans; [apply (Hwrite st1 [])|].
      eapply requested_kept_trans; [eapply Hcss, E|]. apply Hwrite.
    + intros H. injection H as _ <-.
      eapply requested_kept_trans; [apply (Hwrite st1 [])|].
      apply (Hwrite (V3.mkState
                       (mkSys (requests (V3.sys st1))
                          (<[filename := []]> (files (V3.sys st1))))
                       (V3.fetchedResources st1)) content).
  - destruct (strings.HasPrefix ct "text/css").
    + unfold V3.bind at 1.
      destruct (V3.fetchLinkedResourcesInCSS_with _ _ _ _) as [content' st3| |] eqn:E;
        try discriminate.
      intros H. injection H as _ <-. eapply Hcss, E.
    + intros H. injection H as _ <-. apply requested_kept_refl.
Qed.

End Requested.

(** X10. Whatever the server answers, every resource URI in the cache of a
    page is the URL of a request that was issued, and the log of requests is
    only ever extended: nothing is marked as fetched without a request. *)
Theorem cache_holds_requested_only {lib : Library} (world : World)
    (pageURL : URL) (pageTargetHostDir pageDirpath : string) (fuel : nat)
    (prevToken : option Token) (tokens out : list Token) (st st' : V3.State) :
  cache_requested st ->
  V3.processTokens world pageURL pageTargetHostDir pageDirpath fuel prevToken tokens st
  = V3.Done out st' ->
  cache_requested st' /\ log_extended st st'.
Proof.
  intros Hst Hrun.
  apply (inv_processTokens world (fun _ => requested_kept)
           (fun u d st r st' =>
              requested_kept st st' /\ url_String u ∈ requests (V3.sys st'))) in Hrun.
  - destruct Hrun as [Hlog Hcache]. split; [apply Hcache, Hst|exact Hlog].
  - intros _. apply requested_kept_refl.
  - intros _. apply requested_kept_trans.
  - intros ? ? ? ? [Hk _]. exact Hk.
  - intros ? ? ? ? ? [Hk Hi]. apply requested_kept_store; assumption.
  - apply requested_getAndWrite.
Qed.

Lemma cache_requested_init : cache_requested V3.state_init.
Proof.
  intros key [contentType H]. unfold V3.state_init in H. cbn [V3.fetchedResources] in H.
  rewrite lookup_empty in H. discriminate H.
Qed.

Lemma image_run :
  V3.processTokens (lib := GoModel.library) css_example.picture_server
    page_example.pageURL page_example.targetHostDir page_example.pageDirpath
    1 (Some page_example.doctype) [css_example.image] V3.state_init
  = V3.Done run_example.image_localized run_example.image_fetched.
Proof. vm_compute. reflexivity. Qed.

(** The page with the image [img/a.png], from the empty cache. *)
Lemma cache_holds_requested_only_witness :
  cache_requested run_example.image_fetched
  /\ log_extended V3.state_init run_example.image_fetched.
Proof.
  exact (cache_holds_requested_only (lib := GoModel.library) css_example.picture_server
           page_example.pageURL page_example.targetHostDir page_example.pageDirpath
           1 (Some page_example.doctype) [css_example.image] run_example.image_localized
           V3.state_init run_example.image_fetched cache_requested_init image_run).
Defined.

(** ** A server that does not answer *)

Section Silent.

Context {lib : Library} (world : World).
Hypothesis no_answer : silent world.

Lemma quiet_refl st : quiet st st.
Proof. split; reflexivity. Qed.

Lemma quiet_trans st1 st2 st3 : quiet st1 st2 -> quiet st2 st3 -> quiet st1 st3.
Proof. intros [F12 C12] [F23 C23]. split; congruence. Qed.

Lemma silent_getAndWrite fuel u d st r st' :
  V3.getAndWriteResourceToFile world fuel u d st = V3.Done r st' ->
  r = None /\ quiet st st'.
Proof.
  destruct fuel as [|fuel]; cbn [V3.getAndWriteResourceToFile]; [discriminate|].
  unfold V3.bind, V3.getResourceM, getResource. rewrite no_answer.
  intros H. injection H as <- <-. split; [reflexivity|]. split; reflexivity.
Qed.

End Silent.

(** X11. When the server answers no request, processing a page writes no
    file and leaves the cache as it is: a resource is stored and marked as
    fetched only after a successful request. *)
Theorem no_answer_no_file {lib : Library} (world : World)
    (pageURL : URL) (pageTargetHostDir pageDirpath : string) (fuel : nat)
    (prevToken : option Token) (tokens out : list Token) (st st' : V3.State) :
  silent world ->
  V3.processTokens world pageURL pageTargetHostDir pageDirpath fuel prevToken tokens st
  = V3.Done out st' ->
  files (V3.sys st') = files (V3.sys st)
  /\ V3.fetchedResources st' = V3.fetchedResources st.
Proof.
  intros Hsilent Hrun.
  apply (inv_processTokens world (fun _ => quiet)
           (fun u d st r st' => r = None /\ quiet st st')) in Hrun.
  - exact Hrun.
  - intros _. apply quiet_refl.
  - intros _. apply quiet_trans.
  - intros ? ? ? ? [_ Hq]. exact Hq.
  - intros ? ? ? ? ? [Hr _]. discriminate Hr.
  - intros fuel' u d st0 r st1. apply silent_getAndWrite, Hsilent.
Qed.

Lemma image_run_offline :
  V3.processTokens (lib := GoModel.library) page_example.offline
    page_example.pageURL page_example.targetHostDir page_example.pageDirpath
    1 (Some page_example.doctype) [css_example.image] V3.state_init
  = V3.Done [css_example.image] run_example.image_failed.
Proof. vm_compute. reflexivity. Qed.

(** The page with the image [img/a.png] without a network. *)
Lemma no_answer_no_file_witness :
  files (V3.sys run_example.image_failed) = files (V3.sys V3.state_init)
  /\ V3.fetchedResources run_example.image_failed = V3.fetchedResources V3.state_init.
Proof.
  apply (no_answer_no_file (lib := GoModel.library) page_example.offline
           page_example.pageURL page_example.targetHostDir page_example.pageDirpath
           1 (Some page_example.doctype) [css_example.image] [css_example.image]).
  - intros gets urlStr. reflexivity.
  - exact image_run_offline.
Defined.

(** ** Every file written belongs to a requested resource *)

Section Accounted.

Context {lib : Library} (world : World).

Lemma files_accounted_refl d st : files_accounted d st st.
Proof. split; [unfold log_extended; reflexivity|]. intros name H. congruence. Qed.

Lemma files_accounted_trans d st1 st2 st3 :
  files_accounted d st1 st2 -> files_accounted d st2 st3 -> files_accounted d st1 st3.
Proof.
  intros [L12 W12] [L23 W23]. split.
  - unfold log_extended in *. etransitivity; eassumption.
  - intros name Hne.
    destruct (decide (files (V3.sys st2) !! name = files (V3.sys st1) !! name)) as [E|Hne12].
    + apply W23. congruence.
    + destruct (W12 name Hne12) as (u & ct & Hname & Hin).
      exists u, ct. split; [exact Hname|].
      destruct L23 as [more ->]. apply elem_of_app. left. exact Hin.
Qed.

Lemma files_accounted_same_files d st st' :
  log_extended st st' -> files (V3.sys st') = files (V3.sys st) -> files_accounted d st st'.
Proof. intros Hlog Hfiles. split; [exact Hlog|]. intros name H. congruence. Qed.

Lemma files_accounted_write d u contentType content st :
  url_String u ∈ requests (V3.sys st) ->
  files_accounted d st
    (V3.mkState
       (mkSys (requests (V3.sys st))
              (<[resourceFilename u contentType d := content]> (files (V3.sys st))))
       (V3.fetchedResources st)).
Proof.
  intros Hin. split; [unfold log_extended; reflexivity|].
  intros name Hne. cbn in Hne.
  destruct (decide (resourceFilename u contentType d = name)) as [<-|Hother].
  - exists u, contentType. split; [reflexivity|exact Hin].
  - rewrite lookup_insert_ne in Hne by exact Hother. congruence.
Qed.

Lemma accounted_getAndWrite fuel : forall u d st r st',
  V3.getAndWriteResourceToFile world fuel u d st = V3.Done r st' ->
  files_accounted d st st'.
Proof.
  induction fuel as [|fuel IH]; intros u d st r st'; cbn [V3.getAndWriteResourceToFile];
    [discriminate|].
  unfold V3.bind at 1, V3.getResourceM, getResource.
  set (st1 := V3.mkState
                (mkSys (requests (V3.sys st) ++ [url_String u]) (files (V3.sys st)))
                (V3.fetchedResources st)).
  intros H.
  assert (H01 : files_accounted d st st1).
  { apply files_accounted_same_files; [|reflexivity]. exists [url_String u]. reflexivity. }
  assert (Hin : url_String u ∈ requests (V3.sys st1)).
  { cbn. apply elem_of_app. right. apply list_elem_of_singleton. reflexivity. }
  eapply files_accounted_trans; [exact H01|].
  clearbody st1. clear H01.
  destruct (http_Get world _ _) as [[ct content]|];
    [|injection H as _ <-; apply files_accounted_refl].
  revert H. unfold V3.bind at 1, V3.openFileForResourceContent.
  set (opened := V3.mkState
                   (mkSys (requests (V3.sys st1))
                      (<[resourceFilename u ct d := []]> (files (V3.sys st1))))
                   (V3.fetchedResources st1)).
  assert (Hopen : files_accounted d st1 opened) by (apply files_accounted_write, Hin).
  assert (Hcss : forall st2 out st3,
            V3.fetchLinkedResourcesInCSS_with (V3.getAndWriteResourceToFile world fuel)
              content (V3.mkContext u d (filepath_Dir (filepath.FromSlash (Path u)))) st2
            = V3.Done out st3 -> files_accounted d st2 st3).
  { intros st2 out st3 E.
    apply (inv_css_loop files_accounted (fun u d st r st' => files_accounted d st st')) in E;
      [exact E| | | | |].
    - apply files_accounted_refl.
    - apply files_accounted_trans.
    - intros ? ? ? ? Hk. exact Hk.
    - intros ? ? ? ? ? [Hl Hw]. split; [exact Hl|exact Hw].
    - apply IH. }
  destruct (can_create world _).
  - fold opened. destruct (strings.HasPrefix ct "text/css").
    + unfold V3.bind at 1.
      destruct (V3.fetchLinkedResourcesInCSS_with _ _ _ _) as [content' st3| |] eqn:E;
        try discriminate.
      intros H. injection H as _ <-.
      eapply files_accounted_trans; [exact Hopen|].
      apply Hcss in E.
      eapply files_accounted_trans; [exact E|].
      apply files_accounted_write.
      destruct E as [[more1 ->] _]. destruct Hopen as [[more0 E0] _]. cbn in E0.
      apply elem_of_app. left. exact Hin.
    + intros H. injection H as _ <-.
      eapply files_accounted_trans; [exact Hopen|].
      apply (files_accounted_write d u ct content opened). exact Hin.
  - destruct (strings.HasPrefix ct "text/css").
    + unfold V3.bind at 1.
      destruct (V3.fetchLinkedResourcesInCSS_with _ _ _ _) as [content' st3| |] eqn:E;
        try discriminate.
      intros H. injection H as _ <-. eapply Hcss, E.
    + intros H. injection H as _ <-. apply files_accounted_refl.
Qed.

End Accounted.

(** X12. Every file that processing a page creates or changes is the file
    of a resource that was requested, named by [resourceFilename] from the URL
    of the resource, the content type of the answer and the host directory of
    the page; this holds for the resources of every host and for those that
    stylesheets refer to. *)
Theorem files_belong_to_requested_resources {lib : Library} (world : World)
    (pageURL : URL) (pageTargetHostDir pageDirpath : string) (fuel : nat)
    (prevToken : option Token) (tokens out : list Token) (st st' : V3.State)
    (name : string) :
  V3.processTokens world pageURL pageTargetHostDir pageDirpath fuel prevToken tokens st
  = V3.Done out st' ->
  files (V3.sys st') !! name <> files (V3.sys st) !! name ->
  exists resourceURL contentType,
    name = resourceFilename resourceURL contentType pageTargetHostDir
    /\ url_String resourceURL ∈ requests (V3.sys st').
Proof.
  intros Hrun.
  apply (inv_processTokens world files_accounted
           (fun u d st r st' => files_accounted d st st')) in Hrun.
  - destruct Hrun as [_ Hw]. apply Hw.
  - apply files_accounted_refl.
  - apply files_accounted_trans.
  - intros ? ? ? ? Hk. exact Hk.
  - intros ? ? ? ? ? [Hl Hw]. split; [exact Hl|exact Hw].
  - apply accounted_getAndWrite.
Qed.

(** The file of the image [img/a.png]. *)
Lemma files_belong_to_requested_resources_witness :
  exists resourceURL contentType,
    "/srv/mirror/1/forum.example/img/a.png"
    = resourceFilename (lib := GoModel.library) resourceURL contentType
        page_example.targetHostDir
    /\ url_String resourceURL ∈ requests (V3.sys run_example.image_fetched).
Proof.
  apply (files_belong_to_requested_resources (lib := GoModel.library)
           css_example.picture_server
           page_example.pageURL page_example.targetHostDir page_example.pageDirpath
           1 (Some page_example.doctype) [css_example.image] run_example.image_localized
           V3.state_init run_example.image_fetched
           "/srv/mirror/1/forum.example/img/a.png" image_run).
  vm_compute. discriminate.
Defined.

(** ** Opaque links *)

Lemma adjust_no_content_type filename : adjustResourceFilenameExtension filename "" = filename.
Proof. reflexivity. Qed.

(** X13. A requisite link with an opaque part (a [data:] or [mailto:] link)
    whose URI is not in the cache is not fetched: the attribute is set to the
    opaque part of the link, followed by [%3F] and the query when there is
    one, so the link loses its scheme; the state does not change. *)
Theorem opaque_link_loses_scheme {lib : Library} (world : World)
    (pageURL : URL) (pageTargetHostDir pageDirpath : string) (fuel : nat)
    (prev token : Token) (linkURI : URL) (st : V3.State) :
  let s := scanAttrs true (Attr token) in
  Type_ token = html.StartTagToken \/ Type_ token = html.SelfClosingTagToken ->
  DataAtom prev <> atom.Style ->
  hasStyle s = false ->
  hasLinkURIAttr s = true ->
  url_Parse (linkURIStr s) = Some linkURI ->
  isRequisite (linkURIAttrAtom s) (DataAtom token) (hasRel s) (rel s) = true ->
  Opaque linkURI <> "" ->
  V3.fetchedResources st !! url_String linkURI = None ->
  V3.processToken world pageURL pageTargetHostDir pageDirpath fuel (Some prev) token st
  = V3.Done
      (html.withAttr token
         (setVal (linkURIAttrIndex s)
                 (withQuery (Opaque linkURI) (RawQuery linkURI)) (Attr token)))
      st.
Proof.
  intros s Htype Hprev Hstyle Hfound Hparsed Hreq Hopaque Hmiss.
  unfold V3.processToken.
  replace (negb (bool_decide (Type_ token = html.SelfClosingTagToken))
           && negb (bool_decide (Type_ token = html.StartTagToken))) with false
    by (destruct Htype as [-> | ->]; reflexivity).
  rewrite bool_decide_eq_false_2 by exact Hprev.
  fold s. unfold V3.rewriteStyle. rewrite Hstyle.
  unfold V3.bind at 1, V3.ret at 1.
  unfold V3.rewriteLink. rewrite Hfound, Hparsed, Hreq. cbn [negb].
  unfold V3.fetchResourceFromLinkIfNecessary, V3.fetchResourceFromLinkIfNecessary_with.
  rewrite bool_decide_eq_false_2 by exact Hopaque.
  unfold V3.bind, V3.lookupFetched, V3.ret. rewrite Hmiss.
  rewrite adjust_no_content_type. reflexivity.
Qed.

(** The image [<img src="data:image/png;base64,AAAA"/>]. *)
Lemma opaque_link_loses_scheme_witness :
  V3.processToken (lib := GoModel.library) page_example.offline
    page_example.pageURL page_example.targetHostDir page_example.pageDirpath
    0 (Some page_example.doctype) run_example.inline_image V3.state_init
  = V3.Done
      (mkToken html.SelfClosingTagToken atom.Zero "img"
         [mkAttribute "" "src" "image/png;base64,AAAA"])
      V3.state_init.
Proof.
  apply (opaque_link_loses_scheme (lib := GoModel.library) page_example.offline
           page_example.pageURL page_example.targetHostDir page_example.pageDirpath
           0 page_example.doctype run_example.inline_image
           run_example.inline_image_link V3.state_init).
  - right. reflexivity.
  - discriminate.
  - reflexivity.
  - reflexivity.
  - vm_compute. reflexivity.
  - reflexivity.
  - discriminate.
  - reflexivity.
Defined.

(** ** The rewrite changes values only *)

Lemma names_setVal index val attrs : names (setVal index val attrs) = names attrs.
Proof.
  unfold setVal, names. revert index.
  induction attrs as [|attr attrs IH]; intros [|index]; cbn; try reflexivity.
  f_equal. apply IH.
Qed.

Section SameTag.

Context {lib : Library} (world : World).
Variables (pageURL : URL) (pageTargetHostDir pageDirpath : string).

Lemma names_rewriteStyle fuel s attrs st attrs' st' :
  V3.rewriteStyle world pageURL pageTargetHostDir pageDirpath fuel s attrs st
  = V3.Done attrs' st' ->
  names attrs' = names attrs.
Proof.
  unfold V3.rewriteStyle. destruct (hasStyle s).
  - unfold V3.bind, V3.ret.
    destruct (V3.fetchLinkedResourcesInCSS _ _ _ _ st) as [css st1| |]; try discriminate.
    intros H. injection H as <- _. apply names_setVal.
  - intros H. injection H as <- _. reflexivity.
Qed.

Lemma names_rewriteLink fuel dataAtom s attrs st attrs' st' :
  V3.rewriteLink world pageURL pageTargetHostDir pageDirpath fuel dataAtom s attrs st
  = V3.Done attrs' st' ->
  names attrs' = names attrs.
Proof.
  unfold V3.rewriteLink.
  destruct (negb _); [intros H; injection H as <- _; reflexivity|].
  destruct (url_Parse _); [|intros H; injection H as <- _; reflexivity].
  destruct (isRequisite _ _ _ _).
  - unfold V3.bind, V3.ret.
    destruct (V3.fetchResourceFromLinkIfNecessary _ _ _ _ st) as [[reference|] st1| |];
      try discriminate; intros H; injection H as <- _;
      [apply names_setVal|reflexivity].
  - intros H. injection H as <- _. apply names_setVal.
Qed.

Lemma same_tag_processToken fuel prevToken token st out st' :
  V3.processToken world pageURL pageTargetHostDir pageDirpath fuel prevToken token st
  = V3.Done out st' ->
  same_tag token out.
Proof.
  unfold V3.processToken.
  destruct (negb (bool_decide (Type_ token = html.SelfClosingTagToken))
            && negb (bool_decide (Type_ token = html.StartTagToken))) eqn:Htype.
  { intros H. injection H as <- _. unfold same_tag. tauto. }
  assert (Htag : Type_ token <> html.StartTagToken ->
                 Type_ token <> html.SelfClosingTagToken -> out = token).
  { intros H1 H2. rewrite !bool_decide_eq_false_2 in Htype by assumption.
    discriminate Htype. }
  destruct prevToken as [prev|]; [|discriminate].
  destruct (bool_decide (DataAtom prev = atom.Style)).
  - unfold V3.bind, V3.ret.
    destruct (V3.fetchLinkedResourcesInCSS _ _ _ _ st) as [css st1| |]; try discriminate.
    intros H. injection H as <- _. unfold same_tag, html.withData.
    cbn [Type_ DataAtom Data Attr]. tauto.
  - unfold V3.bind at 1.
    destruct (V3.rewriteStyle _ _ _ _ _ _ _ st) as [attrs1 st1| |] eqn:Hstyle;
      try discriminate.
    unfold V3.bind, V3.ret.
    destruct (V3.rewriteLink _ _ _ _ _ _ _ _ st1) as [attrs2 st2| |] eqn:Hlink;
      try discriminate.
    apply names_rewriteStyle in Hstyle. apply names_rewriteLink in Hlink.
    intros H. injection H as <- _. unfold same_tag, html.withAttr.
    cbn [Type_ DataAtom Data Attr]. intuition congruence.
Qed.

End SameTag.

(** X14. Processing a page changes nothing but values: the tokens written
    are as many as the tokens read and in the same order, every token keeps
    its type and its element, every tag keeps the names of its attributes in
    their order (only values of attributes or the data of the tag differ),
    and a token that is not a start tag or a self-closing tag is written as
    it was read. *)
Theorem page_keeps_tags_and_names {lib : Library} (world : World)
    (pageURL : URL) (pageTargetHostDir pageDirpath : string) (fuel : nat)
    (tokens : list Token) :
  forall (prevToken : option Token) (out : list Token) (st st' : V3.State),
    V3.processTokens world pageURL pageTargetHostDir pageDirpath fuel prevToken tokens st
    = V3.Done out st' ->
    Forall2 same_tag tokens out.
Proof.
  induction tokens as [|token rest IH]; intros prevToken out st st'; cbn [V3.processTokens].
  - intros H. injection H as <- _. constructor.
  - unfold V3.bind at 1.
    destruct (V3.processToken _ _ _ _ _ _ _ st) as [token' st1| |] eqn:E; try discriminate.
    unfold V3.bind, V3.ret.
    destruct (V3.processTokens _ _ _ _ _ _ _ st1) as [rest' st2| |] eqn:Erest;
      try discriminate.
    intros H. injection H as <- _. constructor.
    + eapply same_tag_processToken, E.
    + eapply IH, Erest.
Qed.

(** The page with the image [img/a.png]. *)
Lemma page_keeps_tags_and_names_witness :
  Forall2 same_tag [css_example.image] run_example.image_localized.
Proof.
  exact (page_keeps_tags_and_names (lib := GoModel.library) css_example.picture_server
           page_example.pageURL page_example.targetHostDir page_example.pageDirpath
           1 [css_example.image] (Some page_example.doctype) run_example.image_localized
           V3.state_init run_example.image_fetched image_run).
Defined.

(** ** The tree walk of the first generation *)

Lemma Node_ind_forall (P : Node -> Prop) :
  (forall type dataAtom data attrs children,
     Forall P children -> P (mkNode type dataAtom data attrs children)) ->
  forall node, P node.
Proof.
  intros step. fix IH 1. intros [type dataAtom data attrs children].
  apply step. induction children as [|child children IHchildren]; constructor.
  - apply IH.
  - exact IHchildren.
Qed.

Lemma blank_setVal index val attrs :
  map (fun attr => mkAttribute (Namespace attr) (Key attr) "") (setVal index val attrs)
  = map (fun attr => mkAttribute (Namespace attr) (Key attr) "") attrs.
Proof.
  unfold setVal. revert index.
  induction attrs as [|attr attrs IH]; intros [|index]; cbn; try reflexivity.
  f_equal. apply IH.
Qed.

Section TreeWalk.

Context {lib : Library} (world : World).
Variables (pageURL : URL) (targetHostDir pageDirpath : string).

Lemma V1_getAndWrite_requests u d sys :
  requests (V1.getAndWriteResourceToFile world u d sys).2 = requests sys ++ [url_String u].
Proof.
  unfold V1.getAndWriteResourceToFile, getResource, V1.writeResourceContentToFile.
  destruct (http_Get world _ _) as [[ct content]|]; [|reflexivity].
  cbn. destruct (can_create world _); reflexivity.
Qed.

Lemma V1_rewriteElement_spec dataAtom attrs sys :
  let r := V1.rewriteElement world pageURL targetHostDir pageDirpath dataAtom attrs sys in
  map (fun attr => mkAttribute (Namespace attr) (Key attr) "") r.1
  = map (fun attr => mkAttribute (Namespace attr) (Key attr) "") attrs
  /\ exists more, requests r.2 = requests sys ++ more /\ length more <= 1.
Proof.
  assert (Hsame : exists more : list string,
            requests sys = requests sys ++ more /\ length more <= 1).
  { exists []. rewrite app_nil_r. split; [reflexivity|cbn; lia]. }
  assert (Hget : forall u,
            exists more : list string,
              requests (V1.getAndWriteResourceToFile world u targetHostDir sys).2
              = requests sys ++ more /\ length more <= 1).
  { intros u. exists [url_String u]. split; [apply V1_getAndWrite_requests|reflexivity]. }
  unfold V1.rewriteElement. cbv zeta.
  destruct (negb _); [split; [reflexivity|exact Hsame]|].
  destruct (url_Parse _) as [linkURI|]; [|split; [reflexivity|exact Hsame]].
  destruct (isRequisite _ _ _ _); [|split; [apply blank_setVal|exact Hsame]].
  destruct (bool_decide (Opaque linkURI = "")).
  - destruct (bool_decide (Path linkURI ≠ "")); [|split; [reflexivity|exact Hsame]].
    specialize (Hget (url_ResolveReference pageURL linkURI)).
    destruct (V1.getAndWriteResourceToFile _ _ _ _) as [[ct|] sys1];
      [|split; [reflexivity|exact Hget]].
    destruct (filepath_Rel _ _); split;
      [apply blank_setVal|exact Hget|reflexivity|exact Hget].
  - specialize (Hget linkURI).
    destruct (V1.getAndWriteResourceToFile _ _ _ _) as [[ct|] sys1];
      split; [apply blank_setVal|exact Hget|reflexivity|exact Hget].
Qed.

End TreeWalk.

(** X15. The tree walk of the first generation changes nothing but the
    values of attributes: the tree that is rendered has the nodes of the tree
    that was parsed, with the same types, elements, data, children and names
    of attributes. It issues at most one request for each element of the tree
    and none for the other nodes, and the requests made before stay in the
    log. *)
Theorem tree_walk_keeps_the_tree {lib : Library} (world : World)
    (pageURL : URL) (targetHostDir pageDirpath : string) :
  forall (node : Node) (sys : Sys),
    let r := V1.fetchRequisiteResourcesAndRewriteLinks world pageURL targetHostDir pageDirpath
               node sys in
    skeleton r.1 = skeleton node
    /\ exists more, requests r.2 = requests sys ++ more /\ length more <= elements node.
Proof.
  intros node. induction node as [type dataAtom data attrs children IH] using Node_ind_forall.
  intros sys. cbv zeta. cbn [V1.fetchRequisiteResourcesAndRewriteLinks].
  set (walk := fix recursively (l : list Node) (sys0 : Sys) {struct l} : list Node * Sys :=
         match l with
         | [] => ([], sys0)
         | child :: l' =>
             let '(child', sys') :=
               V1.fetchRequisiteResourcesAndRewriteLinks world pageURL targetHostDir
                 pageDirpath child sys0 in
             let '(l'', sys'') := recursively l' sys' in (child' :: l'', sys'')
         end).
  assert (Hwalk : forall sys0,
            map skeleton (walk children sys0).1 = map skeleton children
            /\ exists more, requests (walk children sys0).2 = requests sys0 ++ more
                            /\ length more <= list_sum (map elements children)).
  { induction IH as [|child rest Hchild _ IHrest]; intros sys0.
    - cbn. split; [reflexivity|]. exists []. rewrite app_nil_r.
      split; [reflexivity|cbn; lia].
    - cbn [walk]. fold walk.
      specialize (Hchild sys0). cbv zeta in Hchild.
      destruct (V1.fetchRequisiteResourcesAndRewriteLinks _ _ _ _ child sys0)
        as [child' sys'].
      destruct Hchild as (Hc & more1 & Hr1 & Hl1). cbn [fst snd] in *.
      specialize (IHrest sys').
      destruct (walk rest sys') as [rest' sys''].
      destruct IHrest as (Hrest & more2 & Hr2 & Hl2). cbn [fst snd] in *.
      split; [cbn [map]; congruence|].
      exists (more1 ++ more2). rewrite Hr2, Hr1, <- app_assoc. split; [reflexivity|].
      rewrite length_app.
      change (list_sum (map elements (child :: rest)))
        with (elements child + list_sum (map elements rest)).
      lia. }
  assert (Helem : let r := if bool_decide (type = html.ElementNode)
                           then V1.rewriteElement world pageURL targetHostDir pageDirpath
                                  dataAtom attrs sys
                           else (attrs, sys) in
            map (fun attr => mkAttribute (Namespace attr) (Key attr) "") r.1
            = map (fun attr => mkAttribute (Namespace attr) (Key attr) "") attrs
            /\ exists more, requests r.2 = requests sys ++ more
                            /\ length more
                               <= (if bool_decide (type = html.ElementNode) then 1 else 0)).
  { destruct (bool_decide (type = html.ElementNode)).
    - apply (V1_rewriteElement_spec world pageURL targetHostDir pageDirpath).
    - split; [reflexivity|]. exists []. rewrite app_nil_r. split; [reflexivity|cbn; lia]. }
  cbv zeta in Helem.
  destruct (if bool_decide (type = html.ElementNode) then _ else _) as [attrs' sys1].
  destruct Helem as (Ha & more1 & Hr1 & Hl1). cbn [fst snd] in *.
  specialize (Hwalk sys1). destruct (walk children sys1) as [children' sys2].
  destruct Hwalk as (Hc & more2 & Hr2 & Hl2). cbn [fst snd] in *.
  split.
  - cbn [skeleton]. rewrite Ha. f_equal. exact Hc.
  - exists (more1 ++ more2). rewrite Hr2, Hr1, <- app_assoc. split; [reflexivity|].
    rewrite length_app. cbn [elements]. lia.
Qed.

(** ** The second generation *)

(** X16. The second generation requests resources of the host of the page
    only: the requests issued while the tokens of a page are processed are
    the URLs of resources whose host is the host of the page, appended to the
    log. *)
Theorem V2_page_requests_same_host {lib : Library} (world : World)
    (pageURL : URL) (targetHostDir pageDirpath : string) (tokens : list Token) :
  forall st : V2.State,
    exists resourceURLs,
      requests (V2.sys (V2.processTokens world pageURL targetHostDir pageDirpath tokens st).2)
      = requests (V2.sys st) ++ map url_String resourceURLs
      /\ Forall (fun resourceURL => Host resourceURL = Host pageURL) resourceURLs.
Proof.
  induction tokens as [|token rest IH]; intros st; cbn [V2.processTokens].
  - exists []. cbn. rewrite app_nil_r. split; [reflexivity|constructor].
  - pose proof (V2_requests_same_host world pageURL targetHostDir pageDirpath token st)
      as Htoken. cbv zeta in Htoken.
    destruct (V2.processToken world pageURL targetHostDir pageDirpath token st)
      as [token' st1].
    specialize (IH st1).
    destruct (V2.processTokens world pageURL targetHostDir pageDirpath rest st1)
      as [rest' st2].
    cbn [snd] in *. destruct IH as (urls & Hreq & Hhost).
    destruct Htoken as [Hsame|(u & Hu & Hone)].
    + exists urls. rewrite Hreq, Hsame. split; [reflexivity|exact Hhost].
    + exists (u :: urls). rewrite Hreq, Hone, <- app_assoc.
      split; [reflexivity|constructor; assumption].
Qed.

(** X17. In the second generation a link is localized at its first
    occurrence only: when the resource of a tag is fetched and the link is
    rewritten, the same tag directly after it is written as it was read, with
    the link of the source, and no request is issued for it. *)
Theorem V2_second_occurrence_not_localized {lib : Library} (world : World)
    (pageURL : URL) (targetHostDir pageDirpath : string) (token : Token)
    (linkURI : URL) (st : V2.State) (contentType relativeLinkPath : string) (sys1 : Sys) :
  let s := scanAttrs false (Attr token) in
  let resourceURL := url_ResolveReference pageURL linkURI in
  let localized :=
    html.withAttr token
      (setVal (linkURIAttrIndex s)
         (adjustResourceFilenameExtension
            (withQuery (filepath.ToSlash relativeLinkPath) (RawQuery resourceURL))
            contentType)
         (Attr token)) in
  Type_ token = html.StartTagToken \/ Type_ token = html.SelfClosingTagToken ->
  hasLinkURIAttr s = true ->
  url_Parse (linkURIStr s) = Some linkURI ->
  isRequisite (linkURIAttrAtom s) (DataAtom token) (hasRel s) (rel s) = true ->
  Opaque linkURI = "" ->
  Path linkURI <> "" ->
  Host resourceURL = Host pageURL ->
  url_String resourceURL ∉ V2.fetchedResources st ->
  V2.getAndWriteResourceToFile world resourceURL targetHostDir (V2.sys st)
  = (Some contentType, sys1) ->
  filepath_Rel pageDirpath (filepath.FromSlash (Path resourceURL)) = Some relativeLinkPath ->
  V2.processTokens world pageURL targetHostDir pageDirpath [token; token] st
  = ([localized; token],
     V2.mkState sys1 ({[url_String resourceURL]} ∪ V2.fetchedResources st)).
Proof.
  intros s resourceURL localized Htype Hfound Hparsed Hreq Hopaque Hpath Hhost Hnew Hget Hrel.
  assert (Htag : negb (bool_decide (Type_ token = html.SelfClosingTagToken))
                 && negb (bool_decide (Type_ token = html.StartTagToken)) = false)
    by (destruct Htype as [E | E]; rewrite E; reflexivity).
  assert (Hfirst : V2.processToken world pageURL targetHostDir pageDirpath token st
                   = (localized,
                      V2.mkState sys1 ({[url_String resourceURL]} ∪ V2.fetchedResources st))).
  { unfold V2.processToken. rewrite Htag. fold s. rewrite Hfound, Hparsed, Hreq.
    cbn [negb]. rewrite (bool_decide_eq_true_2 _ Hopaque).
    rewrite (bool_decide_eq_true_2 _ Hpath). fold resourceURL.
    unfold V2.doesResourceHaveToBeFetched.
    rewrite (bool_decide_eq_false_2 _ Hnew), (bool_decide_eq_true_2 _ Hhost).
    cbn [negb andb]. rewrite Hget, Hrel. reflexivity. }
  assert (Hsecond : forall sys',
            V2.processToken world pageURL targetHostDir pageDirpath token
              (V2.mkState sys' ({[url_String resourceURL]} ∪ V2.fetchedResources st))
            = (token, V2.mkState sys' ({[url_String resourceURL]} ∪ V2.fetchedResources st))).
  { intros sys'. unfold V2.processToken. rewrite Htag. fold s.
    rewrite Hfound, Hparsed, Hreq.
    cbn [negb]. rewrite (bool_decide_eq_true_2 _ Hopaque).
    rewrite (bool_decide_eq_true_2 _ Hpath). fold resourceURL.
    unfold V2.doesResourceHaveToBeFetched. cbn [V2.fetchedResources].
    rewrite bool_decide_eq_true_2
      by (apply elem_of_union_l, elem_of_singleton; reflexivity).
    reflexivity. }
  cbn [V2.processTokens]. rewrite Hfirst, Hsecond. reflexivity.
Qed.

(** The image [/images/x.png], twice on the page [/t/topic]: the first tag
    gets the link [../images/x.png], the second keeps [/images/x.png]. *)
Lemma V2_second_occurrence_not_localized_witness :
  V2.processTokens (lib := GoModel.library) css_example.picture_server
    css_example.deepPageURL page_example.targetHostDir "/t"
    [V2_example.picture; V2_example.picture] (V2.mkState sys_init ∅)
  = ([V2_example.picture_localized; V2_example.picture],
     V2.mkState V2_example.picture_fetched {["http://forum.example/images/x.png"]}).
Proof.
  rewrite (V2_second_occurrence_not_localized (lib := GoModel.library)
             css_example.picture_server css_example.deepPageURL
             page_example.targetHostDir "/t" V2_example.picture V2_example.picture_link
             (V2.mkState sys_init ∅) "image/png" "../images/x.png"
             V2_example.picture_fetched).
  - vm_compute. reflexivity.
  - right. reflexivity.
  - reflexivity.
  - vm_compute. reflexivity.
  - reflexivity.
  - reflexivity.
  - discriminate.
  - reflexivity.
  - apply not_elem_of_empty.
  - vm_compute. reflexivity.
  - vm_compute. reflexivity.
Defined.

(** ** Panics and termination of the third generation *)

Lemma never_panics_ret {T : Type} (a : T) : never_panics (V3.ret a).
Proof. intros st. discriminate. Qed.

Lemma never_panics_bind {T U : Type} (c : V3.M T) (k : T -> V3.M U) :
  never_panics c -> (forall a, never_panics (k a)) -> never_panics (V3.bind c k).
Proof.
  intros Hc Hk st. unfold V3.bind. specialize (Hc st).
  destruct (c st) as [a st1| |]; [apply Hk|congruence|discriminate].
Qed.

Section NoPanic.

Context {lib : Library} (world : World).

Section WithHandler.

Variable getAndWrite : URL -> string -> V3.M (option string).
Hypothesis never_panics_getAndWrite : forall u d, never_panics (getAndWrite u d).

Lemma never_panics_fetchResource linkURI context :
  never_panics (V3.fetchResourceFromLinkIfNecessary_with getAndWrite linkURI context).
Proof.
  unfold V3.fetchResourceFromLinkIfNecessary_with.
  destruct (bool_decide (Opaque linkURI = "")).
  - destruct (bool_decide (Path linkURI = "")); [apply never_panics_ret|].
    apply never_panics_bind; [intros st; discriminate|]. intros cached.
    apply never_panics_bind.
    + destruct cached; [apply never_panics_ret|].
      apply never_panics_bind; [apply never_panics_getAndWrite|].
      intros [ct|]; [|apply never_panics_ret].
      apply never_panics_bind; [intros st; discriminate|]. intros _. apply never_panics_ret.
    + intros [ct|]; [|apply never_panics_ret].
      destruct (filepath_Rel _ _); apply never_panics_ret.
  - apply never_panics_bind; [intros st; discriminate|].
    intros [ct0|]; [|apply never_panics_ret].
    apply never_panics_bind; [apply never_panics_getAndWrite|].
    intros [ct|]; [|apply never_panics_ret].
    apply never_panics_bind; [intros st; discriminate|]. intros _. apply never_panics_ret.
Qed.

Lemma never_panics_css_loop gas : forall css context buffer,
  never_panics (V3.css_loop getAndWrite gas css context buffer).
Proof.
  induction gas as [|gas IH]; intros css context buffer; cbn [V3.css_loop].
  - destruct (cssURLMatcher.FindSubmatchIndex css); [|apply never_panics_ret].
    intros st. discriminate.
  - destruct (cssURLMatcher.FindSubmatchIndex css); [|apply never_panics_ret].
    destruct (url_Parse _); [|apply IH].
    apply never_panics_bind; [apply never_panics_fetchResource|]. intros r. apply IH.
Qed.

End WithHandler.

Lemma never_panics_getAndWriteResourceToFile fuel : forall u d,
  never_panics (V3.getAndWriteResourceToFile world fuel u d).
Proof.
  induction fuel as [|fuel IH]; intros u d; cbn [V3.getAndWriteResourceToFile].
  - intros st. discriminate.
  - apply never_panics_bind.
    { intros st. unfold V3.getResourceM, getResource. discriminate. }
    intros [[ct content]|]; [|apply never_panics_ret].
    apply never_panics_bind.
    { intros st. unfold V3.openFileForResourceContent.
      destruct (can_create world _); discriminate. }
    intros file.
    assert (Hwrite : never_panics
              match file with
              | Some filename =>
                  V3.bind (V3.writeFile filename content) (fun _ => V3.ret (Some ct))
              | None => V3.ret None
              end).
    { destruct file; [|apply never_panics_ret].
      apply never_panics_bind; [intros st; discriminate|]. intros _. apply never_panics_ret. }
    destruct (strings.HasPrefix ct "text/css"); [|exact Hwrite].
    apply never_panics_bind; [apply never_panics_css_loop, IH|]. intros content'.
    destruct file; [|apply never_panics_ret].
    apply never_panics_bind; [intros st; discriminate|]. intros _. apply never_panics_ret.
Qed.

Variables (pageURL : URL) (pageTargetHostDir pageDirpath : string).

Lemma never_panics_processToken fuel prev token :
  never_panics
    (V3.processToken world pageURL pageTargetHostDir pageDirpath fuel (Some prev) token).
Proof.
  unfold V3.processToken.
  destruct (negb _ && negb _); [apply never_panics_ret|].
  destruct (bool_decide (DataAtom prev = atom.Style)).
  - apply never_panics_bind;
      [apply never_panics_css_loop, never_panics_getAndWriteResourceToFile|].
    intros css. apply never_panics_ret.
  - apply never_panics_bind.
    + unfold V3.rewriteStyle. destruct (hasStyle _); [|apply never_panics_ret].
      apply never_panics_bind;
        [apply never_panics_css_loop, never_panics_getAndWriteResourceToFile|].
      intros css. apply never_panics_ret.
    + intros attrs. apply never_panics_bind; [|intros attrs'; apply never_panics_ret].
      unfold V3.rewriteLink. destruct (negb _); [apply never_panics_ret|].
      destruct (url_Parse _); [|apply never_panics_ret].
      destruct (isRequisite _ _ _ _); [|apply never_panics_ret].
      apply never_panics_bind;
        [apply never_panics_fetchResource, never_panics_getAndWriteResourceToFile|].
      intros [r|]; apply never_panics_ret.
Qed.

Lemma never_panics_processTokens fuel tokens : forall prev,
  never_panics
    (V3.processTokens world pageURL pageTargetHostDir pageDirpath fuel (Some prev) tokens).
Proof.
  induction tokens as [|token rest IH]; intros prev; cbn [V3.processTokens].
  - apply never_panics_ret.
  - apply never_panics_bind; [apply never_panics_processToken|]. intros token'.
    apply never_panics_bind; [apply IH|]. intros rest'. apply never_panics_ret.
Qed.

End NoPanic.

(** X18. Processing a page panics exactly when the first token of the page
    is a start tag or a self-closing tag: the body of the loop reads
    [prevToken.DataAtom] while [prevToken] is still nil. After a first token
    of another type no token makes the program panic. *)
Theorem page_panics_iff_first_token_is_tag {lib : Library} (world : World)
    (pageURL : URL) (pageTargetHostDir pageDirpath : string) (fuel : nat)
    (tokens : list Token) (st : V3.State) :
  V3.processTokens world pageURL pageTargetHostDir pageDirpath fuel None tokens st = V3.Panic
  <-> exists token rest, tokens = token :: rest /\ is_tag token.
Proof.
  split.
  - destruct tokens as [|token rest]; cbn [V3.processTokens]; [discriminate|].
    intros Hpanic. exists token, rest. split; [reflexivity|].
    unfold V3.bind at 1, V3.processToken in Hpanic. unfold is_tag.
    destruct (decide (Type_ token = html.StartTagToken)) as [|Hstart]; [tauto|].
    destruct (decide (Type_ token = html.SelfClosingTagToken)) as [|Hself]; [tauto|].
    rewrite !bool_decide_eq_false_2 in Hpanic by assumption.
    cbn [negb andb] in Hpanic. unfold V3.ret at 1 in Hpanic.
    exfalso. revert Hpanic.
    apply (never_panics_bind
             (V3.processTokens world pageURL pageTargetHostDir pageDirpath fuel
                (Some token) rest)
             (fun rest' => V3.ret (token :: rest'))).
    + apply never_panics_processTokens.
    + intros rest'. apply never_panics_ret.
  - intros (token & rest & -> & Htag). cbn [V3.processTokens].
    unfold V3.bind at 1, V3.processToken.
    replace (negb (bool_decide (Type_ token = html.SelfClosingTagToken))
             && negb (bool_decide (Type_ token = html.StartTagToken))) with false
      by (destruct Htag as [E | E]; rewrite E; reflexivity).
    reflexivity.
Qed.

Section PageReturns.

Context {lib : Library} (world : World).
Hypothesis served : no_stylesheet world.
Variables (pageURL : URL) (pageTargetHostDir pageDirpath : string).

Lemma total_processToken fuel prev token :
  total (V3.processToken world pageURL pageTargetHostDir pageDirpath (S fuel)
           (Some prev) token).
Proof.
  assert (Hget : forall u d, total (V3.getAndWriteResourceToFile world (S fuel) u d))
    by (intros u d; apply total_getAndWrite_without_stylesheets, served).
  unfold V3.processToken.
  destruct (negb _ && negb _); [apply total_ret|].
  destruct (bool_decide (DataAtom prev = atom.Style)).
  - apply total_bind; [apply total_fetchLinkedResourcesInCSS, Hget|].
    intros css. apply total_ret.
  - apply total_bind.
    + unfold V3.rewriteStyle. destruct (hasStyle _); [|apply total_ret].
      apply total_bind; [apply total_fetchLinkedResourcesInCSS, Hget|].
      intros css. apply total_ret.
    + intros attrs. apply total_bind; [|intros attrs'; apply total_ret].
      unfold V3.rewriteLink. destruct (negb _); [apply total_ret|].
      destruct (url_Parse _); [|apply total_ret].
      destruct (isRequisite _ _ _ _); [|apply total_ret].
      apply total_bind; [apply total_fetchResource, Hget|].
      intros [r|]; apply total_ret.
Qed.

End PageReturns.

(** X19. When no answer of the server is a stylesheet, processing the
    tokens of a page after a first token always comes to its end with a
    result: every loop of the CSS rewriter takes at least seven bytes from
    the rest of its text and no fetch starts a nested rewrite. *)
Theorem page_returns_without_stylesheets {lib : Library} (world : World)
    (pageURL : URL) (pageTargetHostDir pageDirpath : string) (fuel : nat)
    (tokens : list Token) :
  no_stylesheet world ->
  forall (prev : Token) (st : V3.State),
    returns (V3.processTokens world pageURL pageTargetHostDir pageDirpath (S fuel)
               (Some prev) tokens st).
Proof.
  intros Hserved.
  induction tokens as [|token rest IH]; intros prev; cbn [V3.processTokens].
  - apply total_ret.
  - apply total_bind; [apply total_processToken, Hserved|]. intros token'.
    apply total_bind; [intros st; apply IH|]. intros rest'. apply total_ret.
Qed.

(** The page with the image [img/a.png] and the server of the pictures. *)
Lemma page_returns_without_stylesheets_witness :
  returns (V3.processTokens (lib := GoModel.library) css_example.picture_server
             page_example.pageURL page_example.targetHostDir page_example.pageDirpath
             1 (Some page_example.doctype) [css_example.image] V3.state_init).
Proof.
  apply (page_returns_without_stylesheets (lib := GoModel.library)
           css_example.picture_server).
  intros gets urlStr contentType content. unfold css_example.picture_server.
  cbn [http_Get]. destruct (_ || _); [|discriminate].
  intros H. injection H as <- _. reflexivity.
Defined.

(** ** Which attributes the rewrite touches *)

Section Touched.

Context {lib : Library} (world : World).
Variables (pageURL : URL) (pageTargetHostDir pageDirpath : string).

Lemma rewriteStyle_lookup fuel s attrs st attrs' st' i :
  V3.rewriteStyle world pageURL pageTargetHostDir pageDirpath fuel s attrs st
  = V3.Done attrs' st' ->
  hasStyle s = false \/ i <> styleIndex s ->
  attrs' !! i = attrs !! i.
Proof.
  unfold V3.rewriteStyle. intros H Hi. destruct (hasStyle s).
  - destruct Hi as [Hi|Hi]; [discriminate|]. revert H. unfold V3.bind, V3.ret.
    destruct (V3.fetchLinkedResourcesInCSS _ _ _ _ st) as [css st1| |]; try discriminate.
    intros H. injection H as <- _. apply setVal_lookup_ne. congruence.
  - injection H as <- _. reflexivity.
Qed.

Lemma rewriteLink_lookup fuel dataAtom s attrs st attrs' st' i :
  V3.rewriteLink world pageURL pageTargetHostDir pageDirpath fuel dataAtom s attrs st
  = V3.Done attrs' st' ->
  hasLinkURIAttr s = false \/ i <> linkURIAttrIndex s ->
  attrs' !! i = attrs !! i.
Proof.
  unfold V3.rewriteLink. intros H Hi. destruct (hasLinkURIAttr s); cbn [negb] in H.
  - destruct Hi as [Hi|Hi]; [discriminate|].
    destruct (url_Parse _); [|injection H as <- _; reflexivity].
    destruct (isRequisite _ _ _ _).
    + revert H. unfold V3.bind, V3.ret.
      destruct (V3.fetchResourceFromLinkIfNecessary _ _ _ _ st) as [[reference|] st1| |];
        try discriminate; intros H; injection H as <- _; [|reflexivity].
      apply setVal_lookup_ne. congruence.
    + injection H as <- _. apply setVal_lookup_ne. congruence.
  - injection H as <- _. reflexivity.
Qed.

End Touched.

(** X20. Of the attributes of a tag, only the link attribute that the scan
    chose and the [style] attribute that it recorded can get another value:
    every attribute at another index is written as it was read. *)
Theorem rewrite_touches_scanned_attributes_only {lib : Library} (world : World)
    (pageURL : URL) (pageTargetHostDir pageDirpath : string) (fuel : nat)
    (prevToken : option Token) (token out : Token) (st st' : V3.State) (index : nat) :
  let s := scanAttrs true (Attr token) in
  V3.processToken world pageURL pageTargetHostDir pageDirpath fuel prevToken token st
  = V3.Done out st' ->
  hasLinkURIAttr s = false \/ index <> linkURIAttrIndex s ->
  hasStyle s = false \/ index <> styleIndex s ->
  Attr out !! index = Attr token !! index.
Proof.
  intros s. unfold V3.processToken.
  destruct (negb _ && negb _); [intros H; injection H as <- _; reflexivity|].
  destruct prevToken as [prev|]; [|discriminate].
  destruct (bool_decide (DataAtom prev = atom.Style)).
  - unfold V3.bind, V3.ret.
    destruct (V3.fetchLinkedResourcesInCSS _ _ _ _ st) as [css st1| |]; try discriminate.
    intros H. injection H as <- _. reflexivity.
  - fold s. unfold V3.bind at 1.
    destruct (V3.rewriteStyle _ _ _ _ _ _ _ st) as [attrs1 st1| |] eqn:Hstyle;
      try discriminate.
    unfold V3.bind, V3.ret.
    destruct (V3.rewriteLink _ _ _ _ _ _ _ _ st1) as [attrs2 st2| |] eqn:Hlink;
      try discriminate.
    intros H Hl Hs. injection H as <- _. cbn [Attr html.withAttr].
    rewrite (rewriteLink_lookup _ _ _ _ _ _ _ _ _ _ _ index Hlink Hl).
    apply (rewriteStyle_lookup _ _ _ _ _ _ _ _ _ _ index Hstyle Hs).
Qed.

Lemma described_picture_run :
  V3.processToken (lib := GoModel.library) css_example.picture_server
    css_example.deepPageURL page_example.targetHostDir "/t"
    1 (Some page_example.doctype) run_example.described_picture V3.state_init
  = V3.Done run_example.described_picture_localized run_example.picture_fetched.
Proof. vm_compute. reflexivity. Qed.

(** The description of the picture [<img alt="a picture" src="/images/x.png"/>]. *)
Lemma rewrite_touches_scanned_attributes_only_witness :
  Attr run_example.described_picture_localized !! 0
  = Attr run_example.described_picture !! 0.
Proof.
  apply (rewrite_touches_scanned_attributes_only (lib := GoModel.library)
           css_example.picture_server css_example.deepPageURL page_example.targetHostDir
           "/t" 1 (Some page_example.doctype) run_example.described_picture
           run_example.described_picture_localized V3.state_init
           run_example.picture_fetched 0 described_picture_run).
  - right. vm_compute. discriminate.
  - left. vm_compute. reflexivity.
Defined.

(** ** The extension normalizer *)

Section ExtensionTest.

Import filepath.

Lemma both_cases_cons a b lower upper :
  both_cases (String a lower) (String b upper) = Class [b; a] :: both_cases lower upper.
Proof. reflexivity. Qed.

Lemma matched_letters lower : forall upper e,
  match matchChunk (both_cases lower upper) e with
  | Some t => is_empty t
  | None => false
  end = letters e lower upper.
Proof.
  induction lower as [|a lower IH]; intros upper e.
  - destruct e; reflexivity.
  - destruct upper as [|b upper]; [destruct e; reflexivity|].
    rewrite both_cases_cons. destruct e as [|c e]; [reflexivity|].
    cbn [matchChunk letters item_matches existsb]. rewrite <- IH.
    destruct (Ascii.eqb c a), (Ascii.eqb c b); reflexivity.
Qed.

Lemma matched_extension lower upper e :
  match matchChunk (Lit "." :: both_cases lower upper) e with
  | Some t => is_empty t
  | None => false
  end = letters e (String "." lower) (String "." upper).
Proof.
  destruct e as [|c e]; [reflexivity|].
  cbn [matchChunk letters item_matches]. rewrite <- matched_letters.
  destruct (Ascii.eqb c "."); reflexivity.
Qed.

Lemma star_extension chunk name :
  match skipStar chunk true name with
  | Some t => is_empty t
  | None => false
  end
  = match name with
    | String c name' =>
        negb (Ascii.eqb c Separator)
        && (match matchChunk chunk name' with Some t => is_empty t | None => false end
            || match skipStar chunk true name' with Some t => is_empty t | None => false end)
    | EmptyString => false
    end.
Proof.
  destruct name as [|c name']; [reflexivity|]. cbn [skipStar].
  destruct (Ascii.eqb c Separator); [reflexivity|]. cbn [negb andb].
  destruct (matchChunk chunk name') as [[|d t]|]; reflexivity.
Qed.

Lemma Match_star_chunk it chunk name :
  Match [(true, it :: chunk)] name
  = match matchChunk (it :: chunk) name with Some t => is_empty t | None => false end
    || match skipStar (it :: chunk) true name with Some t => is_empty t | None => false end.
Proof.
  cbn [Match]. destruct (matchChunk (it :: chunk) name) as [[|d t]|]; reflexivity.
Qed.

Lemma Match_has_extension lower upper name :
  Match [(true, Lit "." :: both_cases lower upper)] name = has_extension name lower upper.
Proof.
  rewrite Match_star_chunk.
  induction name as [|c name IH].
  - rewrite matched_extension. cbn [has_extension skipStar]. reflexivity.
  - rewrite star_extension. cbn [has_extension]. rewrite <- IH, matched_extension.
    reflexivity.
Qed.

End ExtensionTest.

(** X21. The test by which [adjustResourceFilenameExtension] decides that a
    name has its extension already holds exactly for the names that end with a
    dot and the letters of the extension, each letter in either case, with no
    separator before the dot; so the function is the normalizer in words: it
    adds the extension of the content type unless the name passes this
    test. *)
Theorem adjust_extension_in_words (filename contentType : string) :
  adjustResourceFilenameExtension filename contentType
  = adjust_in_words filename contentType.
Proof.
  unfold adjustResourceFilenameExtension, adjust_in_words.
  unfold pattern_html, pattern_htm, pattern_css, pattern_atom, pattern_rss.
  rewrite !Match_has_extension.
  destruct (strings.HasPrefix contentType "text/html"
            || strings.HasPrefix contentType "application/xhtml+xml").
  - destruct (has_extension filename "html" "HTML"), (has_extension filename "htm" "HTM");
      reflexivity.
  - destruct (strings.HasPrefix contentType "text/css");
      [destruct (has_extension filename "css" "CSS"); reflexivity|].
    destruct (strings.HasPrefix contentType "application/atom+xml");
      [destruct (has_extension filename "atom" "ATOM"); reflexivity|].
    destruct (strings.HasPrefix contentType "application/rss+xml");
      [destruct (has_extension filename "rss" "RSS"); reflexivity|].
    reflexivity.
Qed.

Lemma letters_no_separator e : forall lower upper,
  letters e lower upper = true ->
  strings.ContainsByte lower filepath.Separator = false ->
  strings.ContainsByte upper filepath.Separator = false ->
  strings.ContainsByte e filepath.Separator = false.
Proof.
  induction e as [|c e IH]; intros lower upper H Hl Hu; [reflexivity|].
  destruct lower as [|a lower]; [discriminate|].
  destruct upper as [|b upper]; [discriminate|].
  cbn [letters] in H. apply andb_true_iff in H as [Hc He].
  cbn [strings.ContainsByte] in *.
  apply orb_false_iff in Hl as [Ha Hl]. apply orb_false_iff in Hu as [Hb Hu].
  rewrite (IH _ _ He Hl Hu), orb_false_r.
  apply orb_true_iff in Hc as [Hc|Hc]; apply Ascii.eqb_eq in Hc; subst c; assumption.
Qed.

Lemma has_extension_no_separator name lower upper :
  has_extension name lower upper = true ->
  strings.ContainsByte lower filepath.Separator = false ->
  strings.ContainsByte upper filepath.Separator = false ->
  strings.ContainsByte name filepath.Separator = false.
Proof.
  intros H Hl Hu. induction name as [|c name IH]; [reflexivity|].
  cbn [has_extension] in H. apply orb_true_iff in H as [H|H].
  - apply (letters_no_separator _ _ _ H); cbn [strings.ContainsByte];
      rewrite ?Hl, ?Hu; reflexivity.
  - apply andb_true_iff in H as [Hc H]. cbn [strings.ContainsByte].
    rewrite (IH H), orb_false_r. apply negb_true_iff in Hc.
    rewrite Ascii.eqb_sym. exact Hc.
Qed.

Lemma ContainsByte_app s t c :
  strings.ContainsByte (s +:+ t) c = strings.ContainsByte s c || strings.ContainsByte t c.
Proof.
  induction s as [|d s IH]; [reflexivity|].
  rewrite str_app_cons. cbn [strings.ContainsByte]. rewrite IH, orb_assoc. reflexivity.
Qed.

Lemma str_app_longer s t : t <> "" -> s +:+ t <> s.
Proof.
  intros Ht E. apply (f_equal String.length) in E. rewrite str_length_app in E.
  destruct t; [congruence|]. cbn in E. lia.
Qed.

Lemma adjust_unknown_content_type filename contentType :
  extension_of contentType = "" ->
  adjustResourceFilenameExtension filename contentType = filename.
Proof.
  unfold extension_of, adjustResourceFilenameExtension.
  repeat match goal with
         | |- context [strings.HasPrefix contentType ?p] =>
             destruct (strings.HasPrefix contentType p)
         end; cbn [orb]; try discriminate; reflexivity.
Qed.

Lemma adjust_with_separator name contentType :
  strings.ContainsByte name filepath.Separator = true ->
  adjustResourceFilenameExtension name contentType = name +:+ extension_of contentType.
Proof.
  intros Hsep.
  assert (Hno : forall lower upper,
            strings.ContainsByte lower filepath.Separator = false ->
            strings.ContainsByte upper filepath.Separator = false ->
            has_extension name lower upper = false).
  { intros lower upper Hl Hu. destruct (has_extension name lower upper) eqn:E;
      [|reflexivity].
    rewrite (has_extension_no_separator _ _ _ E Hl Hu) in Hsep. discriminate Hsep. }
  unfold adjustResourceFilenameExtension, extension_of.
  unfold pattern_html, pattern_htm, pattern_css, pattern_atom, pattern_rss.
  rewrite !Match_has_extension, !Hno by reflexivity. cbn [negb andb].
  repeat match goal with |- context [if ?b then _ else _] => destruct b end;
    try reflexivity.
  symmetry. apply str_app_nil_r.
Qed.

(** X22. A name with a directory part never has its extension for the
    normalizer: whatever its last letters are, the extension that belongs to
    the content type is added to it, at every application. So applying the
    normalizer twice is the same as applying it once exactly for the names
    without a separator and for the content types that have no extension. *)
Theorem adjust_idempotent_exactly_on_file_names (filename contentType : string) :
  (strings.ContainsByte filename filepath.Separator = true ->
   adjustResourceFilenameExtension filename contentType
   = filename +:+ extension_of contentType)
  /\ (adjustResourceFilenameExtension
        (adjustResourceFilenameExtension filename contentType) contentType
      = adjustResourceFilenameExtension filename contentType
      <-> strings.ContainsByte filename filepath.Separator = false
          \/ extension_of contentType = "").
Proof.
  split; [apply adjust_with_separator|]. split.
  - intros Hidem.
    destruct (strings.ContainsByte filename filepath.Separator) eqn:Hsep; [|left; reflexivity].
    right. destruct (string_dec (extension_of contentType) "") as [E|Hext]; [exact E|].
    exfalso. revert Hidem.
    rewrite (adjust_with_separator filename contentType Hsep).
    rewrite adjust_with_separator by (rewrite ContainsByte_app, Hsep; reflexivity).
    apply str_app_longer, Hext.
  - intros [Hsep|Hext].
    + apply adjust_idempotent_without_separator, Hsep.
    + rewrite !adjust_unknown_content_type by exact Hext. reflexivity.
Qed.

(** ** The tag after a style tag *)

Lemma string_of_list_ascii_of_string s : string_of_list_ascii (list_ascii_of_string s) = s.
Proof. induction s as [|c s IH]; [reflexivity|]. cbn. rewrite IH. reflexivity. Qed.

(** X23. A tag that directly follows a token of the element [style] (the
    start or the end of a style element, with no text between) is not scanned
    for links: its name is passed to the CSS rewriter instead, and the tag is
    written as it was read, with no request, whatever links it holds. *)
Theorem tag_after_style_is_not_rewritten {lib : Library} (world : World)
    (pageURL : URL) (pageTargetHostDir pageDirpath : string) (fuel : nat)
    (prev token : Token) (st : V3.State) :
  is_tag token ->
  DataAtom prev = atom.Style ->
  Forall (fun c => cssURLMatcher.is_quote c = false) (list_ascii_of_string (Data token)) ->
  V3.processToken world pageURL pageTargetHostDir pageDirpath fuel (Some prev) token st
  = V3.Done token st.
Proof.
  intros Htag Hprev Hname. unfold V3.processToken.
  replace (negb (bool_decide (Type_ token = html.SelfClosingTagToken))
           && negb (bool_decide (Type_ token = html.StartTagToken))) with false
    by (destruct Htag as [E | E]; rewrite E; reflexivity).
  rewrite bool_decide_eq_true_2 by exact Hprev.
  unfold V3.bind, V3.fetchLinkedResourcesInCSS, V3.fetchLinkedResourcesInCSS_with.
  rewrite css_loop_no_match by (apply no_quote_no_match, Hname).
  unfold V3.ret, html.withData. cbn [app]. rewrite string_of_list_ascii_of_string.
  destruct token. reflexivity.
Qed.

(** The image [<img src="img/a.png"/>] directly after [</style>]. *)
Lemma tag_after_style_is_not_rewritten_witness :
  V3.processToken (lib := GoModel.library) css_example.picture_server
    page_example.pageURL page_example.targetHostDir page_example.pageDirpath
    1 (Some run_example.style_end) css_example.image V3.state_init
  = V3.Done css_example.image V3.state_init.
Proof.
  apply (tag_after_style_is_not_rewritten (lib := GoModel.library)
           css_example.picture_server).
  - right. reflexivity.
  - reflexivity.
  - repeat constructor.
Defined.

(** ** The URL of a page *)

Lemma str_app_inv_head s t u : s +:+ t = s +:+ u -> t = u.
Proof.
  induction s as [|c s IH]; [trivial|]. rewrite !str_app_cons. intros H.
  injection H as H. apply IH, H.
Qed.

Lemma decimal_inj (x y : Z) : (0 <= x)%Z -> (0 <= y)%Z -> fmt.decimal x = fmt.decimal y -> x = y.
Proof.
  unfold fmt.decimal. intros Hx Hy H.
  apply (f_equal NilEmpty.uint_of_string) in H. rewrite !NilEmpty.usu in H.
  injection H as H. apply DecimalN.Unsigned.to_uint_inj in H.
  apply Z2N.inj; assumption.
Qed.

(** X24. Different pages are requested at different URLs, as long as the
    offset of the last post does not overflow: for a positive step and page
    numbers from 1 on whose offsets [step * (page - 1)] are below [2^64], the
    page URL determines the page number. *)
Theorem pages_have_different_URLs (forumTopicPageURLTemplate : string)
    (forumTopicPostStep p q : Z) :
  (0 < forumTopicPostStep)%Z ->
  (1 <= p)%Z -> (1 <= q)%Z ->
  (forumTopicPostStep * (p - 1) < 2 ^ 64)%Z ->
  (forumTopicPostStep * (q - 1) < 2 ^ 64)%Z ->
  p <> q ->
  V1.pageURLStr forumTopicPageURLTemplate forumTopicPostStep p
  <> V1.pageURLStr forumTopicPageURLTemplate forumTopicPostStep q.
Proof.
  intros Hstep Hp Hq Hpo Hqo Hne H. apply Hne.
  unfold V1.pageURLStr in H. apply str_app_inv_head in H.
  assert (Hoff : forall n, (1 <= n)%Z -> (forumTopicPostStep * (n - 1) < 2 ^ 64)%Z ->
                 V1.postOffset forumTopicPostStep n = (forumTopicPostStep * (n - 1))%Z).
  { intros n Hn Ho. unfold V1.postOffset, V1.uint_wrap.
    rewrite (Z.mod_small (n - 1)) by nia. apply Z.mod_small. nia. }
  rewrite (Hoff p Hp Hpo), (Hoff q Hq Hqo) in H.
  apply decimal_inj in H; nia.
Qed.

(** The first two pages of a topic with 15 posts on a page. *)
Lemma pages_have_different_URLs_witness :
  V1.pageURLStr "http://forum.example/topic?start=" 15 1
  <> V1.pageURLStr "http://forum.example/topic?start=" 15 2.
Proof.
  apply (pages_have_different_URLs "http://forum.example/topic?start=" 15 1 2); lia.
Defined.

(** ** The page ranges of [main] *)

(** X25. A page range [first..last] adds exactly the pages from [first] to
    [last] to the pages to fetch, and the loop ends after [last - first + 1]
    iterations, when [last] is not the largest number of its type; a range
    whose first page is greater than its last page adds nothing and is not
    reported. *)
Theorem page_range_adds_first_to_last (fuel : nat) :
  forall (first last : Z) (pages : gset Z),
    (0 <= first)%Z -> (last < 2 ^ 64 - 1)%Z ->
    Z.to_nat (last - first + 1) <= fuel ->
    addPageRange fuel first last pages
    = Some (list_to_set (seqZ first (last - first + 1)) ∪ pages).
Proof.
  induction fuel as [|fuel IH]; intros first last pages Hfirst Hlast Hfuel.
  - cbn [addPageRange]. rewrite bool_decide_eq_false_2 by lia.
    rewrite seqZ_nil by lia. rewrite list_to_set_nil, (left_id_L ∅ (∪)). reflexivity.
  - cbn [addPageRange]. destruct (decide (first <= last)%Z) as [Hle|Hgt].
    + rewrite bool_decide_eq_true_2 by exact Hle.
      unfold V1.uint_wrap. rewrite Z.mod_small by lia.
      rewrite IH by lia. f_equal.
      rewrite (seqZ_cons first) by lia. rewrite list_to_set_cons.
      replace (Z.succ first) with (first + 1)%Z by lia.
      replace (Z.pred (last - first + 1)) with (last - (first + 1) + 1)%Z by lia.
      set (rest := list_to_set (seqZ (first + 1) (last - (first + 1) + 1)) : gset Z).
      apply set_eq. intros x. rewrite !elem_of_union. tauto.
    + rewrite bool_decide_eq_false_2 by exact Hgt.
      rewrite seqZ_nil by lia. rewrite list_to_set_nil, (left_id_L ∅ (∪)). reflexivity.
Qed.

(** The range [2..4]. *)
Lemma page_range_adds_first_to_last_witness :
  addPageRange 3 2 4 ∅ = Some (list_to_set (seqZ 2 (4 - 2 + 1)) ∪ ∅).
Proof. apply (page_range_adds_first_to_last 3 2 4 ∅); lia. Defined.

(** ** The name in the link and the name of the file *)

Lemma getAndWrite_stores {lib : Library} (world : World) fuel u d st contentType content
    r st' :
  http_Get world (requests (V3.sys st)) (url_String u) = Some (contentType, content) ->
  can_create world (resourceFilename u contentType d) = true ->
  V3.getAndWriteResourceToFile world fuel u d st = V3.Done r st' ->
  r = Some contentType /\ is_Some (files (V3.sys st') !! resourceFilename u contentType d).
Proof.
  intros Hget Hcreate. destruct fuel as [|fuel]; [discriminate|].
  cbn [V3.getAndWriteResourceToFile].
  unfold V3.bind at 1, V3.getResourceM, getResource. rewrite Hget.
  unfold V3.bind at 1, V3.openFileForResourceContent. rewrite Hcreate.
  assert (Hwrite : forall content' st3,
            V3.bind (V3.writeFile (resourceFilename u contentType d) content')
              (fun _ => V3.ret (Some contentType)) st3 = V3.Done r st' ->
            r = Some contentType
            /\ is_Some (files (V3.sys st') !! resourceFilename u contentType d)).
  { intros content' st3. unfold V3.bind, V3.writeFile, V3.ret.
    intros H. injection H as <- <-. split; [reflexivity|].
    cbn [V3.sys files]. rewrite lookup_insert_eq. eauto. }
  destruct (strings.HasPrefix contentType "text/css"); [|apply Hwrite].
  unfold V3.bind at 1.
  destruct (V3.fetchLinkedResourcesInCSS_with _ _ _ _) as [content' st3| |];
    try discriminate.
  apply Hwrite.
Qed.

(** X26. The link and the file of a resource get their extension
    separately, and the results differ for a resource in the directory of the
    page: the local path of the file starts with a separator, so the
    extension of the content type is always added to it, while the link, a
    name without a separator that has the extension already, is kept. The
    page then refers to [style.css] and the file is [style.css.css]. *)
Theorem same_directory_link_misses_its_file {lib : Library} (world : World) (fuel : nat)
    (linkURI : URL) (context : V3.resourceFetcherContext) (st st' : V3.State)
    (contentType relativeLinkPath : string) (content : list ascii)
    (r : option string) :
  let resourceURL := url_ResolveReference (V3.baseURL context) linkURI in
  let localPath :=
    url_String (mkURL "" (Opaque resourceURL) "" (Path resourceURL) false
                      (RawQuery resourceURL) "") in
  Opaque linkURI = "" ->
  Path linkURI <> "" ->
  V3.fetchedResources st !! url_String resourceURL = None ->
  http_Get world (requests (V3.sys st)) (url_String resourceURL)
  = Some (contentType, content) ->
  can_create world (resourceFilename resourceURL contentType (V3.targetHostDir context))
  = true ->
  filepath_Rel (V3.dirpath context) (filepath.FromSlash (Path resourceURL))
  = Some relativeLinkPath ->
  RawQuery resourceURL = "" ->
  strings.ContainsByte localPath filepath.Separator = true ->
  adjustResourceFilenameExtension relativeLinkPath contentType = relativeLinkPath ->
  V3.fetchResourceFromLinkIfNecessary world fuel linkURI context st = V3.Done r st' ->
  r = Some relativeLinkPath
  /\ is_Some (files (V3.sys st')
              !! filepath_Join [V3.targetHostDir context;
                                filepath.FromSlash (localPath +:+ extension_of contentType)]).
Proof.
  intros resourceURL localPath Hopaque Hpath Hmiss Hget Hcreate Hrel Hquery Hsep Hhas.
  assert (Hname : resourceFilename resourceURL contentType (V3.targetHostDir context)
                  = filepath_Join [V3.targetHostDir context;
                                   filepath.FromSlash
                                     (localPath +:+ extension_of contentType)]).
  { unfold resourceFilename, getLocalResourceRelativeReference. fold localPath.
    rewrite (adjust_with_separator _ _ Hsep). reflexivity. }
  rewrite <- Hname.
  unfold V3.fetchResourceFromLinkIfNecessary, V3.fetchResourceFromLinkIfNecessary_with.
  rewrite (bool_decide_eq_true_2 _ Hopaque), (bool_decide_eq_false_2 _ Hpath).
  fold resourceURL. unfold V3.bind, V3.lookupFetched, V3.storeFetched, V3.ret.
  rewrite Hmiss.
  destruct (V3.getAndWriteResourceToFile world fuel resourceURL (V3.targetHostDir context) st)
    as [r1 st1| |] eqn:E; try discriminate.
  destruct (getAndWrite_stores world _ _ _ _ _ _ _ _ Hget Hcreate E) as [-> Hfile].
  rewrite Hrel, Hquery. unfold withQuery, filepath.ToSlash.
  rewrite bool_decide_eq_true_2 by reflexivity. rewrite Hhas.
  intros H. injection H as <- <-. split; [reflexivity|exact Hfile].
Qed.

(** The stylesheet [style.css] of the page [http://forum.example/topic]. *)
Lemma same_directory_link_misses_its_file_witness :
  Some "style.css" = Some "style.css"
  /\ is_Some (files (V3.sys run_example.style_fetched)
              !! "/srv/mirror/1/forum.example/style.css.css").
Proof.
  apply (same_directory_link_misses_its_file (lib := GoModel.library)
           run_example.stylesheet_server 1 run_example.style_link
           (V3.mkContext page_example.pageURL page_example.targetHostDir
              page_example.pageDirpath)
           V3.state_init run_example.style_fetched "text/css" "style.css"
           run_example.plain_stylesheet (Some "style.css")).
  - reflexivity.
  - discriminate.
  - reflexivity.
  - reflexivity.
  - reflexivity.
  - vm_compute. reflexivity.
  - reflexivity.
  - reflexivity.
  - reflexivity.
  - vm_compute. reflexivity.
Defined.

(** ** The first generation has no cache *)

(** X27. The first generation fetches a resource once for every element
    that refers to it: below a node that is not an element, [n] childless
    elements with the same attributes, whose link is requisite, not opaque and
    has a path, make [n] requests for the same URL, whatever the server
    answers. *)
Theorem V1_fetches_every_occurrence {lib : Library} (world : World)
    (pageURL : URL) (targetHostDir pageDirpath : string)
    (type : html.NodeType) (dataAtom elementAtom : Atom) (data elementData : string)
    (attrs elementAttrs : list Attribute) (linkURI : URL) (n : nat) (sys : Sys) :
  let s := scanAttrs false elementAttrs in
  let element := mkNode html.ElementNode elementAtom elementData elementAttrs [] in
  type <> html.ElementNode ->
  hasLinkURIAttr s = true ->
  url_Parse (linkURIStr s) = Some linkURI ->
  isRequisite (linkURIAttrAtom s) elementAtom (hasRel s) (rel s) = true ->
  Opaque linkURI = "" ->
  Path linkURI <> "" ->
  requests (V1.fetchRequisiteResourcesAndRewriteLinks world pageURL targetHostDir pageDirpath
              (mkNode type dataAtom data attrs (replicate n element)) sys).2
  = requests sys ++ replicate n (url_String (url_ResolveReference pageURL linkURI)).
Proof.
  intros s element Htype Hfound Hparsed Hreq Hopaque Hpath.
  assert (Hone : forall sys0,
            requests (V1.fetchRequisiteResourcesAndRewriteLinks world pageURL targetHostDir
                        pageDirpath element sys0).2
            = requests sys0 ++ [url_String (url_ResolveReference pageURL linkURI)]).
  { intros sys0. unfold element. cbn [V1.fetchRequisiteResourcesAndRewriteLinks].
    rewrite bool_decide_eq_true_2 by reflexivity.
    unfold V1.rewriteElement. fold s. rewrite Hfound, Hparsed, Hreq. cbn [negb].
    rewrite (bool_decide_eq_true_2 _ Hopaque), (bool_decide_eq_true_2 _ Hpath).
    pose proof (V1_getAndWrite_requests world (url_ResolveReference pageURL linkURI)
                  targetHostDir sys0) as Hget.
    destruct (V1.getAndWriteResourceToFile _ _ _ _) as [[ct|] sys1]; cbn [snd] in Hget;
      [|exact Hget].
    destruct (filepath_Rel _ _); exact Hget. }
  cbn [V1.fetchRequisiteResourcesAndRewriteLinks].
  rewrite bool_decide_eq_false_2 by exact Htype.
  set (walk := fix recursively (l : list Node) (sys0 : Sys) {struct l} : list Node * Sys :=
         match l with
         | [] => ([], sys0)
         | child :: l' =>
             let '(child', sys') :=
               V1.fetchRequisiteResourcesAndRewriteLinks world pageURL targetHostDir
                 pageDirpath child sys0 in
             let '(l'', sys'') := recursively l' sys' in (child' :: l'', sys'')
         end).
  assert (Hwalk : forall sys0,
            requests (walk (replicate n element) sys0).2
            = requests sys0
              ++ replicate n (url_String (url_ResolveReference pageURL linkURI))).
  { induction n as [|n IH]; intros sys0.
    - cbn. rewrite app_nil_r. reflexivity.
    - cbn [replicate walk]. fold walk. specialize (Hone sys0).
      destruct (V1.fetchRequisiteResourcesAndRewriteLinks _ _ _ _ element sys0)
        as [child' sys'].
      cbn [snd] in Hone. specialize (IH sys').
      destruct (walk (replicate n element) sys') as [rest' sys''].
      cbn [snd] in *. rewrite IH, Hone, <- app_assoc. reflexivity. }
  specialize (Hwalk sys). destruct (walk (replicate n element) sys) as [children' sys2].
  exact Hwalk.
Qed.

(** Two pictures with the source [img/a.png] and a server without answer. *)
Lemma V1_fetches_every_occurrence_witness :
  requests (V1.fetchRequisiteResourcesAndRewriteLinks (lib := GoModel.library)
              page_example.offline page_example.pageURL page_example.targetHostDir
              page_example.pageDirpath V1_example.document sys_init).2
  = [] ++ replicate 2 "http://forum.example/img/a.png".
Proof.
  apply (V1_fetches_every_occurrence (lib := GoModel.library) page_example.offline
           page_example.pageURL page_example.targetHostDir page_example.pageDirpath
           html.DocumentNode atom.Zero atom.Zero "" "img" []
           [mkAttribute "" "src" "img/a.png"]
           (mkURL "" "" "" "img/a.png" false "" "") 2 sys_init).
  - discriminate.
  - reflexivity.
  - vm_compute. reflexivity.
  - reflexivity.
  - reflexivity.
  - discriminate.
Defined.
